(** * ISP customer portal backend: a shallow embedding and its properties

    The development follows the layout of the Python sources under
    [backend/app]: one module per source file, each definition named after
    the function it embeds.  External collaborators (the JWT library, the
    router, the network, the database engine) appear as explicit
    parameters or as explicit state.  *)

From Stdlib Require Import ZArith Ascii String List Bool Lia.
From stdpp Require Import base option list strings gmap fin_maps pretty.

#[local] Set Warnings "-register-all".
Local Open Scope Z_scope.
Local Open Scope string_scope.

(** ** Python values, exceptions and outcomes *)

Module Py.

(** Values that travel through JSON bodies and token claims.  Numbers are
    integers; a [datetime] is represented by its whole seconds since the
    epoch, the resolution at which an expiry claim travels. *)
Inductive value : Type :=
  | VNone
  | VBool (b : bool)
  | VInt (z : Z)
  | VStr (s : string)
  | VDatetime (t : Z)
  | VList (l : list value)
  | VDict (d : gmap string value).

(** The exception classes the sources raise, catch or let through. *)
Inductive exn : Type :=
  | HTTPException (status_code : Z) (detail : string)
  | ExpiredSignatureError
  | DecodeError
  | InvalidSignatureError
  | OtherInvalidTokenError
  | ValidationError
  | IntegrityError
  | DataError
  | MultipleResultsFound
  | AttributeError
  | TypeError
  | KeyError
  | IndexError
  | OverflowError
  | RouterOsApiError (msg : string)
  | NetworkError (msg : string).

(** [jwt.InvalidTokenError] is the base class of every token error,
    [jwt.ExpiredSignatureError] included. *)
Definition is_InvalidTokenError (e : exn) : bool :=
  match e with
  | ExpiredSignatureError | DecodeError | InvalidSignatureError
  | OtherInvalidTokenError => true
  | _ => false
  end.

Definition is_ExpiredSignatureError (e : exn) : bool :=
  match e with ExpiredSignatureError => true | _ => false end.

Definition is_HTTPException (e : exn) : bool :=
  match e with HTTPException _ _ => true | _ => false end.

(** A call either returns or raises. *)
Inductive outcome (A : Type) : Type :=
  | Return (a : A)
  | Raise (e : exn).
Arguments Return {A} a.
Arguments Raise {A} e.

Definition bind {A B} (m : outcome A) (k : A -> outcome B) : outcome B :=
  match m with
  | Return a => k a
  | Raise e => Raise e
  end.

(** [try: m except Exception: h] *)
Definition try_except {A} (m : outcome A) (h : exn -> outcome A) : outcome A :=
  match m with
  | Return a => Return a
  | Raise e => h e
  end.

Definition returned {A} (m : outcome A) : option A :=
  match m with Return a => Some a | Raise _ => None end.

(** Truth value of an object, as tested by [if x:]. *)
Definition truthy (v : value) : bool :=
  match v with
  | VNone => false
  | VBool b => b
  | VInt z => negb (Z.eqb z 0)
  | VStr s => negb (String.eqb s "")
  | VDatetime _ => true
  | VList l => match l with [] => false | _ => true end
  | VDict d => match map_to_list d with [] => false | _ => true end
  end.

(** [d.get(key, default)]; anything but a dict has no [get]. *)
Definition get (d : value) (key : string) (dflt : value) : outcome value :=
  match d with
  | VDict m => Return (default dflt (m !! key))
  | _ => Raise AttributeError
  end.

(** [x[0]] *)
Definition item0 (x : value) : outcome value :=
  match x with
  | VList (v :: _) => Return v
  | VList [] => Raise IndexError
  | VStr (String c _) => Return (VStr (String c EmptyString))
  | VStr EmptyString => Raise IndexError
  | VDict _ => Raise KeyError
  | _ => Raise TypeError
  end.

(** *** Strings *)

Definition dquote : string := String "034"%char EmptyString.

(** [a in s] for strings: [a] occurs somewhere in [s]. *)
Fixpoint contains (a s : string) : bool :=
  String.prefix a s ||
  match s with
  | EmptyString => false
  | String _ s' => contains a s'
  end.

(** [s.replace(old, new)] for a non-empty [old]: one pass from the left;
    at a position where [old] starts, [new] is emitted and the scan
    resumes after the match.  [skip] counts the characters of a match
    still to be passed over. *)
Fixpoint replace_from (old new : string) (skip : nat) (s : string) : string :=
  match s with
  | EmptyString => EmptyString
  | String c s' =>
      match skip with
      | S k => replace_from old new k s'
      | O =>
          if String.prefix old s
          then new +:+ replace_from old new (Nat.pred (String.length old)) s'
          else String c (replace_from old new O s')
      end
  end.

Definition replace (s old new : string) : string := replace_from old new O s.

(** [s.split(sep)] for a one-character separator: never empty. *)
Fixpoint split (s : string) (sep : ascii) : list string :=
  match s with
  | EmptyString => [EmptyString]
  | String c s' =>
      if Ascii.eqb c sep then EmptyString :: split s' sep
      else match split s' sep with
           | [] => [String c EmptyString]
           | h :: t => String c h :: t
           end
  end.

(** [l[-1]] on a list of strings known to be non-empty. *)
Definition last_item (l : list string) : string := List.last l EmptyString.

(** [s[:n]] *)
Fixpoint slice_to (n : nat) (s : string) : string :=
  match n, s with
  | S k, String c s' => String c (slice_to k s')
  | _, _ => EmptyString
  end.

Definition map_chars (f : ascii -> ascii) : string -> string :=
  fix go s := match s with
              | EmptyString => EmptyString
              | String c s' => String (f c) (go s')
              end.

Definition upper_char (c : ascii) : ascii :=
  let n := nat_of_ascii c in
  if (Nat.leb 97 n && Nat.leb n 122)%bool then ascii_of_nat (n - 32) else c.

Definition lower_char (c : ascii) : ascii :=
  let n := nat_of_ascii c in
  if (Nat.leb 65 n && Nat.leb n 90)%bool then ascii_of_nat (n + 32) else c.

(** [s.upper()] and [s.lower()] on the ASCII letters. *)
Definition upper : string -> string := map_chars upper_char.
Definition lower : string -> string := map_chars lower_char.

Definition is_space (c : ascii) : bool :=
  let n := nat_of_ascii c in
  (Nat.eqb n 32 || (Nat.leb 9 n && Nat.leb n 13) || (Nat.leb 28 n && Nat.leb n 31))%bool.

Fixpoint lstrip (s : string) : string :=
  match s with
  | String c s' => if is_space c then lstrip s' else s
  | EmptyString => EmptyString
  end.

Fixpoint rstrip (s : string) : string :=
  match s with
  | EmptyString => EmptyString
  | String c s' =>
      match rstrip s' with
      | EmptyString => if is_space c then EmptyString else String c EmptyString
      | r => String c r
      end
  end.

(** [s.strip()], for the white space of the ASCII range. *)
Definition strip (s : string) : string := rstrip (lstrip s).

(** [str(v)].  The text of a container is its [repr], which the sources
    never inspect; it is supplied by [repr_container]. *)
Definition str (repr_container : value -> string) (v : value) : string :=
  match v with
  | VNone => "None"
  | VBool true => "True"
  | VBool false => "False"
  | VInt z => pretty z
  | VStr s => s
  | VDatetime _ | VList _ | VDict _ => repr_container v
  end.

(** *** The random source

    [random.choices(population, k=n)] draws [n] times with replacement.
    The generator is a tape of raw draws read from a cursor; each draw is
    reduced to an index into the population. *)
Definition tape := nat -> nat.

Definition choices (population : list ascii) (k : nat) (t : tape) (pos : nat)
  : list ascii * nat :=
  (List.map (fun i => nth (Nat.modulo (t (pos + i)%nat) (List.length population))
                          population "000"%char)
            (seq 0 k),
   (pos + k)%nat).

(** The text of an exception, [str(e)]. *)
Definition exn_str (e : exn) : string :=
  match e with
  | HTTPException _ d => d
  | RouterOsApiError m | NetworkError m => m
  | _ => EmptyString
  end.

(** [datetime.min] and [datetime.max], counted in seconds from the epoch
    (years 1 and 9999). *)
Definition datetime_min : Z := -62135596800.
Definition datetime_max : Z := 253402300799.

(** [timedelta(hours=h)], in seconds: the days of a span stay within
    999999999 in magnitude. *)
Definition timedelta_hours (h : Z) : outcome Z :=
  if Z.leb (-999999999) (h / 24) && Z.leb (h / 24) 999999999
  then Return (3600 * h)
  else Raise OverflowError.

(** [d + delta] for a datetime [d]: the sum is a datetime again. *)
Definition datetime_add (d delta : Z) : outcome Z :=
  if Z.leb datetime_min (d + delta) && Z.leb (d + delta) datetime_max
  then Return (d + delta)
  else Raise OverflowError.

(** [''.join(chars)] *)
Definition join_chars (l : list ascii) : string := string_of_list_ascii l.

Definition ascii_uppercase : list ascii := list_ascii_of_string "ABCDEFGHIJKLMNOPQRSTUVWXYZ".
Definition digits : list ascii := list_ascii_of_string "0123456789".

End Py.

(** ** app/core/config.py *)

Module Config.

Record Settings : Type := {
  SECRET_KEY : string;
  JWT_ALGORITHM : string;
  JWT_EXPIRATION_HOURS : Z
}.

(** The defaults of [Settings]; the default key is drawn at start-up and
    is therefore a parameter here. *)
Definition default_settings (secret : string) : Settings :=
  {| SECRET_KEY := secret; JWT_ALGORITHM := "HS256"; JWT_EXPIRATION_HOURS := 24 |}.

End Config.

(** ** What the web framework does with a handler's outcome *)

Module Http.
Import Py.

(** A response of an outbound HTTP call: [response.json()] may raise. *)
Record Response : Type := {
  status_code : Z;
  text : string;
  json : outcome value;
  headers : gmap string string
}.

(** A required [Header(...)] parameter: a request without the header is
    turned down by request validation before the dependency runs. *)
Inductive rejection : Type :=
  | MissingHeader (name : string).

Inductive reply (A : Type) : Type :=
  | Reply (status : Z) (body : A)
  | ErrorReply (status : Z) (detail : string)
  | ValidationReply (status : Z) (errors : list rejection).
Arguments Reply {A} status body.
Arguments ErrorReply {A} status detail.
Arguments ValidationReply {A} status errors.

Definition status_of {A} (r : reply A) : Z :=
  match r with
  | Reply s _ | ErrorReply s _ | ValidationReply s _ => s
  end.

Definition detail_of {A} (r : reply A) : option string :=
  match r with
  | ErrorReply _ d => Some d
  | _ => None
  end.

(** An [HTTPException] becomes a reply with its status and detail; any
    other exception reaches the handler registered for [Exception] in
    [main.py], which answers 500 with a fixed detail. *)
Definition global_exception_handler {A} (e : exn) : reply A :=
  ErrorReply 500 "Internal server error".

Definition respond {A} (o : outcome A) : reply A :=
  match o with
  | Return a => Reply 200 a
  | Raise (HTTPException s d) => ErrorReply s d
  | Raise e => global_exception_handler e
  end.

(** A route whose handler depends on a required header. *)
Definition with_required_header {A} (name : string) (header : option string)
    (handler : string -> outcome A) : reply A :=
  match header with
  | None => ValidationReply 422 [MissingHeader name]
  | Some v => respond (handler v)
  end.

End Http.

(** ** app/core/database.py: the customers table *)

Module Database.
Import Py.

(** A stored row of [customers].  The two server-side timestamps play no
    part in what follows and are left out. *)
Record Customer : Type := {
  id : Z;
  uisp_customer_id : string;
  email : string;
  name : option string;
  phone : option string;
  is_active : bool
}.

(** A [Customer(...)] object as built by the caller, before it is flushed. *)
Record NewCustomer : Type := {
  new_uisp_customer_id : value;
  new_email : value;
  new_name : value;
  new_phone : value
}.

(** The table and the sequence behind its primary key. *)
Record Table : Type := {
  rows : list Customer;
  next_id : Z
}.

(** Binding a Python value to a text parameter of the statement: the
    driver takes a string or [None] and turns anything else down before
    the statement is sent. *)
Definition bind_String (v : value) : outcome (option string) :=
  match v with
  | VStr s => Return (Some s)
  | VNone => Return None
  | _ => Raise DataError
  end.

(** The coercion of a parameter to [VARCHAR(width)]. *)
Definition fits (width : nat) (o : option string) : bool :=
  match o with
  | Some s => Nat.leb (String.length s) width
  | None => true
  end.

(** [unique=True] *)
Definition unique_free (col : Customer -> string) (x : string) (t : Table) : bool :=
  forallb (fun r => negb (String.eqb (col r) x)) (rows t).

(** [select(Customer).where(Customer.uisp_customer_id == x)] *)
Definition select_where_uisp_customer_id (x : string) (t : Table) : list Customer :=
  List.filter (fun r => String.eqb (uisp_customer_id r) x) (rows t).

(** [result.scalar_one_or_none()] *)
Definition scalar_one_or_none (l : list Customer) : outcome (option Customer) :=
  match l with
  | [] => Return None
  | [r] => Return (Some r)
  | _ => Raise MultipleResultsFound
  end.

(** [db.add(c); db.commit(); db.refresh(c)], as PostgreSQL runs the
    INSERT.  A text that does not fit its column is turned down before
    the row is formed.  Then the key is drawn from the sequence and the
    constraints (not null, unique) are checked: a refused row leaves the
    rows as they were, but the key that was drawn is not given back. *)
Definition add_commit_refresh (c : NewCustomer) (t : Table) : outcome Customer * Table :=
  let params :=
    bind (bind_String (new_uisp_customer_id c)) (fun u =>
    bind (bind_String (new_email c)) (fun e =>
    bind (bind_String (new_name c)) (fun n =>
    bind (bind_String (new_phone c)) (fun p =>
    Return (u, e, n, p))))) in
  match params with
  | Raise err => (Raise err, t)
  | Return (u, e, n, p) =>
      if fits 255 u && fits 255 e && fits 255 n && fits 50 p then
        let drawn := {| rows := rows t; next_id := next_id t + 1 |} in
        match u, e with
        | Some u, Some e =>
            if unique_free uisp_customer_id u t && unique_free email e t then
              let r := {| id := next_id t; uisp_customer_id := u; email := e;
                          name := n; phone := p; is_active := true |} in
              (Return r, {| rows := rows t ++ [r]; next_id := next_id t + 1 |})
            else (Raise IntegrityError, drawn)
        | _, _ => (Raise IntegrityError, drawn)
        end
      else (Raise DataError, t)
  end.

End Database.

(** ** app/api/auth.py *)

Module Auth.
Import Py Config.

Record TokenPayload : Type := {
  customer_id : Z;
  uisp_customer_id : string;
  email : string;
  exp : Z
}.

(** The token library: [jwt.encode(payload, key, algorithm)] and
    [jwt.decode(token, key, algorithms)].  Decoding reads the clock, which
    is passed as the last argument. *)
Class JWT : Type := {
  jwt_encode : gmap string value -> string -> string -> outcome string;
  jwt_decode : string -> string -> list string -> Z -> outcome (gmap string value)
}.

(** The claim names to which the library attaches a meaning besides
    [exp]. *)
Definition registered_claims : list string := ["nbf"; "iat"; "aud"; "iss"; "sub"; "jti"].

Definition is_scalar (v : value) : bool :=
  match v with
  | VNone | VBool _ | VInt _ | VStr _ => true
  | VDatetime _ | VList _ | VDict _ => false
  end.

(** What is assumed of the library.  A payload of scalars with a datetime
    expiry can be signed under HS256.  A token is text without blanks, so
    the scheme prefix does not occur in it.  A token decoded with the key
    and algorithm it was made with, before its expiry, yields the payload
    that was signed, the expiry being carried as a number. *)
Class JWTContract (J : JWT) : Prop := {
  encode_scalars : forall claims key t,
    claims !! "exp" = Some (VDatetime t) ->
    (forall k v, k <> "exp" -> claims !! k = Some v -> is_scalar v = true) ->
    exists tok, jwt_encode claims key "HS256" = Return tok;
  token_alphabet : forall claims key alg tok,
    jwt_encode claims key alg = Return tok -> contains "Bearer " tok = false;
  decode_encode : forall claims key alg tok t now,
    jwt_encode claims key alg = Return tok ->
    claims !! "exp" = Some (VDatetime t) ->
    (forall k, In k registered_claims -> claims !! k = None) ->
    now < t ->
    jwt_decode tok key [alg] now = Return (<["exp" := VInt t]> claims)
}.

(** [TokenPayload] built from the decoded payload passed as keyword
    arguments: the four declared fields are required,
    further keys are ignored.  A field given a value of its declared type
    keeps that value; the expiry arrives as a number of seconds.  Inputs
    of another type are turned down. *)
Definition TokenPayload_init (payload : gmap string value) : outcome TokenPayload :=
  match payload !! "customer_id", payload !! "uisp_customer_id",
        payload !! "email", payload !! "exp" with
  | Some (VInt c), Some (VStr u), Some (VStr e), Some (VInt t)
  | Some (VInt c), Some (VStr u), Some (VStr e), Some (VDatetime t) =>
      Return {| customer_id := c; uisp_customer_id := u; email := e; exp := t |}
  | _, _, _, _ => Raise ValidationError
  end.

(** [token.model_dump()] *)
Definition model_dump (t : TokenPayload) : gmap string value :=
  <["customer_id" := VInt (customer_id t)]>
  (<["uisp_customer_id" := VStr (uisp_customer_id t)]>
  (<["email" := VStr (email t)]>
  (<["exp" := VDatetime (exp t)]> ∅))).

(** [except C1: raise ...  except C2: raise ...]: the first clause whose
    class the exception belongs to is taken and raises in its turn;
    without one the exception propagates. *)
Fixpoint except_clauses {A} (clauses : list ((exn -> bool) * (exn -> exn))) (e : exn)
  : outcome A :=
  match clauses with
  | [] => Raise e
  | (cls, raises) :: rest => if cls e then Raise (raises e) else except_clauses rest e
  end.

Section Tokens.
Context {J : JWT}.
Variable settings : Settings.

(** [datetime.utcnow()] is the argument [now]. *)
Definition create_access_token (now : Z) (data : gmap string value) : outcome string :=
  let to_encode := data in
  bind (timedelta_hours (JWT_EXPIRATION_HOURS settings)) (fun delta =>
  bind (datetime_add now delta) (fun expire =>
  let to_encode := <["exp" := VDatetime expire]> to_encode in
  jwt_encode to_encode (SECRET_KEY settings) (JWT_ALGORITHM settings))).

Definition verify_token (now : Z) (authorization : string) : outcome TokenPayload :=
  try_except
    (let token := replace authorization "Bearer " "" in
     bind (jwt_decode token (SECRET_KEY settings) [JWT_ALGORITHM settings] now)
          (fun payload => TokenPayload_init payload))
    (except_clauses
       [ (is_ExpiredSignatureError, fun _ => HTTPException 401 "Token has expired");
         (is_InvalidTokenError, fun _ => HTTPException 401 "Invalid token") ]).

(** A protected route: [token: TokenPayload = Depends(verify_token)] with
    [authorization: str = Header(...)]. *)
Definition protected_route (now : Z) (authorization : option string)
  : Http.reply TokenPayload :=
  Http.with_required_header "authorization" authorization (verify_token now).

End Tokens.

(** *** Login *)

(** What [uisp_service.authenticate] hands back. *)
Record AuthResult : Type := {
  token : value;
  user : value;
  customer : value;
  services : value
}.

Record LoginRequest : Type := {
  username : string;
  password : string
}.

Record LoginResponse : Type := {
  access_token : string;
  token_type : string;
  response_customer : gmap string value;
  response_services : list value
}.

(** [LoginResponse(access_token=..., customer=..., services=...)] with
    [customer: dict] and [services: list]. *)
Definition LoginResponse_init (tok : string) (c s : value) : outcome LoginResponse :=
  match c, s with
  | VDict d, VList l =>
      Return {| access_token := tok; token_type := "bearer";
                response_customer := d; response_services := l |}
  | _, _ => Raise ValidationError
  end.

Section Login.
Context {J : JWT}.
Variable settings : Settings.
(** The billing platform behind [uisp_service.authenticate]. *)
Variable authenticate : string -> string -> outcome AuthResult.
Variable repr_container : value -> string.

Definition login_payload (row_id : Z) (uisp_customer_id : string) (email tok : value)
  : gmap string value :=
  <["customer_id" := VInt row_id]>
  (<["uisp_customer_id" := VStr uisp_customer_id]>
  (<["email" := email]>
  (<["uisp_token" := tok]> ∅))).

(** The customer row for the external id: the stored one, or a new one. *)
Definition find_or_create (auth_result : AuthResult) (uisp_customer_id : string)
    (email : value) (db : Database.Table) : outcome Database.Customer * Database.Table :=
  match Database.scalar_one_or_none
          (Database.select_where_uisp_customer_id uisp_customer_id db) with
  | Raise e => (Raise e, db)
  | Return (Some c) => (Return c, db)
  | Return None =>
      match
        bind (get (customer auth_result) "firstName" (VStr "")) (fun first =>
        bind (get (customer auth_result) "lastName" (VStr "")) (fun last =>
        bind (get (customer auth_result) "phone" (VStr "")) (fun phone =>
        Return {| Database.new_uisp_customer_id := VStr uisp_customer_id;
                  Database.new_email := email;
                  Database.new_name :=
                    VStr (strip (str repr_container first +:+ " " +:+
                                 str repr_container last));
                  Database.new_phone := phone |})))
      with
      | Raise e => (Raise e, db)
      | Return c => Database.add_commit_refresh c db
      end
  end.

(** The body of the [try] block. *)
Definition login_try (now : Z) (request : LoginRequest) (db : Database.Table)
  : outcome LoginResponse * Database.Table :=
  match authenticate (username request) (password request) with
  | Raise e => (Raise e, db)
  | Return auth_result =>
      match
        bind (get (customer auth_result) "id" (VStr "")) (fun cid =>
        bind (get (user auth_result) "email" (VStr (username request))) (fun email =>
        Return (str repr_container cid, email)))
      with
      | Raise e => (Raise e, db)
      | Return (uisp_customer_id, email) =>
          match find_or_create auth_result uisp_customer_id email db with
          | (Raise e, db') => (Raise e, db')
          | (Return c, db') =>
              (bind (create_access_token settings now
                       (login_payload (Database.id c) uisp_customer_id email
                                      (token auth_result)))
                    (fun access_token =>
                       LoginResponse_init access_token (customer auth_result)
                                          (services auth_result)),
               db')
          end
      end
  end.

(** [except HTTPException: raise] then
    [except Exception: raise HTTPException(401, "Authentication failed")]. *)
Definition login (now : Z) (request : LoginRequest) (db : Database.Table)
  : outcome LoginResponse * Database.Table :=
  let '(o, db') := login_try now request db in
  (try_except o
     (except_clauses
        [ (is_HTTPException, fun e => e);
          ((fun _ => true), fun _ => HTTPException 401 "Authentication failed") ]),
   db').

End Login.

End Auth.

(** ** app/api/devices.py *)

Module Devices.
Import Py Http.

Record DeviceInfo : Type := {
  device_type : string;
  manufacturer : option string;
  model : option string;
  device_id : option string;
  ip_address : option string;
  capabilities : list string
}.

(** The network as seen from the probe: [sock.connect_ex((host, port))],
    the registry query sent to the configuration server, and a plain GET. *)
Record Network : Type := {
  connect_ex : string -> Z -> outcome Z;
  acs_devices : string -> outcome Http.Response;
  http_get : string -> outcome Http.Response
}.

(** A value for an [Optional[str]] field. *)
Definition optional_str (v : value) : outcome (option string) :=
  match v with
  | VStr s => Return (Some s)
  | VNone => Return None
  | _ => Raise ValidationError
  end.

Section Probe.
Variable net : Network.

Definition check_port (host : string) (port : Z) : bool :=
  match connect_ex net host port with
  | Return result => Z.eqb result 0
  | Raise _ => false
  end.

Definition detect_starlink (ip : string) : outcome (option DeviceInfo) :=
  if negb (String.eqb ip "192.168.100.1") then Return None
  else if check_port ip 9200 then
    Return (Some {| device_type := "starlink";
                    manufacturer := Some "SpaceX";
                    model := Some "Starlink Dish";
                    device_id := None;
                    ip_address := Some ip;
                    capabilities := ["wifi_config"; "status"; "reboot"; "stow"] |})
  else Return None.

Definition detect_mikrotik (ip : string) : outcome (option DeviceInfo) :=
  let api_port_open := check_port ip 8728 in
  let winbox_port_open := check_port ip 8291 in
  if api_port_open || winbox_port_open then
    let capabilities := ["wifi_config"; "status"; "reboot"] in
    let capabilities :=
      if check_port ip 80
      then (capabilities ++ ["hotspot_users"; "hotspot_vouchers"; "hotspot_profiles"])%list
      else capabilities in
    Return (Some {| device_type := "mikrotik";
                    manufacturer := Some "MikroTik";
                    model := None;
                    device_id := None;
                    ip_address := Some ip;
                    capabilities := capabilities |})
  else Return None.

Definition wan_ip_query (ip : string) : string :=
  "{" +:+ dquote +:+
  "InternetGatewayDevice.WANDevice.1.WANConnectionDevice.1.WANIPConnection.1.ExternalIPAddress"
  +:+ dquote +:+ ":" +:+ dquote +:+ ip +:+ dquote +:+ "}".

Definition detect_tr069_device (ip : string) : outcome (option DeviceInfo) :=
  try_except
    (bind (acs_devices net (wan_ip_query ip)) (fun response =>
     if Z.eqb (status_code response) 200 then
       bind (json response) (fun devices =>
       if truthy devices then
         bind (item0 devices) (fun device =>
         bind (get device "_deviceId" (VDict ∅)) (fun device_id_ =>
         bind (get device_id_ "_Manufacturer" (VStr "Unknown")) (fun m =>
         bind (get device_id_ "_ProductClass" (VStr "Unknown")) (fun p =>
         bind (get device "_id" VNone) (fun i =>
         bind (optional_str m) (fun m' =>
         bind (optional_str p) (fun p' =>
         bind (optional_str i) (fun i' =>
         Return (Some {| device_type := "tr069";
                         manufacturer := m';
                         model := p';
                         device_id := i';
                         ip_address := Some ip;
                         capabilities :=
                           ["wifi_config"; "status"; "reboot"; "firmware_update"] |})))))))))
       else Return None)
     else Return None))
    (fun _ => Return None).

Definition fingerprint (ip type_ maker : string) (caps : list string) : DeviceInfo :=
  {| device_type := type_; manufacturer := Some maker; model := None;
     device_id := None; ip_address := Some ip; capabilities := caps |}.

Definition detect_by_http_fingerprint (ip : string) : outcome (option DeviceInfo) :=
  try_except
    (bind (http_get net ("http://" +:+ ip +:+ "/")) (fun response =>
     let content := lower (text response) in
     let server := lower (default "" (headers response !! "server")) in
     if contains "tp-link" content || contains "tp-link" server then
       Return (Some (fingerprint ip "tr069" "TP-Link" ["wifi_config"; "status"; "reboot"]))
     else if contains "d-link" content || contains "d-link" server then
       Return (Some (fingerprint ip "tr069" "D-Link" ["wifi_config"; "status"; "reboot"]))
     else if contains "asus" content || contains "asuswrt" content then
       Return (Some (fingerprint ip "asus" "ASUS" ["wifi_config"; "status"]))
     else if contains "ubnt" content || contains "ubiquiti" content
             || contains "unifi" content then
       Return (Some (fingerprint ip "ubiquiti" "Ubiquiti" ["status"]))
     else Return None))
    (fun _ => Return None).

End Probe.

(** [asyncio.gather(..., return_exceptions=True)]: one entry per check, in
    the order given, holding what the check returned or the exception it
    raised. *)
Inductive gathered : Type :=
  | Result (r : option DeviceInfo)
  | Exception (e : exn).

Definition gather (ip : string) (checks : list (string -> outcome (option DeviceInfo)))
  : list gathered :=
  List.map (fun check => match check ip with
                         | Return r => Result r
                         | Raise e => Exception e
                         end) checks.

(** [for result in results: if isinstance(result, DeviceInfo): return result] *)
Fixpoint first_DeviceInfo (results : list gathered) : option DeviceInfo :=
  match results with
  | [] => None
  | Result (Some d) :: _ => Some d
  | _ :: rest => first_DeviceInfo rest
  end.

Definition unknown (ip : string) : DeviceInfo :=
  {| device_type := "unknown"; manufacturer := None; model := None;
     device_id := None; ip_address := Some ip; capabilities := [] |}.

(** The body of [detect_device] over any list of checks. *)
Definition detect_over (checks : list (string -> outcome (option DeviceInfo)))
    (ip : string) : DeviceInfo :=
  let results := gather ip checks in
  default (unknown ip) (first_DeviceInfo results).

Definition detect_device (net : Network) (gateway_ip : string) : DeviceInfo :=
  let ip := gateway_ip in
  detect_over [detect_starlink net; detect_mikrotik net;
               detect_tr069_device net; detect_by_http_fingerprint net] ip.

End Devices.

(** ** app/api/mikrotik.py: voucher issuance *)

Module MikroTik.
Import Py.

Record MikroTikCredentials : Type := {
  host : string;
  username : string;
  password : string;
  port : Z
}.

Record VoucherRequest : Type := {
  count : Z;
  profile : string;
  prefix : string;
  validity : string;
  code_length : Z
}.

(** The keyword arguments of [users.add(...)]. *)
Record HotspotUserParams : Type := {
  param_name : string;
  param_password : string;
  param_profile : string;
  param_limit_uptime : string;
  param_comment : string
}.

(** An issued voucher: the dict with keys [code], [profile], [validity]. *)
Record Voucher : Type := {
  code : string;
  voucher_profile : string;
  voucher_validity : string
}.

(** The router behind [routeros_api]: its configuration store, the
    opening of a session, and the [add] command of [/ip/hotspot/user].  A
    command that is turned down leaves the store as it was. *)
Class RouterOs : Type := {
  router : Type;
  get_api : MikroTikCredentials -> router -> outcome unit;
  hotspot_user_add : HotspotUserParams -> router -> outcome router
}.

Section Service.
Context {R : RouterOs}.

Definition _connect (creds : MikroTikCredentials) (r : router) : outcome unit :=
  try_except (get_api creds r)
    (fun e => Raise (HTTPException 503 ("Cannot connect to MikroTik: " +:+ exn_str e))).

Definition alphabet : list ascii := (ascii_uppercase ++ digits)%list.

(** [request.prefix + ''.join(random.choices(alphabet, k=request.code_length))] *)
Definition new_code (request : VoucherRequest) (t : tape) (pos : nat) : string * nat :=
  let '(chars, pos') := choices alphabet (Z.to_nat (code_length request)) t pos in
  (prefix request +:+ join_chars chars, pos').

Definition voucher_user (request : VoucherRequest) (code : string) : HotspotUserParams :=
  {| param_name := code;
     param_password := code;
     param_profile := profile request;
     param_limit_uptime := validity request;
     param_comment := "Voucher generated automatically" |}.

Definition voucher_record (request : VoucherRequest) (code : string) : Voucher :=
  {| code := code;
     voucher_profile := profile request;
     voucher_validity := validity request |}.

(** The [for i in range(request.count)] loop of [_generate]: the random
    tape [t] is read from [pos]; the registrations made so far stay on
    the router when a later one raises. *)
Fixpoint generate_loop (request : VoucherRequest) (t : tape) (n : nat)
    (vouchers : list Voucher) (pos : nat) (r : router)
  : outcome (list Voucher) * nat * router :=
  match n with
  | O => (Return vouchers, pos, r)
  | S n' =>
      let '(code, pos') := new_code request t pos in
      match hotspot_user_add (voucher_user request code) r with
      | Raise e => (Raise e, pos', r)
      | Return r' =>
          generate_loop request t n' (vouchers ++ [voucher_record request code])%list
                        pos' r'
      end
  end.

Definition generate_vouchers (creds : MikroTikCredentials) (request : VoucherRequest)
    (t : tape) (pos : nat) (r : router) : outcome (list Voucher) * nat * router :=
  match _connect creds r with
  | Raise e => (Raise e, pos, r)
  | Return _ => generate_loop request t (Z.to_nat (count request)) [] pos r
  end.

(** The route [POST /hotspot/vouchers]: the body is the voucher list and
    its length. *)
Definition generate_vouchers_route (creds : MikroTikCredentials)
    (request : VoucherRequest) (t : tape) (pos : nat) (r : router)
  : Http.reply (list Voucher * nat) * nat * router :=
  let '(o, pos', r') := generate_vouchers creds request t pos r in
  (Http.respond (bind o (fun vouchers => Return (vouchers, List.length vouchers))),
   pos', r').

End Service.

End MikroTik.

(** ** app/api/hotspot.py: presets *)

Module Hotspot.
Import Py MikroTik.

Record QuickVoucher : Type := {
  preset : string;
  quick_count : Z
}.

Record Preset : Type := {
  preset_profile : string;
  preset_validity : string;
  preset_rate : string
}.

Definition VOUCHER_PRESETS : list (string * Preset) :=
  [ ("1hour", {| preset_profile := "1hour"; preset_validity := "1h"; preset_rate := "5M/5M" |});
    ("1day", {| preset_profile := "1day"; preset_validity := "1d"; preset_rate := "10M/10M" |});
    ("1week", {| preset_profile := "1week"; preset_validity := "7d"; preset_rate := "10M/10M" |});
    ("1month", {| preset_profile := "1month"; preset_validity := "30d"; preset_rate := "20M/20M" |}) ].

(** [VOUCHER_PRESETS[key]], with [None] when [key not in VOUCHER_PRESETS]. *)
Fixpoint lookup_preset (key : string) (table : list (string * Preset)) : option Preset :=
  match table with
  | [] => None
  | (k, p) :: rest => if String.eqb k key then Some p else lookup_preset key rest
  end.

Record QuickVouchers : Type := {
  vouchers : list Voucher;
  quick_preset : string;
  preset_details : Preset
}.

Section Routes.
Context {R : RouterOs}.

Definition generate_quick_vouchers (creds : MikroTikCredentials) (request : QuickVoucher)
    (t : tape) (pos : nat) (r : router) : outcome QuickVouchers * nat * router :=
  match lookup_preset (preset request) VOUCHER_PRESETS with
  | None =>
      (Raise (HTTPException 400
                "Invalid preset. Available: ['1hour', '1day', '1week', '1month']"),
       pos, r)
  | Some p =>
      let voucher_request :=
        {| count := quick_count request;
           profile := preset_profile p;
           validity := preset_validity p;
           prefix := slice_to 2 (upper (preset request));
           code_length := 8 |} in
      let '(o, pos', r') := generate_vouchers creds voucher_request t pos r in
      (bind o (fun vs => Return {| vouchers := vs;
                                    quick_preset := preset request;
                                    preset_details := p |}),
       pos', r')
  end.

End Routes.

End Hotspot.

(** ** app/api/tr069.py: parameter reads *)

Module TR069.
Import Py Http.

Section Service.
(** [client.request(method, base_url + path)] against the configuration
    server's northbound interface. *)
Variable nbi : string -> string -> outcome Response.

Definition _request (method path : string) : outcome value :=
  bind (nbi method path) (fun response =>
  if Z.leb 400 (status_code response) then
    Raise (HTTPException (status_code response)
                         ("GenieACS error: " +:+ text response))
  else if negb (String.eqb (text response) "") then json response
  else Return VNone).

(** One iteration of the loop of [get_device_parameters]. *)
Definition read_parameter (device_id : string) (result : gmap string value)
    (param : string) : gmap string value :=
  match _request "GET" ("/devices/" +:+ device_id +:+ "/parameters/" +:+ param) with
  | Return data =>
      if truthy data then <[last_item (split param "."%char) := data]> result
      else result
  | Raise _ => result
  end.

Definition get_device_parameters (device_id : string) (parameters : list string)
  : gmap string value :=
  fold_left (read_parameter device_id) parameters ∅.

End Service.

End TR069.

(** ** Reference collaborators

    Executable stand-ins for the external parts: a token codec that meets
    the contract assumed of the JWT library, and a router with a user
    quota that refuses duplicate names.  They make the assumptions of the
    theorems below checkable on concrete inputs. *)

Module Reference.
Import Py Auth MikroTik.

(** *** A token codec *)

Fixpoint enc_pos (p : positive) : string :=
  match p with
  | xH => "."
  | xO q => String "0"%char (enc_pos q)
  | xI q => String "1"%char (enc_pos q)
  end.

Fixpoint dec_pos (s : string) : option (positive * string) :=
  match s with
  | EmptyString => None
  | String c r =>
      if Ascii.eqb c "."%char then Some (xH, r)
      else if Ascii.eqb c "0"%char then
        match dec_pos r with Some (q, r') => Some (xO q, r') | None => None end
      else if Ascii.eqb c "1"%char then
        match dec_pos r with Some (q, r') => Some (xI q, r') | None => None end
      else None
  end.

Definition enc_nat (n : nat) : string := enc_pos (Pos.of_succ_nat n).

Definition dec_nat (s : string) : option (nat * string) :=
  match dec_pos s with
  | Some (p, r) => Some (Nat.pred (Pos.to_nat p), r)
  | None => None
  end.

(** Characters travel as eight binary digits, so that a token is made
    of digits, dots and lower-case tags only. *)
Definition enc_bit (b : bool) : ascii := if b then "1"%char else "0"%char.

Definition dec_bit (c : ascii) : option bool :=
  if Ascii.eqb c "0"%char then Some false
  else if Ascii.eqb c "1"%char then Some true
  else None.

Definition enc_char (c : ascii) (rest : string) : string :=
  let '(Ascii b0 b1 b2 b3 b4 b5 b6 b7) := c in
  String (enc_bit b0) (String (enc_bit b1) (String (enc_bit b2) (String (enc_bit b3)
  (String (enc_bit b4) (String (enc_bit b5) (String (enc_bit b6) (String (enc_bit b7)
  rest))))))).

Definition dec_char (s : string) : option (ascii * string) :=
  match s with
  | String c0 (String c1 (String c2 (String c3
    (String c4 (String c5 (String c6 (String c7 rest))))))) =>
      match dec_bit c0, dec_bit c1, dec_bit c2, dec_bit c3,
            dec_bit c4, dec_bit c5, dec_bit c6, dec_bit c7 with
      | Some b0, Some b1, Some b2, Some b3, Some b4, Some b5, Some b6, Some b7 =>
          Some (Ascii b0 b1 b2 b3 b4 b5 b6 b7, rest)
      | _, _, _, _, _, _, _, _ => None
      end
  | _ => None
  end.

Fixpoint enc_chars (s : string) (rest : string) : string :=
  match s with
  | EmptyString => rest
  | String c s' => enc_char c (enc_chars s' rest)
  end.

Fixpoint dec_chars (n : nat) (s : string) : option (string * string) :=
  match n with
  | O => Some (EmptyString, s)
  | S k =>
      match dec_char s with
      | Some (c, r) =>
          match dec_chars k r with
          | Some (a, b) => Some (String c a, b)
          | None => None
          end
      | None => None
      end
  end.

Definition enc_str (s : string) : string :=
  enc_nat (String.length s) +:+ enc_chars s EmptyString.

Definition dec_str (s : string) : option (string * string) :=
  match dec_nat s with
  | Some (n, r) => dec_chars n r
  | None => None
  end.

Definition enc_Z (z : Z) : string :=
  match z with
  | Z0 => "z"
  | Zpos p => String "p"%char (enc_pos p)
  | Zneg p => String "m"%char (enc_pos p)
  end.

Definition dec_Z (s : string) : option (Z * string) :=
  match s with
  | EmptyString => None
  | String c r =>
      if Ascii.eqb c "z"%char then Some (Z0, r)
      else if Ascii.eqb c "p"%char then
        match dec_pos r with Some (p, r') => Some (Zpos p, r') | None => None end
      else if Ascii.eqb c "m"%char then
        match dec_pos r with Some (p, r') => Some (Zneg p, r') | None => None end
      else None
  end.

(** Scalars are carried; containers and stray datetimes are not. *)
Definition enc_value (v : value) : option string :=
  match v with
  | VNone => Some "n"
  | VBool true => Some "t"
  | VBool false => Some "f"
  | VInt z => Some (String "i"%char (enc_Z z))
  | VStr s => Some (String "s"%char (enc_str s))
  | VDatetime _ | VList _ | VDict _ => None
  end.

Definition dec_value (s : string) : option (value * string) :=
  match s with
  | EmptyString => None
  | String c r =>
      if Ascii.eqb c "n"%char then Some (VNone, r)
      else if Ascii.eqb c "t"%char then Some (VBool true, r)
      else if Ascii.eqb c "f"%char then Some (VBool false, r)
      else if Ascii.eqb c "i"%char then
        match dec_Z r with Some (z, r') => Some (VInt z, r') | None => None end
      else if Ascii.eqb c "s"%char then
        match dec_str r with Some (x, r') => Some (VStr x, r') | None => None end
      else None
  end.

Definition enc_entry (kv : string * value) : option string :=
  match enc_value (snd kv) with
  | Some e => Some (enc_str (fst kv) +:+ e)
  | None => None
  end.

Definition dec_entry (s : string) : option ((string * value) * string) :=
  match dec_str s with
  | Some (k, r) =>
      match dec_value r with
      | Some (v, r') => Some ((k, v), r')
      | None => None
      end
  | None => None
  end.

Fixpoint enc_entries (l : list (string * value)) : option string :=
  match l with
  | [] => Some EmptyString
  | kv :: rest =>
      match enc_entry kv, enc_entries rest with
      | Some e, Some es => Some (e +:+ es)
      | _, _ => None
      end
  end.

Fixpoint dec_entries (n : nat) (s : string) : option (list (string * value) * string) :=
  match n with
  | O => Some ([], s)
  | S k =>
      match dec_entry s with
      | Some (kv, r) =>
          match dec_entries k r with
          | Some (l, r') => Some (kv :: l, r')
          | None => None
          end
      | None => None
      end
  end.

(** A datetime under one of the time claims goes out as a number. *)
Definition wire_claim (k : string) (v : value) : option value :=
  match v with
  | VDatetime t =>
      if String.eqb k "exp" || String.eqb k "iat" || String.eqb k "nbf"
      then Some (VInt t) else Some v
  | _ => Some v
  end.

Definition wire (claims : gmap string value) : gmap string value :=
  map_imap wire_claim claims.

Definition ref_encode (claims : gmap string value) (key alg : string) : outcome string :=
  let entries := map_to_list (wire claims) in
  match enc_entries entries with
  | Some body =>
      Return (enc_str alg +:+ enc_str key +:+ enc_nat (List.length entries) +:+ body)
  | None => Raise TypeError
  end.

Definition parse_token (tok : string)
  : option (string * string * list (string * value)) :=
  match dec_str tok with
  | Some (alg, r1) =>
      match dec_str r1 with
      | Some (key, r2) =>
          match dec_nat r2 with
          | Some (n, r3) =>
              match dec_entries n r3 with
              | Some (l, EmptyString) => Some (alg, key, l)
              | _ => None
              end
          | None => None
          end
      | None => None
      end
  | None => None
  end.

Definition ref_decode (tok key : string) (algorithms : list string) (now : Z)
  : outcome (gmap string value) :=
  match parse_token tok with
  | None => Raise DecodeError
  | Some (alg, key', l) =>
      if negb (existsb (String.eqb alg) algorithms) then Raise OtherInvalidTokenError
      else if negb (String.eqb key' key) then Raise InvalidSignatureError
      else
        let claims : gmap string value := list_to_map l in
        match claims !! "exp" with
        | Some (VInt t) => if Z.leb t now then Raise ExpiredSignatureError else Return claims
        | Some _ => Raise DecodeError
        | None => Return claims
        end
  end.

#[local] Instance ref_jwt : JWT := {| jwt_encode := ref_encode; jwt_decode := ref_decode |}.

(** *** A router *)

Record quota_router : Type := {
  users : list HotspotUserParams;
  quota : nat;
  reachable : bool
}.

Definition quota_add (p : HotspotUserParams) (r : quota_router) : outcome quota_router :=
  if existsb (fun u => String.eqb (param_name u) (param_name p)) (users r) then
    Raise (RouterOsApiError "failure: already have user with this name for this server")
  else if Nat.leb (quota r) (List.length (users r)) then
    Raise (RouterOsApiError "failure: user limit reached")
  else Return {| users := (users r ++ [p])%list; quota := quota r; reachable := reachable r |}.

#[local] Instance ref_router : RouterOs := {|
  router := quota_router;
  get_api := fun _ r => if reachable r then Return tt
                        else Raise (NetworkError "timed out");
  hotspot_user_add := quota_add
|}.

(** A router that takes every registration, duplicates included. *)
#[local] Instance lax_router : RouterOs := {|
  router := list HotspotUserParams;
  get_api := fun _ _ => Return tt;
  hotspot_user_add := fun p r => Return (r ++ [p])%list
|}.

End Reference.

(** ** app/api/hotspot.py: presets listing and print layouts *)

Module HotspotPrint.
Import Py Hotspot.

Record BulkVoucherPrint : Type := {
  print_vouchers : list (gmap string value);
  format : string
}.

(** The dict with keys [format] and [content]. *)
Record Printed : Type := {
  printed_format : string;
  content : string
}.

(** The line feed. *)
Definition nl : string := String "010"%char EmptyString.

(** [v[key]] *)
Definition item (v : gmap string value) (key : string) : outcome value :=
  match v !! key with
  | Some x => Return x
  | None => Raise KeyError
  end.

(** [sep.join(parts)] *)
Fixpoint join (sep : string) (parts : list string) : string :=
  match parts with
  | [] => EmptyString
  | [p] => p
  | p :: rest => p +:+ sep +:+ join sep rest
  end.

(** A [for v in request.vouchers] loop that turns each voucher into text
    and stops at the first one that raises. *)
Fixpoint for_each (f : gmap string value -> outcome string)
    (vouchers : list (gmap string value)) : outcome (list string) :=
  match vouchers with
  | [] => Return []
  | v :: rest => bind (f v) (fun s => bind (for_each f rest) (fun ss => Return (s :: ss)))
  end.

Section Layouts.
(** The text of a container inside a formatted string. *)
Variable repr_container : value -> string.

(** The receipt of one voucher, [c] being [v['code']]. *)
Definition thermal_text (v : gmap string value) (c : value) : string :=
  nl +:+
  "================================" +:+ nl +:+
  "     WIFI VOUCHER" +:+ nl +:+
  "================================" +:+ nl +:+
  ("  Code: " +:+ str repr_container c) +:+ nl +:+
  ("  Valid: " +:+ str repr_container (default (VStr "N/A") (v !! "validity"))) +:+ nl +:+
  ("  Speed: " +:+ str repr_container (default (VStr "Standard") (v !! "profile"))) +:+ nl +:+
  "--------------------------------" +:+ nl +:+
  "  Connect to: YOUR_WIFI_NAME" +:+ nl +:+
  "  Open browser, enter code" +:+ nl +:+
  "================================" +:+ nl.

Definition a4_header : string :=
  nl +:+
  "<!DOCTYPE html>" +:+ nl +:+
  "<html>" +:+ nl +:+
  "<head>" +:+ nl +:+
  "<style>" +:+ nl +:+
  ".voucher-grid { display: grid; grid-template-columns: repeat(3, 1fr); gap: 10px; }" +:+ nl +:+
  ".voucher { border: 2px dashed #333; padding: 15px; text-align: center; }" +:+ nl +:+
  ".code { font-size: 24px; font-weight: bold; letter-spacing: 2px; }" +:+ nl +:+
  ".details { font-size: 12px; color: #666; margin-top: 10px; }" +:+ nl +:+
  "@media print { .voucher { break-inside: avoid; } }" +:+ nl +:+
  "</style>" +:+ nl +:+
  "</head>" +:+ nl +:+
  "<body>" +:+ nl +:+
  ("<div class=" +:+ dquote +:+ "voucher-grid" +:+ dquote +:+ ">") +:+ nl.

(** The grid cell of one voucher. *)
Definition a4_text (v : gmap string value) (c : value) : string :=
  nl +:+
  ("<div class=" +:+ dquote +:+ "voucher" +:+ dquote +:+ ">") +:+ nl +:+
  "    <div>WiFi Voucher</div>" +:+ nl +:+
  ("    <div class=" +:+ dquote +:+ "code" +:+ dquote +:+ ">" +:+ str repr_container c +:+ "</div>") +:+ nl +:+
  ("    <div class=" +:+ dquote +:+ "details" +:+ dquote +:+ ">") +:+ nl +:+
  ("        Valid for: " +:+ str repr_container (default (VStr "N/A") (v !! "validity")) +:+ "<br>") +:+ nl +:+
  ("        Speed: " +:+ str repr_container (default (VStr "Standard") (v !! "profile"))) +:+ nl +:+
  "    </div>" +:+ nl +:+
  "</div>" +:+ nl.

Definition card_header : string :=
  nl +:+
  "<!DOCTYPE html>" +:+ nl +:+
  "<html>" +:+ nl +:+
  "<head>" +:+ nl +:+
  "<style>" +:+ nl +:+
  ".card { width: 85mm; height: 54mm; border: 1px solid #333; " +:+ nl +:+
  "        padding: 10px; margin: 5px; display: inline-block; }" +:+ nl +:+
  ".code { font-size: 20px; font-weight: bold; margin: 10px 0; }" +:+ nl +:+
  "</style>" +:+ nl +:+
  "</head>" +:+ nl +:+
  "<body>" +:+ nl.

(** The card of one voucher. *)
Definition card_text (v : gmap string value) (c : value) : string :=
  nl +:+
  ("<div class=" +:+ dquote +:+ "card" +:+ dquote +:+ ">") +:+ nl +:+
  "    <h3>WiFi Access</h3>" +:+ nl +:+
  ("    <div class=" +:+ dquote +:+ "code" +:+ dquote +:+ ">" +:+ str repr_container c +:+ "</div>") +:+ nl +:+
  ("    <small>Valid: " +:+ str repr_container (default (VStr "N/A") (v !! "validity")) +:+ " | " +:+ str repr_container (default (VStr "") (v !! "profile")) +:+ "</small>") +:+ nl +:+
  "</div>" +:+ nl.

Definition render (text : gmap string value -> value -> string) (v : gmap string value)
  : outcome string :=
  bind (item v "code") (fun c => Return (text v c)).

Definition format_vouchers_for_print (request : BulkVoucherPrint) : outcome Printed :=
  if String.eqb (format request) "thermal" then
    bind (for_each (render thermal_text) (print_vouchers request)) (fun output =>
    Return {| printed_format := "text"; content := join nl output |})
  else if String.eqb (format request) "a4" then
    bind (for_each (render a4_text) (print_vouchers request)) (fun cells =>
    Return {| printed_format := "html";
              content := a4_header +:+ join "" cells +:+ "</div></body></html>" |})
  else if String.eqb (format request) "card" then
    bind (for_each (render card_text) (print_vouchers request)) (fun cards =>
    Return {| printed_format := "html";
              content := card_header +:+ join "" cards +:+ "</body></html>" |})
  else Raise (HTTPException 400 "Invalid format").

End Layouts.

(** An entry of [get_voucher_presets]: the preset's fields with its id and
    a description. *)
Record PresetEntry : Type := {
  entry_id : string;
  entry_profile : string;
  entry_validity : string;
  entry_rate : string;
  entry_description : string
}.

Definition get_voucher_presets : list PresetEntry :=
  List.map (fun '(k, v) =>
              {| entry_id := k;
                 entry_profile := preset_profile v;
                 entry_validity := preset_validity v;
                 entry_rate := preset_rate v;
                 entry_description := k +:+ " access voucher" |})
           VOUCHER_PRESETS.

End HotspotPrint.

(** ** app/api/tr069.py: devices, tasks and WiFi settings *)

Module TR069Service.
Import Py Http TR069.

(** *** [json.dumps] of a one-key object with a string value *)

Definition hex_digit (n : nat) : ascii :=
  nth n (list_ascii_of_string "0123456789abcdef") "0"%char.

Definition backslash : string := String "092"%char EmptyString.

(** One character of a JSON string, for characters up to U+00FF: the
    quote, the backslash and everything outside the printable ASCII range
    are escaped. *)
Definition escape_char (c : ascii) : string :=
  let n := nat_of_ascii c in
  if Nat.eqb n 34 then backslash +:+ dquote
  else if Nat.eqb n 92 then backslash +:+ backslash
  else if Nat.eqb n 10 then backslash +:+ "n"
  else if Nat.eqb n 13 then backslash +:+ "r"
  else if Nat.eqb n 9 then backslash +:+ "t"
  else if Nat.eqb n 8 then backslash +:+ "b"
  else if Nat.eqb n 12 then backslash +:+ "f"
  else if Nat.leb 32 n && Nat.leb n 126 then String c EmptyString
  else backslash +:+ "u00" +:+ String (hex_digit (Nat.div n 16))
                                (String (hex_digit (Nat.modulo n 16)) EmptyString).

Fixpoint escape (s : string) : string :=
  match s with
  | EmptyString => EmptyString
  | String c s' => escape_char c +:+ escape s'
  end.

(** [json.dumps({key: s})] *)
Definition dumps_object (key s : string) : string :=
  "{" +:+ dquote +:+ escape key +:+ dquote +:+ ": " +:+ dquote +:+ escape s +:+ dquote +:+ "}".

(** *** The service *)

(** What [client.request] is called with: the keyword arguments [params]
    and [json] are handed on by [_request]. *)
Record Call : Type := {
  call_method : string;
  call_path : string;
  call_params : list (string * string);
  call_json : option value
}.

Record WifiSettings : Type := {
  ssid : option string;
  password : option string;
  channel : option Z;
  enabled : option bool
}.

(** An entry of the [tasks] list of a reply. *)
Record QueuedTask : Type := {
  task_parameter : string;
  task : value
}.

Record UpdateReply : Type := {
  tasks : list QueuedTask;
  message : string
}.

(** [WIFI_PARAMS], each table in the order of its keys. *)
Definition WIFI_PARAMS_default : list (string * string) :=
  [ ("ssid", "InternetGatewayDevice.LANDevice.1.WLANConfiguration.1.SSID");
    ("password",
     "InternetGatewayDevice.LANDevice.1.WLANConfiguration.1.PreSharedKey.1.PreSharedKey");
    ("enabled", "InternetGatewayDevice.LANDevice.1.WLANConfiguration.1.Enable");
    ("channel", "InternetGatewayDevice.LANDevice.1.WLANConfiguration.1.Channel") ].

Definition WIFI_PARAMS_tr181 : list (string * string) :=
  [ ("ssid", "Device.WiFi.SSID.1.SSID");
    ("password", "Device.WiFi.AccessPoint.1.Security.KeyPassphrase");
    ("enabled", "Device.WiFi.SSID.1.Enable");
    ("channel", "Device.WiFi.Radio.1.Channel") ].

(** [params[key]] *)
Fixpoint table_item (params : list (string * string)) (key : string) : outcome string :=
  match params with
  | [] => Raise KeyError
  | (k, p) :: rest => if String.eqb k key then Return p else table_item rest key
  end.

Section Service.
(** The configuration server's northbound interface. *)
Variable acs : Call -> outcome Response.

(** [_request(method, path, params=..., json=...)] *)
Definition request (method path : string) (params : list (string * string))
    (body : option value) : outcome value :=
  _request (fun m p => acs {| call_method := m; call_path := p;
                              call_params := params; call_json := body |})
           method path.

(** The interface as [get_device_parameters] uses it, without keyword
    arguments. *)
Definition plain (method path : string) : outcome Response :=
  acs {| call_method := method; call_path := path; call_params := [];
         call_json := None |}.

Definition get_device (device_id : string) : outcome value :=
  bind (request "GET" "/devices" [("query", dumps_object "_id" device_id)] None)
       (fun devices =>
          if truthy devices then item0 devices
          else Raise (HTTPException 404 "Device not found")).

Definition set_device_parameter (device_id parameter val : string)
    (connection_request : bool) : outcome value :=
  let task :=
    VDict (<["name" := VStr "setParameterValues"]>
           (<["parameterValues" :=
                VList [VList [VStr parameter; VStr val; VStr "xsd:string"]]]> ∅)) in
  let params := if connection_request then [("connection_request", "true")] else [] in
  request "POST" ("/devices/" +:+ device_id +:+ "/tasks") params (Some task).

Definition reboot_device (device_id : string) : outcome value :=
  request "POST" ("/devices/" +:+ device_id +:+ "/tasks")
          [("connection_request", "true")]
          (Some (VDict (<["name" := VStr "reboot"]> ∅))).

Definition factory_reset (device_id : string) : outcome value :=
  request "POST" ("/devices/" +:+ device_id +:+ "/tasks")
          [("connection_request", "true")]
          (Some (VDict (<["name" := VStr "factoryReset"]> ∅))).

Definition _get_wifi_params (device : value) : outcome (list (string * string)) :=
  bind (get device "Device" (VDict ∅)) (fun device_data =>
  if truthy device_data then Return WIFI_PARAMS_tr181 else Return WIFI_PARAMS_default).

Definition get_wifi_settings (device_id : string) : outcome (gmap string value) :=
  bind (get_device device_id) (fun device =>
  bind (_get_wifi_params device) (fun params =>
  Return (get_device_parameters plain device_id (List.map snd params)))).

Definition set_wifi (key : string) (device_id val : string) : outcome value :=
  bind (get_device device_id) (fun device =>
  bind (_get_wifi_params device) (fun params =>
  bind (table_item params key) (fun parameter =>
  set_device_parameter device_id parameter val true))).

Definition set_wifi_ssid (device_id ssid : string) : outcome value :=
  set_wifi "ssid" device_id ssid.

Definition set_wifi_password (device_id password : string) : outcome value :=
  set_wifi "password" device_id password.

Definition set_wifi_enabled (device_id : string) (enabled : bool) : outcome value :=
  set_wifi "enabled" device_id (if enabled then "1" else "0").

(** One [if settings.field is not None:] step of [update_wifi_settings]. *)
Definition queue {A} (field : option A) (name : string) (set : A -> outcome value)
    (tasks : list QueuedTask) : outcome (list QueuedTask) :=
  match field with
  | Some x =>
      bind (set x) (fun t =>
      Return (tasks ++ [{| task_parameter := name; task := t |}])%list)
  | None => Return tasks
  end.

(** The route [PUT /devices/{device_id}/wifi]. *)
Definition update_wifi_settings (device_id : string) (settings : WifiSettings)
  : outcome UpdateReply :=
  bind (queue (ssid settings) "ssid" (set_wifi_ssid device_id) []) (fun tasks =>
  bind (queue (password settings) "password" (set_wifi_password device_id) tasks)
       (fun tasks =>
  bind (queue (enabled settings) "enabled" (set_wifi_enabled device_id) tasks)
       (fun tasks =>
  Return {| tasks := tasks; message := "Settings queued for device update" |}))).

End Service.

End TR069Service.

(** ** app/api/auth.py: the billing platform client and the token routes *)

Module UISP.
Import Py Http Config Auth.

(** [s.rstrip(c)] for a single character [c]. *)
Fixpoint rstrip_char (c : ascii) (s : string) : string :=
  match s with
  | EmptyString => EmptyString
  | String d s' =>
      match rstrip_char c s' with
      | EmptyString => if Ascii.eqb d c then EmptyString else String d EmptyString
      | r => String d r
      end
  end.

Record UISPService : Type := {
  base_url : string;
  api_key : string
}.

(** [UISPService.__init__] *)
Definition UISPService_init (UISP_URL UISP_API_KEY : string) : UISPService :=
  {| base_url := rstrip_char "/" UISP_URL; api_key := UISP_API_KEY |}.

(** The HTTP client opened for one call: [client.post(url, json=body)] and
    [client.get(url, headers={"x-auth-token": token})]. *)
Record Client : Type := {
  client_post : string -> value -> outcome Response;
  client_get : string -> option string -> outcome Response
}.

Section Service.
Variable self : UISPService.
Variable client : Client.
Variable repr_container : value -> string.

Definition get_customer (token : option string) (customer_id : value) : outcome value :=
  bind (client_get client
          (base_url self +:+ "/api/v2.1/clients/" +:+ str repr_container customer_id)
          token)
       (fun response =>
          if Z.eqb (status_code response) 200 then json response
          else Return (VDict ∅)).

Definition get_customer_services (token : option string) (customer_id : value)
  : outcome value :=
  bind (client_get client
          (base_url self +:+ "/api/v2.1/clients/" +:+ str repr_container customer_id
           +:+ "/services")
          token)
       (fun response =>
          if Z.eqb (status_code response) 200 then json response
          else Return (VList [])).

Definition invalid_credentials : exn := HTTPException 401 "Invalid UISP credentials".

Definition authenticate (username password : string) : outcome AuthResult :=
  bind (client_post client (base_url self +:+ "/api/v2.1/user/login")
          (VDict (<["username" := VStr username]> (<["password" := VStr password]> ∅))))
       (fun response =>
  if Z.eqb (status_code response) 200 then
    let token := headers response !! "x-auth-token" in
    bind (client_get client (base_url self +:+ "/api/v2.1/user") token)
         (fun user_response =>
    if Z.eqb (status_code user_response) 200 then
      bind (json user_response) (fun user_data =>
      bind (get user_data "clientId" VNone) (fun customer_id =>
      if truthy customer_id then
        bind (get_customer token customer_id) (fun customer =>
        bind (get_customer_services token customer_id) (fun services =>
        Return {| Auth.token := match token with Some t => VStr t | None => VNone end;
                  user := user_data;
                  customer := customer;
                  services := services |}))
      else Raise invalid_credentials))
    else Raise invalid_credentials)
  else Raise invalid_credentials).

End Service.

End UISP.

Module AuthRoutes.
Import Py Http Config Auth.

Record CurrentUser : Type := {
  me_customer_id : Z;
  me_email : string;
  me_uisp_customer_id : string
}.

Record Refreshed : Type := {
  refreshed_access_token : string;
  refreshed_token_type : string
}.

(** The payload that [refresh_token] signs. *)
Definition refresh_payload (token : TokenPayload) : gmap string value :=
  <["customer_id" := VInt (customer_id token)]>
  (<["uisp_customer_id" := VStr (uisp_customer_id token)]>
  (<["email" := VStr (email token)]> ∅)).

Section Routes.
Context {J : JWT}.
Variable settings : Settings.

Definition get_current_user (token : TokenPayload) : CurrentUser :=
  {| me_customer_id := customer_id token;
     me_email := email token;
     me_uisp_customer_id := uisp_customer_id token |}.

Definition refresh_token (now : Z) (token : TokenPayload) : outcome Refreshed :=
  bind (create_access_token settings now (refresh_payload token)) (fun new_token =>
  Return {| refreshed_access_token := new_token; refreshed_token_type := "bearer" |}).

(** The routes [GET /me] and [POST /refresh] with their dependency on
    [verify_token]. *)
Definition me_route (now : Z) (authorization : option string) : reply CurrentUser :=
  with_required_header "authorization" authorization (fun a =>
    bind (verify_token settings now a) (fun token => Return (get_current_user token))).

Definition refresh_route (now : Z) (authorization : option string) : reply Refreshed :=
  with_required_header "authorization" authorization (fun a =>
    bind (verify_token settings now a) (refresh_token now)).

End Routes.

End AuthRoutes.

(** ** app/api/billing.py: the profile route *)

Module Billing.
Import Py Http Config Auth.

Record BillingService : Type := {
  base_url : string
}.

Section Service.
Context {J : JWT}.
Variable settings : Settings.
Variable self : BillingService.
(** [client.get(url, headers={"x-auth-token": token}, params=params)] *)
Variable client_get : string -> value -> outcome Response.

Definition _request (token : value) (path : string) : outcome value :=
  bind (client_get (base_url self +:+ "/api/v2.1" +:+ path) token) (fun response =>
  if Z.eqb (status_code response) 401 then
    Raise (HTTPException 401 "UISP session expired")
  else if Z.leb 400 (status_code response) then
    Raise (HTTPException (status_code response) "UISP error")
  else json response).

Definition get_customer_profile (token : value) (customer_id : string) : outcome value :=
  _request token ("/clients/" +:+ customer_id).

(** The [try] block of [get_billing_profile]. *)
Definition extract_uisp_token (now : Z) (token : TokenPayload) : outcome value :=
  match default (VStr "") (model_dump token !! "_token") with
  | VStr t =>
      bind (jwt_decode t (SECRET_KEY settings) [JWT_ALGORITHM settings] now)
           (fun full_token => Return (default (VStr "") (full_token !! "uisp_token")))
  | _ => Raise DecodeError
  end.

Definition get_billing_profile (now : Z) (token : TokenPayload) : outcome value :=
  let uisp_token :=
    match extract_uisp_token now token with
    | Return t => t
    | Raise _ => VStr ""
    end in
  get_customer_profile uisp_token (uisp_customer_id token).

End Service.

End Billing.

(** * Vocabulary of the properties, and sample inputs *)

(** ** For strings *)

Module StringSpec.
Import Py.

Fixpoint char_free (c : ascii) (s : string) : bool :=
  match s with
  | EmptyString => true
  | String d s' => negb (Ascii.eqb d c) && char_free c s'
  end.

End StringSpec.

(** ** For the device probe *)

Module DevicesSpec.
Import Py Http Devices.

Definition starlink_info (ip : string) : DeviceInfo :=
  {| device_type := "starlink";
     manufacturer := Some "SpaceX";
     model := Some "Starlink Dish";
     device_id := None;
     ip_address := Some ip;
     capabilities := ["wifi_config"; "status"; "reboot"; "stow"] |}.

Definition mikrotik_info (ip : string) (web : bool) : DeviceInfo :=
  {| device_type := "mikrotik";
     manufacturer := Some "MikroTik";
     model := None;
     device_id := None;
     ip_address := Some ip;
     capabilities :=
       (["wifi_config"; "status"; "reboot"] ++
        if web then ["hotspot_users"; "hotspot_vouchers"; "hotspot_profiles"] else [])%list |}.

(** A check that found nothing: it returned [None] or it raised. *)
Definition quiet (ip : string) (check : string -> outcome (option DeviceInfo)) : Prop :=
  check ip = Return None \/ exists e, check ip = Raise e.

(** A gateway on which every port answers, registered with the
    configuration server, and serving a vendor page. *)
Definition busy_net : Network :=
  {| connect_ex := fun _ _ => Return 0;
     acs_devices := fun _ =>
       Return {| status_code := 200; text := "[...]";
                 json := Return (VList [VDict {["_id" := VStr "dev-1"]}]);
                 headers := ∅ |};
     http_get := fun _ =>
       Return {| status_code := 200; text := "<title>TP-Link</title>";
                 json := Raise DecodeError; headers := ∅ |} |}.

(** A router: the management ports answer, the satellite port does not. *)
Definition router_net (web : bool) : Network :=
  {| connect_ex := fun _ port =>
       if Z.eqb port 8291 then Return 0
       else if Z.eqb port 80 then Return (if web then 0 else 111)
       else Return 111;
     acs_devices := fun _ => Raise (NetworkError "connection refused");
     http_get := fun _ => Raise (NetworkError "connection refused") |}.

(** Nothing answers. *)
Definition dead_net : Network :=
  {| connect_ex := fun _ _ => Raise (NetworkError "timed out");
     acs_devices := fun _ => Raise (NetworkError "timed out");
     http_get := fun _ => Raise (NetworkError "timed out") |}.

Definition failing_checks : list (string -> outcome (option DeviceInfo)) :=
  [ (fun _ => Raise (NetworkError "timed out"));
    (fun _ => Return None);
    (fun _ => Raise TypeError);
    (fun _ => Raise (HTTPException 502 "bad gateway")) ].

End DevicesSpec.

(** ** For parameter reads *)

Module TR069Spec.
Import Py Http TR069.

(** The key under which a path is stored: its text after the last dot. *)
Definition last_segment (param : string) : string := last_item (split param "."%char).

Definition parameter_path (device_id param : string) : string :=
  "/devices/" +:+ device_id +:+ "/parameters/" +:+ param.

(** A read that succeeds: the request returns a document that is kept. *)
Definition read_ok (nbi : string -> string -> outcome Response)
    (device_id param : string) (data : value) : Prop :=
  _request nbi "GET" (parameter_path device_id param) = Return data /\
  truthy data = true.


End TR069Spec.

(** ** For voucher issuance *)

Module MikroTikSpec.
Import Py Http MikroTik Hotspot Reference.

Definition creds0 : MikroTikCredentials :=
  {| host := "10.0.0.1"; username := "admin"; password := "secret"; port := 8728 |}.

(** A request that the route accepts and whose codes have no random part. *)
Definition zero_length_request : VoucherRequest :=
  {| count := 2; profile := "1day"; prefix := "V"; validity := "1d"; code_length := 0 |}.

Definition day_request : VoucherRequest :=
  {| count := 2; profile := "1day"; prefix := "V"; validity := "1d"; code_length := 8 |}.

Definition empty_router (q : nat) : quota_router :=
  {| users := []; quota := q; reachable := true |}.

(** A record carries the profile and the validity of the request. *)
Definition tagged (request : VoucherRequest) (v : Voucher) : Prop :=
  voucher_profile v = profile request /\ voucher_validity v = validity request.

End MikroTikSpec.

(** ** For tokens *)

Module AuthSpec.
Import Py Config Http Auth Reference.

Definition cfg : Settings := default_settings "k3y".

(** The payload [login] signs for row 7 of external customer 42. *)
Definition login_data : gmap string value :=
  login_payload 7 "42" (VStr "a@b.c") (VStr "uisp-session").

(** The token minted from [login_data] at time 1000 by the reference
    codec; it expires at 87400. *)
Definition sample_token : string :=
  default "" (returned (create_access_token (J := ref_jwt) cfg 1000 login_data)).

(** What the library answers for the token found in a header value. *)
Definition decoded {J : JWT} (settings : Settings) (now : Z) (authorization : string)
  : outcome (gmap string value) :=
  jwt_decode (replace authorization "Bearer " "") (SECRET_KEY settings)
             [JWT_ALGORITHM settings] now.

(** The expiry stamped on a token minted at [mint]. *)
Definition expiry (settings : Settings) (mint : Z) : Z :=
  mint + 3600 * JWT_EXPIRATION_HOURS settings.

(** The expiry of a token minted at [mint] is a datetime: the lifetime
    fits a [timedelta] and the sum stays within the years 1 to 9999. *)
Definition representable (settings : Settings) (mint : Z) : Prop :=
  -999999999 <= JWT_EXPIRATION_HOURS settings / 24 <= 999999999 /\
  datetime_min <= expiry settings mint <= datetime_max.

(** The expiry is moreover read back as it was written: it lies within
    2 * 10^10 seconds of the epoch, the range in which [TokenPayload]
    takes a number for seconds. *)
Definition expiry_in_range (settings : Settings) (mint : Z) : Prop :=
  -999999999 <= JWT_EXPIRATION_HOURS settings / 24 <= 999999999 /\
  -20000000000 <= expiry settings mint <= 20000000000.

End AuthSpec.

(** ** For login *)

Module LoginSpec.
Import Py Config Http Auth Reference AuthSpec.

(** The unique constraint on [uisp_customer_id], as an invariant. *)
Definition wf (db : Database.Table) : Prop :=
  NoDup (List.map Database.uisp_customer_id (Database.rows db)).

(** [row] is the one stored row of external customer [x]. *)
Definition stored (x : string) (row : Database.Customer) (db : Database.Table) : Prop :=
  Database.select_where_uisp_customer_id x db = [row].

(** The billing platform accepts the credentials of [request] and hands
    back the customer record [cd] (an object), whose external id reads
    [x], a user record with a string e-mail [e] (the user's, or failing
    that the login name), a list of services, and a session token that is
    a scalar (a string, or absent). *)
Record accepted (authenticate : string -> string -> outcome AuthResult)
    (repr_container : value -> string) (request : LoginRequest) (ar : AuthResult)
    (cd : gmap string value) (x e : string) : Prop := {
  acc_authenticate : authenticate (username request) (password request) = Return ar;
  acc_customer : customer ar = VDict cd;
  acc_user : exists ud, user ar = VDict ud /\
                        default (VStr (username request)) (ud !! "email") = VStr e;
  acc_services : exists l, services ar = VList l;
  acc_token : is_scalar (token ar) = true;
  acc_id : str repr_container (default (VStr "") (cd !! "id")) = x
}.

(** The object [login] builds for a customer seen for the first time. *)
Definition new_customer (repr_container : value -> string) (cd : gmap string value)
    (x : string) (email : value) : Database.NewCustomer :=
  {| Database.new_uisp_customer_id := VStr x;
     Database.new_email := email;
     Database.new_name :=
       VStr (strip (str repr_container (default (VStr "") (cd !! "firstName")) +:+ " " +:+
                    str repr_container (default (VStr "") (cd !! "lastName"))));
     Database.new_phone := default (VStr "") (cd !! "phone") |}.

(** A billing platform with two client accounts that share one mailbox. *)
Definition billing (u p : string) : outcome AuthResult :=
  if String.eqb u "ada" && String.eqb p "pw-ada" then
    Return {| token := VStr "uisp-session-1";
              user := VDict (<["email" := VStr "family@example.org"]>
                             (<["clientId" := VInt 42]> ∅));
              customer := VDict (<["id" := VInt 42]>
                                 (<["firstName" := VStr "Ada"]>
                                 (<["lastName" := VStr "Lovelace"]>
                                 (<["phone" := VStr "555-0100"]> ∅))));
              services := VList [] |}
  else if String.eqb u "bob" && String.eqb p "pw-bob" then
    Return {| token := VStr "uisp-session-2";
              user := VDict (<["email" := VStr "family@example.org"]>
                             (<["clientId" := VInt 43]> ∅));
              customer := VDict (<["id" := VInt 43]>
                                 (<["firstName" := VStr "Bob"]>
                                 (<["lastName" := VStr "Lovelace"]> ∅)));
              services := VList [] |}
  else Raise (HTTPException 401 "Invalid UISP credentials").

Definition ada : LoginRequest := {| username := "ada"; password := "pw-ada" |}.
Definition bob : LoginRequest := {| username := "bob"; password := "pw-bob" |}.

Definition empty_table : Database.Table := {| Database.rows := []; Database.next_id := 1 |}.

Definition no_repr (v : value) : string := "".

(** The table after Ada's first login. *)
Definition table_with_ada : Database.Table :=
  {| Database.rows :=
       [ {| Database.id := 1; Database.uisp_customer_id := "42";
            Database.email := "family@example.org";
            Database.name := Some "Ada Lovelace"; Database.phone := Some "555-0100";
            Database.is_active := true |} ];
     Database.next_id := 2 |}.

End LoginSpec.

(** ** For the lower ranks of the device probe *)

Module DevicesMoreSpec.
Import Py Http Devices.

(** What a hit of the satellite or the router check looks like. *)
Definition well_formed_hit (ip : string) (d : DeviceInfo) : Prop :=
  ip_address d = Some ip /\
  In (device_type d) ["starlink"; "mikrotik"; "tr069"; "asus"; "ubiquiti"] /\
  (device_type d = "starlink" -> ip = "192.168.100.1").

(** The record built from a registry entry. *)
Definition registry_info (ip : string) (m p i : option string) : DeviceInfo :=
  {| device_type := "tr069"; manufacturer := m; model := p; device_id := i;
     ip_address := Some ip;
     capabilities := ["wifi_config"; "status"; "reboot"; "firmware_update"] |}.

(** The record of a device recognised by the page it serves: a type, a
    manufacturer, the probed address and the capabilities; no model and no
    device id. *)
Definition vendor_info (ip type_ maker : string) (caps : list string) : DeviceInfo :=
  {| device_type := type_; manufacturer := Some maker; model := None;
     device_id := None; ip_address := Some ip; capabilities := caps |}.

Definition unknown_info (ip : string) : DeviceInfo :=
  {| device_type := "unknown"; manufacturer := None; model := None;
     device_id := None; ip_address := Some ip; capabilities := [] |}.

(** Text made of ASCII characters only. *)
Definition is_ascii (s : string) : bool :=
  forallb (fun c => Nat.ltb (nat_of_ascii c) 128) (list_ascii_of_string s).

Definition no_ports (host : string) (port : Z) : outcome Z := Return 111.

(** A CPE known to the configuration server; no management port answers,
    and it serves a vendor page as well. *)
Definition registry_net : Network :=
  {| connect_ex := no_ports;
     acs_devices := fun _ =>
       Return {| status_code := 200; text := "[...]";
                 json := Return (VList [VDict (<["_id" := VStr "00259E-HG8245-48575443"]>
                                               (<["_deviceId" :=
                                                    VDict (<["_Manufacturer" := VStr "Huawei"]> ∅)]>
                                                ∅))]);
                 headers := ∅ |};
     http_get := fun _ =>
       Return {| status_code := 200; text := "<title>TP-Link</title>";
                 json := Raise DecodeError; headers := ∅ |} |}.

(** A device that is only reachable over HTTP. *)
Definition vendor_net (page : string) (server : option string) : Network :=
  {| connect_ex := no_ports;
     acs_devices := fun _ => Raise (NetworkError "connection refused");
     http_get := fun _ =>
       Return {| status_code := 200; text := page; json := Raise DecodeError;
                 headers := match server with
                            | Some s => <["server" := s]> ∅
                            | None => ∅
                            end |} |}.

End DevicesMoreSpec.

(** ** For the shape of a voucher batch *)

Module MikroTikMoreSpec.
Import Py Http MikroTik Hotspot.

(** A code is the prefix of the request followed by [code_length]
    characters of the alphabet A-Z, 0-9. *)
Definition code_shape (request : VoucherRequest) (c : string) : Prop :=
  exists body,
    c = prefix request +:+ body /\
    String.length body = Z.to_nat (code_length request) /\
    Forall (fun ch => In ch alphabet) (list_ascii_of_string body).

(** The hotspot user under which a voucher code is registered: name and
    password are the code, the profile is the request's, the uptime limit
    is the request's validity, the comment is fixed. *)
Definition registered_user (request : VoucherRequest) (c : string) : HotspotUserParams :=
  {| param_name := c;
     param_password := c;
     param_profile := profile request;
     param_limit_uptime := validity request;
     param_comment := "Voucher generated automatically" |}.

(** Registering the given users one after the other. *)
Fixpoint register_all {R : RouterOs} (us : list HotspotUserParams) (r : router)
  : outcome router :=
  match us with
  | [] => Return r
  | u :: rest =>
      match hotspot_user_add u r with
      | Return r' => register_all rest r'
      | Raise e => Raise e
      end
  end.

(** The request that [generate_quick_vouchers] builds for a preset. *)
Definition quick_request (request : QuickVoucher) (p : Preset) : VoucherRequest :=
  {| count := quick_count request;
     profile := preset_profile p;
     validity := preset_validity p;
     prefix := slice_to 2 (upper (preset request));
     code_length := 8 |}.

Definition invalid_preset : exn :=
  HTTPException 400 "Invalid preset. Available: ['1hour', '1day', '1week', '1month']".

End MikroTikMoreSpec.

(** ** For the print layouts *)

Module HotspotPrintSpec.
Import Py Hotspot HotspotPrint.

Definition supported (fmt : string) : Prop := fmt = "thermal" \/ fmt = "a4" \/ fmt = "card".

Definition has_code (v : gmap string value) : Prop := is_Some (v !! "code").

(** Three vouchers as [generate_vouchers] returns them, and one without
    its code. *)
Definition voucher_dict (c : string) : gmap string value :=
  <["code" := VStr c]> (<["profile" := VStr "1day"]> (<["validity" := VStr "1d"]> ∅)).

Definition three_vouchers : list (gmap string value) :=
  [voucher_dict "1DQX7K2M9A"; voucher_dict "1DZZ81LLP0"; voucher_dict "1D00000000"].

Definition broken_voucher : gmap string value := <["profile" := VStr "1day"]> ∅.

Definition no_repr_ (v : value) : string := "".

End HotspotPrintSpec.

(** ** For parameter reads: which reads leave an entry *)

Module TR069MoreSpec.
Import Py Http TR069 TR069Spec.

(** The read of [param] returns a document that is kept. *)
Definition kept (nbi : string -> string -> outcome Response)
    (device_id param : string) : bool :=
  match _request nbi "GET" (parameter_path device_id param) with
  | Return data => truthy data
  | Raise _ => false
  end.

(** A server that knows three parameters of [cpe-1]; one of them has an
    empty value and one request fails. *)
Definition partial_server (method path : string) : outcome Response :=
  if String.eqb path "/devices/cpe-1/parameters/Device.WiFi.SSID.1.SSID" then
    Return {| status_code := 200; text := "home";
              json := Return (VStr "home"); headers := ∅ |}
  else if String.eqb path "/devices/cpe-1/parameters/Device.WiFi.Radio.1.Channel" then
    Return {| status_code := 200; text := "6";
              json := Return (VInt 6); headers := ∅ |}
  else if String.eqb path "/devices/cpe-1/parameters/Device.WiFi.SSID.1.Enable" then
    Return {| status_code := 200; text := "0";
              json := Return (VInt 0); headers := ∅ |}
  else if String.eqb path
            "/devices/cpe-1/parameters/Device.WiFi.AccessPoint.1.Security.KeyPassphrase"
  then Raise (NetworkError "read timeout")
  else
    Return {| status_code := 404; text := "No such parameter";
              json := Raise DecodeError; headers := ∅ |}.

End TR069MoreSpec.

(** ** For the TR-069 service *)

Module TR069ServiceSpec.
Import Py Http TR069 TR069Spec TR069Service.

(** The registry query that [get_device] sends. *)
Definition device_query (device_id : string) : Call :=
  {| call_method := "GET"; call_path := "/devices";
     call_params := [("query", dumps_object "_id" device_id)];
     call_json := None |}.

(** The keys under which [get_wifi_settings] can store a value. *)
Definition wifi_keys (tr181 : bool) : list string :=
  if tr181 then ["SSID"; "KeyPassphrase"; "Enable"; "Channel"]
  else ["SSID"; "PreSharedKey"; "Enable"; "Channel"].

Definition uses_tr181 (d : gmap string value) : bool :=
  truthy (default (VDict ∅) (d !! "Device")).

(** The writes a settings object asks for, field name and value, in the
    order in which the route treats them. *)
Definition wanted (settings : WifiSettings) : list (string * string) :=
  (match ssid settings with Some s => [("ssid", s)] | None => [] end ++
   match password settings with Some p => [("password", p)] | None => [] end ++
   match enabled settings with
   | Some b => [("enabled", if b then "1" else "0")]
   | None => []
   end)%list.

(** The path of a WiFi field in the data model of the device. *)
Definition wifi_path (tr181 : bool) (field : string) : string :=
  if tr181 then
    if String.eqb field "ssid" then "Device.WiFi.SSID.1.SSID"
    else if String.eqb field "password"
         then "Device.WiFi.AccessPoint.1.Security.KeyPassphrase"
         else "Device.WiFi.SSID.1.Enable"
  else
    if String.eqb field "ssid"
    then "InternetGatewayDevice.LANDevice.1.WLANConfiguration.1.SSID"
    else if String.eqb field "password"
         then "InternetGatewayDevice.LANDevice.1.WLANConfiguration.1.PreSharedKey.1.PreSharedKey"
         else "InternetGatewayDevice.LANDevice.1.WLANConfiguration.1.Enable".

(** The request that queues the write of [val] to [path] on a device:
    a POST to the device's tasks, with a connection request. *)
Definition write_call (device_id path val : string) : Call :=
  {| call_method := "POST";
     call_path := "/devices/" +:+ device_id +:+ "/tasks";
     call_params := [("connection_request", "true")];
     call_json :=
       Some (VDict (<["name" := VStr "setParameterValues"]>
                    (<["parameterValues" :=
                         VList [VList [VStr path; VStr val; VStr "xsd:string"]]]> ∅))) |}.

(** What the service makes of the server's answer to a call: an error
    status is raised with the server's text, an empty body is [None],
    anything else is the decoded document. *)
Definition answer (acs : Call -> outcome Response) (c : Call) : outcome value :=
  match acs c with
  | Raise e => Raise e
  | Return response =>
      if Z.leb 400 (status_code response) then
        Raise (HTTPException (status_code response)
                             ("GenieACS error: " +:+ text response))
      else if String.eqb (text response) "" then Return VNone
      else json response
  end.

(** Sending the writes one after the other, up to the first that is
    turned down; the answers are listed under the field names. *)
Fixpoint queue_all (acs : Call -> outcome Response) (device_id : string) (tr181 : bool)
    (ws : list (string * string)) : outcome (list QueuedTask) :=
  match ws with
  | [] => Return []
  | (field, val) :: rest =>
      match answer acs (write_call device_id (wifi_path tr181 field) val) with
      | Raise e => Raise e
      | Return t =>
          match queue_all acs device_id tr181 rest with
          | Raise e => Raise e
          | Return ts => Return ({| task_parameter := field; task := t |} :: ts)
          end
      end
  end.

Definition with_channel (settings : WifiSettings) (c : option Z) : WifiSettings :=
  {| ssid := ssid settings; password := password settings; channel := c;
     enabled := enabled settings |}.

Definition ok_response (body : string) (doc : value) : Response :=
  {| status_code := 200; text := body; json := Return doc; headers := ∅ |}.

(** A server with one TR-181 device, [cpe-1], that queues every task. *)
Definition one_device (c : Call) : outcome Response :=
  if String.eqb (call_method c) "POST" then
    Return (ok_response "{...}" (VDict (<["_id" := VStr "task-1"]> ∅)))
  else if String.eqb (call_path c) "/devices" then
    if bool_decide (call_params c = [("query", dumps_object "_id" "cpe-1")]) then
      Return (ok_response "[...]"
                (VList [VDict (<["_id" := VStr "cpe-1"]>
                               (<["Device" := VDict (<["WiFi" := VDict ∅]> ∅)]> ∅))]))
    else Return (ok_response "[]" (VList []))
  else if String.eqb (call_path c) "/devices/cpe-1/parameters/Device.WiFi.SSID.1.SSID" then
    Return (ok_response "home" (VStr "home"))
  else if String.eqb (call_path c)
            "/devices/cpe-1/parameters/Device.WiFi.AccessPoint.1.Security.KeyPassphrase"
  then Return (ok_response "secret" (VStr "secret"))
  else if String.eqb (call_path c) "/devices/cpe-1/parameters/Device.WiFi.SSID.1.Enable" then
    Return (ok_response "true" (VBool true))
  else if String.eqb (call_path c) "/devices/cpe-1/parameters/Device.WiFi.Radio.1.Channel" then
    Return (ok_response "6" (VInt 6))
  else Return {| status_code := 404; text := "Not found"; json := Raise DecodeError;
                 headers := ∅ |}.

(** A server that is down. *)
Definition down (c : Call) : outcome Response := Raise (NetworkError "connection refused").

End TR069ServiceSpec.

(** ** For the token routes, the platform client and the table *)

Module AuthMoreSpec.
Import Py Http Config Auth Reference AuthSpec LoginSpec UISP AuthRoutes Billing.

Definition declared_fields : list string :=
  ["customer_id"; "uisp_customer_id"; "email"; "exp"].

(** A correctly signed token whose payload is only an expiry. *)
Definition bare_token : string :=
  default "" (returned (create_access_token (J := ref_jwt) cfg 1000 ∅)).

(** The constraints of the customers table, as an invariant: unique
    external ids, unique e-mails, unique keys below the sequence. *)
Definition table_ok (db : Database.Table) : Prop :=
  NoDup (List.map Database.uisp_customer_id (Database.rows db)) /\
  NoDup (List.map Database.email (Database.rows db)) /\
  NoDup (List.map Database.id (Database.rows db)) /\
  Forall (fun r => Database.id r < Database.next_id db) (Database.rows db).

(** The rows are as before and the key sequence has moved on by one at
    most, or one active row was appended under the next key. *)
Definition grown_by_at_most_one (db db' : Database.Table) : Prop :=
  (Database.rows db' = Database.rows db /\
   Database.next_id db <= Database.next_id db' <= Database.next_id db + 1) \/
  exists row,
    db' = {| Database.rows := (Database.rows db ++ [row])%list;
             Database.next_id := Database.next_id db + 1 |} /\
    Database.id row = Database.next_id db /\ Database.is_active row = true.

(** A platform that hands back the services of a client as an object. *)
Definition odd_billing (u p : string) : outcome AuthResult :=
  Return {| token := VStr "uisp-session-3";
            user := VDict (<["email" := VStr "dan@example.org"]>
                           (<["clientId" := VInt 50]> ∅));
            customer := VDict (<["id" := VInt 50]> ∅);
            services := VDict (<["items" := VList []]> ∅) |}.

Definition dan : LoginRequest := {| username := "dan"; password := "pw-dan" |}.

(** Settings under which a token would outlive the year 9999. *)
Definition long_lived : Settings :=
  {| SECRET_KEY := "k3y"; JWT_ALGORITHM := "HS256"; JWT_EXPIRATION_HOURS := 100000000 |}.

Definition service : UISPService := UISPService_init "https://uisp.example.com/" "".

Definition json_response (status : Z) (doc : value) (hs : gmap string string) : Response :=
  {| status_code := status; text := "{...}"; json := Return doc; headers := hs |}.

(** A platform with an operator account (no client id) and a client
    account whose client record cannot be fetched. *)
Definition platform : Client :=
  {| client_post := fun url body =>
       if String.eqb url "https://uisp.example.com/api/v2.1/user/login" then
         match body with
         | VDict m =>
             match m !! "username", m !! "password" with
             | Some (VStr "operator"), Some (VStr "pw-op") =>
                 Return (json_response 200 (VDict ∅)
                           (<["x-auth-token" := "session-op"]> ∅))
             | Some (VStr "carol"), Some (VStr "pw-carol") =>
                 Return (json_response 200 (VDict ∅)
                           (<["x-auth-token" := "session-carol"]> ∅))
             | _, _ => Return (json_response 401 (VDict ∅) ∅)
             end
         | _ => Return (json_response 400 (VDict ∅) ∅)
         end
       else Return (json_response 404 (VDict ∅) ∅);
     client_get := fun url token =>
       if String.eqb url "https://uisp.example.com/api/v2.1/user" then
         match token with
         | Some "session-op" =>
             Return (json_response 200
                       (VDict (<["email" := VStr "noc@example.org"]> ∅)) ∅)
         | Some "session-carol" =>
             Return (json_response 200
                       (VDict (<["email" := VStr "carol@example.org"]>
                               (<["clientId" := VInt 77]> ∅))) ∅)
         | _ => Return (json_response 401 (VDict ∅) ∅)
         end
       else Return (json_response 500 (VDict ∅) ∅) |}.

Definition operator : LoginRequest := {| username := "operator"; password := "pw-op" |}.
Definition carol : LoginRequest := {| username := "carol"; password := "pw-carol" |}.

(** A table whose only row is keyed by the empty external id. *)
Definition table_with_blank : Database.Table :=
  {| Database.rows :=
       [ {| Database.id := 5; Database.uisp_customer_id := "";
            Database.email := "someone@example.org";
            Database.name := Some ""; Database.phone := Some "";
            Database.is_active := true |} ];
     Database.next_id := 6 |}.

(** A billing platform that knows the session of the sample token only. *)
Definition billing_platform (url : string) (token : value) : outcome Response :=
  match token with
  | VStr "uisp-session" => Return (json_response 200 (VDict (<["id" := VInt 42]> ∅)) ∅)
  | _ => Return (json_response 401 (VDict ∅) ∅)
  end.

Definition billing_service : BillingService :=
  {| Billing.base_url := "https://uisp.example.com" |}.

Definition sample_payload : TokenPayload :=
  {| customer_id := 7; uisp_customer_id := "42"; email := "a@b.c"; exp := 87400 |}.

(** The platform turns the credentials down: the login call is not
    answered 200, or the user lookup is not, or the user record carries no
    client id (an operator account). *)
Inductive refused (self : UISPService) (client : Client) (u p : string) : Prop :=
  | refused_login response :
      client_post client (UISP.base_url self +:+ "/api/v2.1/user/login")
        (VDict (<["username" := VStr u]> (<["password" := VStr p]> ∅))) = Return response ->
      status_code response <> 200 ->
      refused self client u p
  | refused_user response user_response :
      client_post client (UISP.base_url self +:+ "/api/v2.1/user/login")
        (VDict (<["username" := VStr u]> (<["password" := VStr p]> ∅))) = Return response ->
      status_code response = 200 ->
      client_get client (UISP.base_url self +:+ "/api/v2.1/user")
        (headers response !! "x-auth-token") = Return user_response ->
      status_code user_response <> 200 ->
      refused self client u p
  | refused_no_client response user_response ud :
      client_post client (UISP.base_url self +:+ "/api/v2.1/user/login")
        (VDict (<["username" := VStr u]> (<["password" := VStr p]> ∅))) = Return response ->
      status_code response = 200 ->
      client_get client (UISP.base_url self +:+ "/api/v2.1/user")
        (headers response !! "x-auth-token") = Return user_response ->
      status_code user_response = 200 ->
      json user_response = Return (VDict ud) ->
      truthy (default VNone (ud !! "clientId")) = false ->
      refused self client u p.

(** The platform accepts the credentials of a client account with session
    [session], user record [ud] and client id [cid], but answers neither
    the lookup of the client record nor that of its services with 200. *)
Record client_record_missing (self : UISPService) (client : Client)
    (repr_container : value -> string) (u p : string) (session : string)
    (ud : gmap string value) (cid : value) : Prop := {
  crm_login : exists response,
      client_post client (UISP.base_url self +:+ "/api/v2.1/user/login")
        (VDict (<["username" := VStr u]> (<["password" := VStr p]> ∅))) = Return response /\
      status_code response = 200 /\
      headers response !! "x-auth-token" = Some session;
  crm_user : exists user_response,
      client_get client (UISP.base_url self +:+ "/api/v2.1/user") (Some session)
      = Return user_response /\
      status_code user_response = 200 /\ json user_response = Return (VDict ud);
  crm_client_id : ud !! "clientId" = Some cid /\ truthy cid = true;
  crm_record : exists r,
      client_get client
        (UISP.base_url self +:+ "/api/v2.1/clients/" +:+ str repr_container cid)
        (Some session) = Return r /\ status_code r <> 200;
  crm_services : exists r,
      client_get client
        (UISP.base_url self +:+ "/api/v2.1/clients/" +:+ str repr_container cid
         +:+ "/services")
        (Some session) = Return r /\ status_code r <> 200
}.

End AuthMoreSpec.

(** * Properties *)

(** ** The Python primitives on sample inputs *)

Module PyFacts.

Example py_replace_bearer : Py.replace "Bearer abc.def" "Bearer " "" = "abc.def".
Proof. reflexivity. Qed.
Example py_replace_inner : Py.replace "xBearer yBearer z" "Bearer " "" = "xyz".
Proof. reflexivity. Qed.
Example py_replace_rejoin : Py.replace "BearBearer er x" "Bearer " "" = "Bearer x".
Proof. reflexivity. Qed.
Example py_split_path :
  Py.split "Device.WiFi.SSID.1.SSID" "." = ["Device"; "WiFi"; "SSID"; "1"; "SSID"].
Proof. reflexivity. Qed.
Example py_split_trailing : Py.split "a." "." = ["a"; ""].
Proof. reflexivity. Qed.
Example py_strip_ex : Py.strip "  Ada  Lovelace " = "Ada  Lovelace".
Proof. reflexivity. Qed.
Example py_upper_ex : Py.slice_to 2 (Py.upper "1week") = "1W".
Proof. reflexivity. Qed.
Example py_str_int : Py.str (fun _ => "") (Py.VInt (-42)) = "-42".
Proof. reflexivity. Qed.
Example py_choices_ex :
  Py.join_chars (fst (Py.choices (Py.ascii_uppercase ++ Py.digits) 3 (fun i => (i * 13)%nat) 1))
  = "N0D".
Proof. reflexivity. Qed.

End PyFacts.

(** ** The device probe *)

Module DevicesFacts.
Import Py Http Devices DevicesSpec.

Lemma first_DeviceInfo_quiet (results : list gathered) :
  Forall (fun g => match g with Result (Some _) => False | _ => True end) results ->
  first_DeviceInfo results = None.
Proof.
  induction 1 as [|g rest Hg _ IH]; [reflexivity|].
  destruct g as [[d|]|e]; simpl; [contradiction | exact IH | exact IH].
Qed.

Lemma gather_quiet (ip : string) (checks : list (string -> outcome (option DeviceInfo))) :
  Forall (quiet ip) checks ->
  Forall (fun g => match g with Result (Some _) => False | _ => True end) (gather ip checks).
Proof.
  induction 1 as [|c rest Hc _ IH]; [constructor|].
  simpl. constructor; [|exact IH].
  destruct Hc as [Hc|[e Hc]]; rewrite Hc; exact I.
Qed.

Lemma detect_starlink_closed (net : Network) (ip : string) :
  check_port net ip 9200 = false -> detect_starlink net ip = Return None.
Proof.
  intros H. unfold detect_starlink. rewrite H. destruct (negb _); reflexivity.
Qed.

Lemma detect_mikrotik_open (net : Network) (ip : string) :
  check_port net ip 8728 || check_port net ip 8291 = true ->
  detect_mikrotik net ip = Return (Some (mikrotik_info ip (check_port net ip 80))).
Proof.
  intros H. unfold detect_mikrotik. rewrite H.
  destruct (check_port net ip 80); reflexivity.
Qed.

(** C5: when the gateway address is the satellite terminal's fixed
    address and its management port 9200 accepts the connection,
    [detect_device] answers with the satellite classification, whatever
    the other checks find; the same holds over any list of checks that
    starts with the satellite check. *)
Theorem detect_device_starlink_first (net : Network) :
  connect_ex net "192.168.100.1" 9200 = Return 0 ->
  detect_device net "192.168.100.1" = starlink_info "192.168.100.1" /\
  forall others,
    detect_over (detect_starlink net :: others) "192.168.100.1"
    = starlink_info "192.168.100.1".
Proof.
  intros H.
  assert (Hs : detect_starlink net "192.168.100.1"
               = Return (Some (starlink_info "192.168.100.1"))).
  { unfold detect_starlink, check_port. rewrite H. reflexivity. }
  split; [|intros others];
    unfold detect_device, detect_over; cbn [gather List.map];
    rewrite Hs; reflexivity.
Qed.

Lemma detect_device_starlink_first_witness :
  connect_ex busy_net "192.168.100.1" 8728 = Return 0 /\
  detect_tr069_device busy_net "192.168.100.1" <> Return None /\
  detect_by_http_fingerprint busy_net "192.168.100.1" <> Return None /\
  device_type (detect_device busy_net "192.168.100.1") = "starlink".
Proof.
  split; [reflexivity|].
  split; [vm_compute; discriminate|].
  split; [vm_compute; discriminate|].
  rewrite (proj1 (detect_device_starlink_first busy_net eq_refl)). reflexivity.
Defined.

(** Over arbitrary checks: exceptions and misses alike fall through. *)
Lemma detect_over_quiet (checks : list (string -> outcome (option DeviceInfo)))
    (ip : string) :
  Forall (quiet ip) checks -> detect_over checks ip = unknown ip.
Proof.
  intros H. unfold detect_over.
  rewrite (first_DeviceInfo_quiet _ (gather_quiet ip _ H)). reflexivity.
Qed.

(** C6: when each of the four checks returns no match or raises,
    [detect_device] still returns: the result is the "unknown" record with
    an empty capability list.  The aggregate behaves the same over any
    list of checks, so an exception raised by one of them never aborts
    it. *)
Theorem detect_device_unknown (net : Network) (ip : string)
    (checks : list (string -> outcome (option DeviceInfo))) :
  (Forall (quiet ip) [detect_starlink net; detect_mikrotik net;
                      detect_tr069_device net; detect_by_http_fingerprint net] ->
   detect_device net ip = unknown ip /\
   device_type (detect_device net ip) = "unknown" /\
   capabilities (detect_device net ip) = []) /\
  (Forall (quiet ip) checks ->
   detect_over checks ip = unknown ip /\
   capabilities (detect_over checks ip) = []).
Proof.
  split; intros H.
  - unfold detect_device. rewrite (detect_over_quiet _ ip H). repeat split.
  - rewrite (detect_over_quiet _ ip H). split; reflexivity.
Qed.

Lemma detect_device_unknown_witness :
  (detect_device dead_net "10.0.0.1" = unknown "10.0.0.1" /\
   device_type (detect_device dead_net "10.0.0.1") = "unknown" /\
   capabilities (detect_device dead_net "10.0.0.1") = []) /\
  (detect_over failing_checks "10.0.0.1" = unknown "10.0.0.1" /\
   capabilities (detect_over failing_checks "10.0.0.1") = []).
Proof.
  split.
  - apply (proj1 (detect_device_unknown dead_net "10.0.0.1" failing_checks)).
    repeat constructor.
  - apply (proj2 (detect_device_unknown dead_net "10.0.0.1" failing_checks)).
    unfold failing_checks, quiet.
    repeat (constructor; [first [left; reflexivity | right; eexists; reflexivity]|]).
    constructor.
Defined.

(** C8: with the satellite terminal's port closed and the router's API
    port 8728 or its alternate management port 8291 open, [detect_device]
    answers with the router classification; the capability list is the
    base set, followed by the three hotspot capabilities exactly when
    port 80 is open too. *)
Theorem detect_device_mikrotik (net : Network) (ip : string) :
  check_port net ip 9200 = false ->
  check_port net ip 8728 = true \/ check_port net ip 8291 = true ->
  detect_device net ip = mikrotik_info ip (check_port net ip 80) /\
  device_type (detect_device net ip) = "mikrotik" /\
  (check_port net ip 80 = false ->
   capabilities (detect_device net ip) = ["wifi_config"; "status"; "reboot"]) /\
  (check_port net ip 80 = true ->
   capabilities (detect_device net ip)
   = ["wifi_config"; "status"; "reboot";
      "hotspot_users"; "hotspot_vouchers"; "hotspot_profiles"]) /\
  (In "hotspot_vouchers" (capabilities (detect_device net ip))
   <-> check_port net ip 80 = true).
Proof.
  intros Hsat Hrouter.
  assert (Hd : detect_device net ip = mikrotik_info ip (check_port net ip 80)).
  { unfold detect_device, detect_over. cbn [gather List.map].
    rewrite (detect_starlink_closed net ip Hsat).
    rewrite detect_mikrotik_open; [reflexivity|].
    destruct Hrouter as [-> | ->]; [reflexivity | apply orb_true_r]. }
  rewrite Hd. split; [reflexivity|]. split; [reflexivity|].
  destruct (check_port net ip 80); cbn.
  - repeat split; try discriminate; intuition.
  - repeat split; try discriminate.
    intros [H|[H|[H|[]]]]; discriminate.
Qed.

Lemma detect_device_mikrotik_witness :
  capabilities (detect_device (router_net false) "192.168.100.1")
    = ["wifi_config"; "status"; "reboot"] /\
  capabilities (detect_device (router_net true) "192.168.100.1")
    = ["wifi_config"; "status"; "reboot";
       "hotspot_users"; "hotspot_vouchers"; "hotspot_profiles"].
Proof.
  split.
  - apply (detect_device_mikrotik (router_net false) "192.168.100.1");
      [reflexivity | right; reflexivity | reflexivity].
  - apply (detect_device_mikrotik (router_net true) "192.168.100.1");
      [reflexivity | right; reflexivity | reflexivity].
Defined.

End DevicesFacts.

(** ** Parameter reads through the configuration server *)

Module TR069Facts.
Import Py Http TR069 TR069Spec.

Lemma read_parameter_ok nbi device_id result param data :
  read_ok nbi device_id param data ->
  read_parameter nbi device_id result param = <[last_segment param := data]> result.
Proof.
  intros [Hr Ht]. unfold read_parameter.
  change ("/devices/" +:+ device_id +:+ "/parameters/" +:+ param)
    with (parameter_path device_id param).
  rewrite Hr, Ht. reflexivity.
Qed.

Lemma read_parameter_keys nbi device_id (result : gmap string value) param k :
  is_Some (read_parameter nbi device_id result param !! k) ->
  is_Some (result !! k) \/ k = last_segment param.
Proof.
  unfold read_parameter.
  destruct (_request nbi "GET" _) as [data|e]; [|by left].
  destruct (truthy data); [|by left].
  intros H. destruct (decide (last_segment param = k)) as [<-|Hne]; [by right|].
  left. unfold last_segment in Hne. by rewrite lookup_insert_ne in H.
Qed.

Lemma fold_read_keys nbi device_id parameters (acc : gmap string value) k :
  is_Some (fold_left (read_parameter nbi device_id) parameters acc !! k) ->
  is_Some (acc !! k) \/ exists param, In param parameters /\ k = last_segment param.
Proof.
  revert acc. induction parameters as [|p ps IH]; intros acc H; simpl in *.
  - by left.
  - destruct (IH _ H) as [Hacc|[q [Hin Hq]]].
    + destruct (read_parameter_keys _ _ _ _ _ Hacc) as [? | ->]; [by left|].
      right. exists p. split; [by left | done].
    + right. exists q. split; [by right | done].
Qed.




End TR069Facts.

(** ** Voucher issuance *)

Module MikroTikFacts.
Import Py Http MikroTik Hotspot Reference MikroTikSpec.

Section Loop.
Context {R : RouterOs}.
Variable request : VoucherRequest.
Variable t : tape.

(** Running [k + m] iterations is running [k] and, unless one raised,
    [m] more from where they stopped. *)
Lemma generate_loop_add (k m : nat) vouchers pos (r : router) :
  generate_loop request t (k + m) vouchers pos r
  = match generate_loop request t k vouchers pos r with
    | (Return vs, pos', r') => generate_loop request t m vs pos' r'
    | (Raise e, pos', r') => (Raise e, pos', r')
    end.
Proof.
  revert vouchers pos r. induction k as [|k IH]; intros vouchers pos r.
  - reflexivity.
  - cbn [Nat.add generate_loop].
    destruct (new_code request t pos) as [code pos'].
    destruct (hotspot_user_add (voucher_user request code) r) as [r'|e];
      [apply IH | reflexivity].
Qed.

Lemma generate_loop_returns (n : nat) vouchers pos (r : router) vs pos' r' :
  generate_loop request t n vouchers pos r = (Return vs, pos', r') ->
  exists new, vs = (vouchers ++ new)%list /\ List.length new = n /\ Forall (tagged request) new.
Proof.
  revert vouchers pos r. induction n as [|n IH]; intros vouchers pos r H.
  - injection H as <- _ _. exists []. by rewrite app_nil_r.
  - cbn [generate_loop] in H.
    destruct (new_code request t pos) as [code pos1].
    destruct (hotspot_user_add (voucher_user request code) r) as [r1|e]; [|discriminate].
    destruct (IH _ _ _ H) as (new & -> & Hlen & Htag).
    exists (voucher_record request code :: new). rewrite <- app_assoc. simpl.
    repeat split; [by rewrite Hlen | constructor; [by split | exact Htag]].
Qed.

End Loop.

(** When the call returns, it returns [count] records, each carrying the
    profile and the validity of the request. *)
Lemma generate_vouchers_count_and_tags {R : RouterOs} creds request t pos (r : router)
    vs pos' r' :
  generate_vouchers creds request t pos r = (Return vs, pos', r') ->
  List.length vs = Z.to_nat (count request) /\ Forall (tagged request) vs.
Proof.
  unfold generate_vouchers. destruct (_connect creds r); [|discriminate].
  intros H. destruct (generate_loop_returns _ _ _ _ _ _ _ _ _ H) as (new & -> & Hl & Ht).
  by split.
Qed.

(** Through the preset route the records carry the preset's profile and
    validity. *)
Lemma generate_quick_vouchers_tags {R : RouterOs} creds request t pos (r : router)
    out pos' r' :
  generate_quick_vouchers creds request t pos r = (Return out, pos', r') ->
  lookup_preset (preset request) VOUCHER_PRESETS = Some (preset_details out) /\
  List.length (vouchers out) = Z.to_nat (quick_count request) /\
  Forall (fun v => voucher_profile v = preset_profile (preset_details out) /\
                   voucher_validity v = preset_validity (preset_details out))
         (vouchers out).
Proof.
  unfold generate_quick_vouchers.
  destruct (lookup_preset _ _) as [p|]; [|discriminate].
  destruct (generate_vouchers _ _ _ _ _) as [[o pos1] r1] eqn:E.
  destruct o as [vs|e]; [|discriminate]. cbn [bind]. intros H. injection H as <- _ _.
  destruct (generate_vouchers_count_and_tags _ _ _ _ _ _ _ _ E) as [Hl Ht].
  cbn. split; [reflexivity|]. split; [exact Hl | exact Ht].
Qed.

(** A router that accepts every registration returns the whole batch. *)
Lemma generate_loop_lax request t n vouchers pos (r : list HotspotUserParams) :
  exists vs pos' r',
    generate_loop (R := lax_router) request t n vouchers pos r = (Return vs, pos', r').
Proof.
  revert vouchers pos r. induction n as [|n IH]; intros vouchers pos r.
  - by eexists _, _, _.
  - cbn [generate_loop]. destruct (new_code request t pos) as [code pos1]. cbn.
    apply IH.
Qed.

(** C1: at a well-formed request the returned batch repeats a code.  With
    [count = 2] and [code_length = 0] every generated code is the bare
    prefix: no router and no random tape make the call return two records
    with distinct codes, and a router that accepts each registration gets
    the two records back with the same code. *)
Theorem generate_vouchers_repeats_code :
  (forall (R : RouterOs) creds t pos (r : router),
     match generate_vouchers creds zero_length_request t pos r with
     | (Return vs, _, _) => List.map code vs = ["V"; "V"]
     | (Raise _, _, _) => True
     end) /\
  (forall creds t pos,
     fst (fst (generate_vouchers (R := lax_router) creds zero_length_request t pos []))
     = Return [ {| code := "V"; voucher_profile := "1day"; voucher_validity := "1d" |};
                {| code := "V"; voucher_profile := "1day"; voucher_validity := "1d" |} ]) /\
  ~ NoDup ["V"; "V"].
Proof.
  split; [|split].
  - intros R creds t pos r. unfold generate_vouchers.
    destruct (_connect creds r); [|exact I].
    change (Z.to_nat (count zero_length_request)) with 2%nat.
    cbn [generate_loop].
    change (new_code zero_length_request t pos) with ("V", (pos + 0)%nat).
    cbn iota.
    destruct (hotspot_user_add (voucher_user zero_length_request "V") r) as [r1|e];
      [|exact I].
    change (new_code zero_length_request t (pos + 0)) with ("V", (pos + 0 + 0)%nat).
    cbn iota.
    destruct (hotspot_user_add (voucher_user zero_length_request "V") r1) as [r2|e];
      [|exact I].
    reflexivity.
  - intros creds t pos. reflexivity.
  - intros H. inversion H as [|x l Hnotin _]; subst. apply Hnotin. by left.
Qed.

(** The preset route has fixed eight-character random parts; the batch
    repeats a code when the random source repeats its draws. *)
Example generate_quick_vouchers_repeats_code :
  let '(o, _, _) :=
    generate_quick_vouchers (R := lax_router) creds0
      {| preset := "1day"; quick_count := 2 |} (fun _ => 0%nat) 0 [] in
  option_map (fun out => List.map code (vouchers out)) (returned o)
  = Some ["1DAAAAAAAA"; "1DAAAAAAAA"].
Proof. reflexivity. Qed.

(** C4 (as amended): when the router accepts the first [k] registrations
    of a batch of [N > k] and rejects the next one, the call raises the
    router's error.  The caller gets the generic 500 reply, with no
    voucher list in it, and the router keeps the [k] users registered so
    far. *)
Theorem generate_vouchers_partial_failure {R : RouterOs}
    creds request t pos (r : router) (k : nat) vs pos_k r_k e :
  (k < Z.to_nat (count request))%nat ->
  _connect creds r = Return tt ->
  generate_loop request t k [] pos r = (Return vs, pos_k, r_k) ->
  hotspot_user_add (voucher_user request (fst (new_code request t pos_k))) r_k = Raise e ->
  is_HTTPException e = false ->
  generate_vouchers creds request t pos r = (Raise e, snd (new_code request t pos_k), r_k) /\
  generate_vouchers_route creds request t pos r
  = (ErrorReply 500 "Internal server error", snd (new_code request t pos_k), r_k).
Proof.
  intros Hk Hc Hloop Hrej Hexn.
  assert (E : generate_vouchers creds request t pos r
              = (Raise e, snd (new_code request t pos_k), r_k)).
  { unfold generate_vouchers. rewrite Hc.
    replace (Z.to_nat (count request))
      with (k + S (Z.to_nat (count request) - S k))%nat by lia.
    rewrite generate_loop_add, Hloop. cbn [generate_loop].
    destruct (new_code request t pos_k) as [c p]. cbn [fst snd] in *.
    by rewrite Hrej. }
  split; [exact E|].
  unfold generate_vouchers_route. rewrite E. cbn [bind respond].
  destruct e; try discriminate; reflexivity.
Qed.

Lemma generate_vouchers_partial_failure_witness :
  List.map param_name (users (snd (generate_vouchers_route (R := ref_router)
                                     creds0 day_request (fun _ => 0%nat) 0 (empty_router 1))))
  = ["VAAAAAAAA"] /\
  fst (fst (generate_vouchers_route (R := ref_router)
              creds0 day_request (fun _ => 0%nat) 0 (empty_router 1)))
  = ErrorReply 500 "Internal server error".
Proof.
  pose proof (generate_vouchers_partial_failure (R := ref_router)
                creds0 day_request (fun _ => 0%nat) 0 (empty_router 1) 1
                _ _ _ _ ltac:(vm_compute; lia) eq_refl eq_refl eq_refl eq_refl) as [_ H].
  rewrite H. split; reflexivity.
Defined.

(** C4, the claim as stated, fails: a batch of two in which the first
    registration is accepted and the second rejected gets the very reply
    of a batch in which nothing was registered, and the reply is the same
    whichever code was registered. *)
Lemma partial_failure_reply_same_as_total_failure :
  let run t q := generate_vouchers_route (R := ref_router) creds0 day_request t 0
                   (empty_router q) in
  List.map param_name (users (snd (run (fun _ => 0%nat) 1%nat))) = ["VAAAAAAAA"] /\
  List.map param_name (users (snd (run (fun _ => 1%nat) 1%nat))) = ["VBBBBBBBB"] /\
  users (snd (run (fun _ => 0%nat) 0%nat)) = [] /\
  fst (fst (run (fun _ => 0%nat) 1%nat)) = fst (fst (run (fun _ => 0%nat) 0%nat)) /\
  fst (fst (run (fun _ => 0%nat) 1%nat)) = fst (fst (run (fun _ => 1%nat) 1%nat)) /\
  fst (fst (run (fun _ => 0%nat) 1%nat)) = ErrorReply 500 "Internal server error".
Proof. vm_compute. repeat split. Qed.

End MikroTikFacts.

(** ** Strings: occurrences of the scheme prefix *)

Module StringFacts.
Import Py StringSpec.

(** The two equations of [String.append]. *)
Lemma append_nil_l (b : string) : "" +:+ b = b.
Proof. reflexivity. Qed.

Lemma append_cons (c : ascii) (a b : string) : String c a +:+ b = String c (a +:+ b).
Proof. reflexivity. Qed.

Lemma append_assoc (a b c : string) : (a +:+ b) +:+ c = a +:+ (b +:+ c).
Proof.
  induction a as [|x a IH]; [reflexivity|].
  by rewrite !append_cons, IH.
Qed.

Lemma append_nil_r (a : string) : a +:+ "" = a.
Proof. induction a as [|x a IH]; [reflexivity | by rewrite append_cons, IH]. Qed.

Lemma length_append (a b : string) :
  String.length (a +:+ b) = (String.length a + String.length b)%nat.
Proof.
  induction a as [|x a IH]; [reflexivity|].
  rewrite append_cons. simpl. by rewrite IH.
Qed.

Lemma char_free_append c (a b : string) :
  char_free c (a +:+ b) = char_free c a && char_free c b.
Proof.
  induction a as [|x a IH]; [reflexivity|].
  rewrite append_cons. simpl. rewrite IH. by rewrite andb_assoc.
Qed.

Lemma prefix_head_mismatch c p d s :
  Ascii.eqb d c = false -> String.prefix (String c p) (String d s) = false.
Proof.
  intros H. simpl. destruct (ascii_dec c d) as [->|]; [|reflexivity].
  by rewrite Ascii.eqb_refl in H.
Qed.

Lemma char_free_no_prefix c p s :
  char_free c s = true -> String.prefix (String c p) s = false.
Proof.
  destruct s as [|d s]; [reflexivity|]. simpl char_free.
  intros [H _]%andb_true_iff. apply prefix_head_mismatch.
  by apply negb_true_iff.
Qed.

Lemma char_free_not_contains c p s :
  char_free c s = true -> contains (String c p) s = false.
Proof.
  induction s as [|d s IH]; intros H.
  - reflexivity.
  - cbn [contains]. rewrite (char_free_no_prefix _ _ _ H).
    simpl in H. apply andb_true_iff in H as [_ H]. by apply IH.
Qed.

(** A text in which [old] does not occur is left alone. *)
Lemma replace_absent (old new s : string) :
  contains old s = false -> replace s old new = s.
Proof.
  unfold replace. induction s as [|c s IH]; intros H.
  - reflexivity.
  - cbn [contains] in H. apply orb_false_iff in H as [Hp Hc].
    cbn [replace_from]. rewrite Hp. by rewrite IH.
Qed.

(** After a match the scan resumes behind it. *)
Lemma replace_from_skip (old new p s : string) :
  replace_from old new (String.length p) (p +:+ s) = replace_from old new O s.
Proof.
  induction p as [|c p IH]; [reflexivity|].
  rewrite append_cons. exact IH.
Qed.

(** If [p] starts [x +:+ y] then it starts [x], or it runs past the end
    of [x] and its remainder starts [y]. *)
Lemma prefix_append_cases (p x y : string) :
  String.prefix p (x +:+ y) = true ->
  String.prefix p x = true \/
  exists q, p = x +:+ q /\ String.prefix q y = true.
Proof.
  revert p. induction x as [|c x IH]; intros p H.
  - right. by exists p.
  - destruct p as [|a p]; [by left|].
    rewrite append_cons in H. simpl in H |- *.
    destruct (ascii_dec a c) as [->|]; [|discriminate].
    destruct (IH _ H) as [Hx|[q [-> Hq]]]; [by left|].
    right. by exists q.
Qed.

(** The prefix cannot start inside a text free of it and end inside a
    following copy of itself. *)
Lemma bearer_no_straddle (c : ascii) (x b : string) :
  String.prefix "Bearer " (String c x) = false ->
  String.prefix "Bearer " (String c x +:+ "Bearer " +:+ b) = false.
Proof.
  intros Hx.
  destruct (String.prefix "Bearer " (String c x +:+ "Bearer " +:+ b)) eqn:E;
    [|reflexivity].
  apply prefix_append_cases in E as [E|[q [Hq E]]]; [congruence|].
  rewrite append_cons in Hq. injection Hq as <- Hq.
  assert (Hfree : char_free "B" q = true).
  { assert (H : char_free "B" (x +:+ q) = true) by (by rewrite <- Hq).
    rewrite char_free_append in H. by apply andb_true_iff in H as [_ H]. }
  destruct q as [|d q].
  - rewrite append_nil_r in Hq. subst x. discriminate Hx.
  - simpl in Hfree. apply andb_true_iff in Hfree as [Hd _].
    apply negb_true_iff in Hd.
    change ("Bearer " +:+ b) with (String "B" ("earer " +:+ b)) in E.
    simpl in E. destruct (ascii_dec d "B") as [->|]; [discriminate Hd | discriminate E].
Qed.

(** Every occurrence is removed: the text before the first occurrence is
    kept, the occurrence is dropped, and the scan goes on behind it. *)
Lemma replace_bearer_occurrence (a b : string) :
  contains "Bearer " a = false ->
  replace (a +:+ "Bearer " +:+ b) "Bearer " "" = a +:+ replace b "Bearer " "".
Proof.
  unfold replace. induction a as [|c a IH]; intros H.
  - rewrite !append_nil_l.
    assert (Hb : String.prefix "Bearer " (String "B" ("earer " +:+ b)) = true)
      by (destruct b; reflexivity).
    change ("Bearer " +:+ b) with (String "B" ("earer " +:+ b)).
    cbn [replace_from]. rewrite Hb, append_nil_l.
    exact (replace_from_skip "Bearer " "" "earer " b).
  - cbn [contains] in H. apply orb_false_iff in H as [Hp Hc].
    pose proof (bearer_no_straddle _ _ b Hp) as Hs.
    rewrite (append_cons c a) in Hs |- *.
    cbn [replace_from]. rewrite Hs, (append_cons c a). by rewrite IH.
Qed.

Lemma replace_bearer_prefix (t : string) :
  contains "Bearer " t = false -> replace ("Bearer " +:+ t) "Bearer " "" = t.
Proof.
  intros H. rewrite <- (append_nil_l ("Bearer " +:+ t)).
  rewrite (replace_bearer_occurrence "" t eq_refl), append_nil_l.
  by apply replace_absent.
Qed.

End StringFacts.

(** ** The reference codec meets the contract *)

Module ReferenceFacts.
Import Py Auth Reference StringSpec StringFacts.

Lemma dec_pos_enc (p : positive) (r : string) : dec_pos (enc_pos p +:+ r) = Some (p, r).
Proof.
  induction p as [p IH|p IH|]; cbn [enc_pos]; rewrite append_cons; cbn [dec_pos].
  - change (Ascii.eqb "1" ".") with false. change (Ascii.eqb "1" "0") with false.
    change (Ascii.eqb "1" "1") with true. cbn iota. by rewrite IH.
  - change (Ascii.eqb "0" ".") with false. change (Ascii.eqb "0" "0") with true.
    cbn iota. by rewrite IH.
  - reflexivity.
Qed.

Lemma dec_nat_enc (n : nat) (r : string) : dec_nat (enc_nat n +:+ r) = Some (n, r).
Proof.
  unfold dec_nat, enc_nat. rewrite dec_pos_enc, SuccNat2Pos.id_succ. reflexivity.
Qed.

Lemma dec_char_enc (c : ascii) (r : string) : dec_char (enc_char c r) = Some (c, r).
Proof. destruct c as [[] [] [] [] [] [] [] []]; reflexivity. Qed.

Lemma enc_char_append (c : ascii) (x r : string) :
  enc_char c x +:+ r = enc_char c (x +:+ r).
Proof. destruct c. reflexivity. Qed.

Lemma enc_chars_append (s r : string) : enc_chars s "" +:+ r = enc_chars s r.
Proof.
  induction s as [|c s IH]; [reflexivity|].
  cbn [enc_chars]. by rewrite enc_char_append, IH.
Qed.

Lemma dec_chars_enc (s r : string) :
  dec_chars (String.length s) (enc_chars s r) = Some (s, r).
Proof.
  induction s as [|c s IH]; [reflexivity|].
  cbn [String.length enc_chars dec_chars]. by rewrite dec_char_enc, IH.
Qed.

Lemma dec_str_enc (s r : string) : dec_str (enc_str s +:+ r) = Some (s, r).
Proof.
  unfold dec_str, enc_str.
  by rewrite append_assoc, dec_nat_enc, enc_chars_append, dec_chars_enc.
Qed.

Lemma dec_Z_enc (z : Z) (r : string) : dec_Z (enc_Z z +:+ r) = Some (z, r).
Proof.
  destruct z as [|p|p]; cbn [enc_Z]; [reflexivity| |];
    rewrite append_cons; cbn [dec_Z].
  - change (Ascii.eqb "p" "z") with false. change (Ascii.eqb "p" "p") with true.
    cbn iota. by rewrite dec_pos_enc.
  - change (Ascii.eqb "m" "z") with false. change (Ascii.eqb "m" "p") with false.
    change (Ascii.eqb "m" "m") with true. cbn iota. by rewrite dec_pos_enc.
Qed.

Lemma dec_value_enc (v : value) (e r : string) :
  enc_value v = Some e -> dec_value (e +:+ r) = Some (v, r).
Proof.
  destruct v as [|[]|z|s|t|l|d]; cbn [enc_value]; intros H;
    try discriminate; injection H as <-; try reflexivity;
    rewrite append_cons; cbn [dec_value].
  - change (Ascii.eqb "i" "n") with false. change (Ascii.eqb "i" "t") with false.
    change (Ascii.eqb "i" "f") with false. change (Ascii.eqb "i" "i") with true.
    cbn iota. by rewrite dec_Z_enc.
  - change (Ascii.eqb "s" "n") with false. change (Ascii.eqb "s" "t") with false.
    change (Ascii.eqb "s" "f") with false. change (Ascii.eqb "s" "i") with false.
    change (Ascii.eqb "s" "s") with true. cbn iota. by rewrite dec_str_enc.
Qed.

Lemma dec_entry_enc (kv : string * value) (e r : string) :
  enc_entry kv = Some e -> dec_entry (e +:+ r) = Some (kv, r).
Proof.
  destruct kv as [k v]. unfold enc_entry, dec_entry. cbn [fst snd].
  destruct (enc_value v) as [ev|] eqn:Ev; [|discriminate].
  intros H. injection H as <-.
  by rewrite append_assoc, dec_str_enc, (dec_value_enc _ _ _ Ev).
Qed.

Lemma dec_entries_enc (l : list (string * value)) (body r : string) :
  enc_entries l = Some body ->
  dec_entries (List.length l) (body +:+ r) = Some (l, r).
Proof.
  revert body. induction l as [|kv l IH]; intros body H.
  - injection H as <-. reflexivity.
  - cbn [enc_entries] in H.
    destruct (enc_entry kv) as [e|] eqn:Ee; [|discriminate].
    destruct (enc_entries l) as [es|]; [|discriminate].
    injection H as <-. cbn [List.length dec_entries].
    by rewrite append_assoc, (dec_entry_enc _ _ _ Ee), (IH es eq_refl).
Qed.

Lemma parse_token_enc (alg key : string) (l : list (string * value)) (body : string) :
  enc_entries l = Some body ->
  parse_token (enc_str alg +:+ enc_str key +:+ enc_nat (List.length l) +:+ body)
  = Some (alg, key, l).
Proof.
  intros H. unfold parse_token.
  rewrite !dec_str_enc, dec_nat_enc.
  rewrite <- (append_nil_r body), (dec_entries_enc _ _ _ H). reflexivity.
Qed.

(** *** The alphabet of a token *)

Lemma free_enc_pos (p : positive) : char_free "B" (enc_pos p) = true.
Proof. induction p as [p IH|p IH|]; cbn; [exact IH | exact IH | reflexivity]. Qed.

Lemma free_enc_chars (s r : string) :
  char_free "B" r = true -> char_free "B" (enc_chars s r) = true.
Proof.
  intros Hr. induction s as [|c s IH]; [exact Hr|].
  cbn [enc_chars]. destruct c as [[] [] [] [] [] [] [] []]; exact IH.
Qed.

Lemma free_enc_str (s : string) : char_free "B" (enc_str s) = true.
Proof.
  unfold enc_str, enc_nat.
  by rewrite char_free_append, free_enc_pos, free_enc_chars.
Qed.

Lemma free_enc_value (v : value) (e : string) :
  enc_value v = Some e -> char_free "B" e = true.
Proof.
  destruct v as [|[]|z|s|t|l|d]; cbn [enc_value]; intros H;
    try discriminate; injection H as <-; try reflexivity.
  - destruct z; cbn; [reflexivity | apply free_enc_pos | apply free_enc_pos].
  - cbn. apply free_enc_str.
Qed.

Lemma free_enc_entries (l : list (string * value)) (body : string) :
  enc_entries l = Some body -> char_free "B" body = true.
Proof.
  revert body. induction l as [|[k v] l IH]; intros body H.
  - by injection H as <-.
  - cbn [enc_entries] in H. unfold enc_entry in H. cbn [fst snd] in H.
    destruct (enc_value v) as [ev|] eqn:Ev; [|discriminate].
    destruct (enc_entries l) as [es|]; [|discriminate].
    injection H as <-.
    by rewrite !char_free_append, free_enc_str, (free_enc_value _ _ Ev), (IH es eq_refl).
Qed.

(** *** What goes on the wire *)

Lemma wire_exp (claims : gmap string value) (t : Z) :
  claims !! "exp" = Some (VDatetime t) ->
  (forall k, In k registered_claims -> claims !! k = None) ->
  wire claims = <["exp" := VInt t]> claims.
Proof.
  intros Hexp Hreg. apply map_eq. intros k. unfold wire.
  rewrite map_lookup_imap.
  destruct (decide (k = "exp")) as [->|Hk].
  - by rewrite Hexp, lookup_insert_eq.
  - rewrite lookup_insert_ne by done.
    destruct (claims !! k) as [v|] eqn:Ev; [|reflexivity].
    cbn. destruct v; try reflexivity. unfold wire_claim.
    destruct (String.eqb_spec k "exp") as [?|_]; [done|].
    destruct (String.eqb_spec k "iat") as [->|_].
    { rewrite Hreg in Ev; [discriminate | cbn; tauto]. }
    destruct (String.eqb_spec k "nbf") as [->|_].
    { rewrite Hreg in Ev; [discriminate | cbn; tauto]. }
    reflexivity.
Qed.

Lemma enc_entries_scalars (l : list (string * value)) :
  Forall (fun kv => is_scalar (snd kv) = true) l -> is_Some (enc_entries l).
Proof.
  induction 1 as [|[k v] l Hv _ [es IH]]; [by eexists|].
  cbn [enc_entries]. rewrite IH. unfold enc_entry. cbn [fst snd] in *.
  destruct v as [|[]|z|s|t|x|d]; try discriminate; by eexists.
Qed.

Lemma wire_scalars (claims : gmap string value) (t : Z) :
  claims !! "exp" = Some (VDatetime t) ->
  (forall k v, k <> "exp" -> claims !! k = Some v -> is_scalar v = true) ->
  Forall (fun kv => is_scalar (snd kv) = true) (map_to_list (wire claims)).
Proof.
  intros Hexp Hsc. apply Forall_forall. intros [k v] Hin.
  apply elem_of_map_to_list in Hin. unfold wire in Hin.
  rewrite map_lookup_imap in Hin. cbn [snd].
  destruct (claims !! k) as [v0|] eqn:Ev; [|discriminate]. cbn in Hin.
  destruct (decide (k = "exp")) as [->|Hk].
  - rewrite Hexp in Ev. injection Ev as <-. cbn in Hin. by injection Hin as <-.
  - pose proof (Hsc k v0 Hk Ev) as Hs.
    destruct v0; try discriminate; cbn in Hin; by injection Hin as <-.
Qed.

#[local] Instance ref_jwt_contract : JWTContract ref_jwt.
Proof.
  split.
  - intros claims key t Hexp Hsc. cbn [jwt_encode ref_jwt]. unfold ref_encode.
    destruct (enc_entries_scalars _ (wire_scalars _ _ Hexp Hsc)) as [body ->].
    by eexists.
  - intros claims key alg tok. cbn [jwt_encode ref_jwt]. unfold ref_encode.
    destruct (enc_entries _) as [body|] eqn:Eb; [|discriminate].
    intros H. injection H as <-. apply (char_free_not_contains "B" "earer ").
    unfold enc_nat.
    by rewrite !char_free_append, !free_enc_str, free_enc_pos, (free_enc_entries _ _ Eb).
  - intros claims key alg tok t now. cbn [jwt_encode jwt_decode ref_jwt].
    unfold ref_encode, ref_decode.
    destruct (enc_entries _) as [body|] eqn:Eb; [|discriminate].
    intros H Hexp Hreg Hnow. injection H as <-.
    rewrite (parse_token_enc _ _ _ _ Eb). cbn [existsb].
    rewrite !String.eqb_refl. cbn [orb negb].
    rewrite list_to_map_to_list, (wire_exp _ _ Hexp Hreg), lookup_insert_eq.
    destruct (Z.leb_spec t now); [lia | reflexivity].
Qed.

End ReferenceFacts.

(** ** Token verification *)

Module AuthFacts.
Import Py Config Http Auth Reference StringSpec StringFacts ReferenceFacts AuthSpec.

Section Verify.
Context {J : JWT}.
Variable settings : Settings.

Lemma verify_token_decoded now authorization :
  verify_token settings now authorization
  = try_except (bind (decoded settings now authorization) TokenPayload_init)
      (except_clauses
         [ (is_ExpiredSignatureError, fun _ => HTTPException 401 "Token has expired");
           (is_InvalidTokenError, fun _ => HTTPException 401 "Invalid token") ]).
Proof. reflexivity. Qed.



Lemma verify_token_expired now h :
  decoded settings now h = Raise ExpiredSignatureError ->
  verify_token settings now h = Raise (HTTPException 401 "Token has expired").
Proof. intros H. rewrite verify_token_decoded, H. reflexivity. Qed.

Lemma verify_token_invalid now h e :
  decoded settings now h = Raise e ->
  is_InvalidTokenError e = true -> is_ExpiredSignatureError e = false ->
  verify_token settings now h = Raise (HTTPException 401 "Invalid token").
Proof.
  intros H Hi He. rewrite verify_token_decoded, H. cbn. by rewrite He, Hi.
Qed.

Lemma verify_token_returns now h payload :
  decoded settings now h = Return payload ->
  verify_token settings now h
  = try_except (TokenPayload_init payload)
      (except_clauses
         [ (is_ExpiredSignatureError, fun _ => HTTPException 401 "Token has expired");
           (is_InvalidTokenError, fun _ => HTTPException 401 "Invalid token") ]).
Proof. intros H. rewrite verify_token_decoded, H. reflexivity. Qed.

End Verify.



(** C2 (as amended): a header whose token the library reports as expired
    is answered 401 "Token has expired"; a header whose token is
    malformed, wrongly signed or otherwise invalid is answered 401
    "Invalid token"; the two details differ, and an expired token is never
    answered "Invalid token".  A request without the header does not
    reach [verify_token]: request validation answers 422 and names the
    missing header. *)
Theorem token_failures_distinguished {J : JWT} (settings : Settings) (now : Z) :
  (forall h, decoded settings now h = Raise ExpiredSignatureError ->
     protected_route settings now (Some h) = ErrorReply 401 "Token has expired") /\
  (forall h e, decoded settings now h = Raise e ->
     e = DecodeError \/ e = InvalidSignatureError \/ e = OtherInvalidTokenError ->
     protected_route settings now (Some h) = ErrorReply 401 "Invalid token") /\
  protected_route settings now None = ValidationReply 422 [MissingHeader "authorization"] /\
  "Token has expired" <> "Invalid token".
Proof.
  split; [|split; [|split]].
  - intros h H. unfold protected_route, with_required_header.
    by rewrite (verify_token_expired settings now h H).
  - intros h e H He. unfold protected_route, with_required_header.
    rewrite (verify_token_invalid settings now h e H); [reflexivity| |];
      destruct He as [->|[->| ->]]; reflexivity.
  - reflexivity.
  - discriminate.
Qed.

Lemma token_failures_distinguished_witness :
  protected_route (J := ref_jwt) cfg 90000 (Some ("Bearer " +:+ sample_token))
  = ErrorReply 401 "Token has expired" /\
  protected_route (J := ref_jwt) cfg 2000 (Some "Bearer not-a-token")
  = ErrorReply 401 "Invalid token" /\
  protected_route (J := ref_jwt) (default_settings "other key") 2000
    (Some ("Bearer " +:+ sample_token))
  = ErrorReply 401 "Invalid token".
Proof.
  split; [|split].
  - apply (proj1 (token_failures_distinguished (J := ref_jwt) cfg 90000)).
    vm_compute. reflexivity.
  - apply (proj1 (proj2 (token_failures_distinguished (J := ref_jwt) cfg 2000))
             "Bearer not-a-token" DecodeError).
    + vm_compute. reflexivity.
    + left. reflexivity.
  - apply (proj1 (proj2 (token_failures_distinguished (J := ref_jwt)
                           (default_settings "other key") 2000))
             ("Bearer " +:+ sample_token) InvalidSignatureError).
    + vm_compute. reflexivity.
    + right. left. reflexivity.
Defined.

(** C2, the claim as stated, fails: the reply to a request without the
    Authorization header is not an unauthorized response. *)
Lemma missing_header_not_unauthorized :
  status_of (protected_route (J := ref_jwt) cfg 2000 None) = 422 /\
  detail_of (protected_route (J := ref_jwt) cfg 2000 None) = None /\
  ~ exists detail,
      protected_route (J := ref_jwt) cfg 2000 None = ErrorReply 401 detail.
Proof.
  split; [reflexivity|]. split; [reflexivity|].
  intros [detail H]. discriminate H.
Qed.

(** *** The round trip *)

Section RoundTrip.
Context {J : JWT} {C : JWTContract J}.
Variable settings : Settings.

Lemma stamped_lookup (data : gmap string value) (t : Z) (k : string) :
  k <> "exp" ->
  (<["exp" := VInt t]> (<["exp" := VDatetime t]> data)) !! k = data !! k.
Proof. intros Hk. by rewrite !lookup_insert_ne. Qed.

(** Minting is signing the payload stamped with the expiry, when that
    expiry is a datetime; otherwise it raises [OverflowError]. *)
Lemma create_access_token_representable mint data :
  representable settings mint ->
  create_access_token settings mint data
  = jwt_encode (<["exp" := VDatetime (expiry settings mint)]> data)
               (SECRET_KEY settings) (JWT_ALGORITHM settings).
Proof.
  intros [[H1 H2] [H3 H4]]. unfold create_access_token, timedelta_hours, datetime_add.
  rewrite (proj2 (Z.leb_le _ _) H1), (proj2 (Z.leb_le _ _) H2). cbn [andb bind].
  unfold expiry in H3, H4.
  rewrite (proj2 (Z.leb_le _ _) H3), (proj2 (Z.leb_le _ _) H4). reflexivity.
Qed.

Lemma expiry_in_range_representable mint :
  expiry_in_range settings mint -> representable settings mint.
Proof.
  intros [H1 H2]. split; [exact H1|]. unfold datetime_min, datetime_max. lia.
Qed.

Lemma create_access_token_overflow mint data :
  ~ representable settings mint ->
  create_access_token settings mint data = Raise OverflowError.
Proof.
  intros Hn. unfold create_access_token, timedelta_hours, datetime_add.
  destruct (Z.leb_spec (-999999999) (JWT_EXPIRATION_HOURS settings / 24));
    [|reflexivity].
  destruct (Z.leb_spec (JWT_EXPIRATION_HOURS settings / 24) 999999999);
    [|reflexivity].
  cbn [andb bind].
  destruct (Z.leb_spec datetime_min (mint + 3600 * JWT_EXPIRATION_HOURS settings));
    [|reflexivity].
  destruct (Z.leb_spec (mint + 3600 * JWT_EXPIRATION_HOURS settings) datetime_max);
    [|reflexivity].
  destruct Hn. unfold representable, expiry. lia.
Qed.

Lemma create_access_token_returns mint data tok :
  create_access_token settings mint data = Return tok ->
  jwt_encode (<["exp" := VDatetime (expiry settings mint)]> data)
             (SECRET_KEY settings) (JWT_ALGORITHM settings) = Return tok.
Proof.
  intros H. unfold create_access_token, timedelta_hours, datetime_add in H.
  destruct (_ && _); [|discriminate H]. cbn [bind] in H.
  destruct (_ && _); [|discriminate H]. exact H.
Qed.

(** What the library hands back for a freshly minted token. *)
Lemma decode_minted mint now data tok :
  (forall k, In k registered_claims -> data !! k = None) ->
  create_access_token settings mint data = Return tok ->
  now < expiry settings mint ->
  jwt_decode tok (SECRET_KEY settings) [JWT_ALGORITHM settings] now
  = Return (<["exp" := VInt (expiry settings mint)]> (<["exp" := VDatetime (expiry settings mint)]> data)).
Proof.
  intros Hreg Hmint Hnow. apply create_access_token_returns in Hmint.
  apply (decode_encode _ _ _ _ _ _ Hmint); [apply lookup_insert_eq | | exact Hnow].
  intros k Hk. rewrite lookup_insert_ne; [by apply Hreg|].
  intros <-. cbn in Hk. intuition discriminate.
Qed.

Lemma minted_free mint data tok :
  create_access_token settings mint data = Return tok ->
  contains "Bearer " tok = false.
Proof. intros H. apply create_access_token_returns in H. revert H. apply token_alphabet. Qed.

(** A minted token, presented under the scheme prefix before its expiry,
    verifies to the three identity fields of its payload. *)
Lemma verify_minted mint now data tok c u e :
  data !! "customer_id" = Some (VInt c) ->
  data !! "uisp_customer_id" = Some (VStr u) ->
  data !! "email" = Some (VStr e) ->
  (forall k, In k registered_claims -> data !! k = None) ->
  create_access_token settings mint data = Return tok ->
  now < expiry settings mint ->
  verify_token settings now ("Bearer " +:+ tok)
  = Return {| customer_id := c; uisp_customer_id := u; email := e;
              exp := expiry settings mint |}.
Proof.
  intros Hc Hu He Hreg Hmint Hnow.
  pose proof (minted_free _ _ _ Hmint) as Hfree.
  rewrite (verify_token_returns settings now _ _
             (eq_trans (f_equal (fun t => jwt_decode t _ _ _)
                                (replace_bearer_prefix tok Hfree))
                       (decode_minted mint now data tok Hreg Hmint Hnow))).
  unfold TokenPayload_init.
  rewrite !stamped_lookup by discriminate.
  rewrite Hc, Hu, He, lookup_insert_eq. reflexivity.
Qed.

End RoundTrip.




End AuthFacts.

(** ** Login and the customers table *)

Module LoginFacts.
Import Py Config Http Auth Reference StringFacts ReferenceFacts AuthSpec AuthFacts LoginSpec.

Lemma filter_nil {A} (f : A -> bool) (l : list A) :
  (forall a, In a l -> f a = false) -> List.filter f l = [].
Proof.
  induction l as [|a l IH]; intros H; [reflexivity|].
  cbn. rewrite (H a (or_introl eq_refl)). apply IH. intros b Hb. apply H. by right.
Qed.

Lemma select_absent (x : string) (rows : list Database.Customer) :
  ~ In x (List.map Database.uisp_customer_id rows) ->
  List.filter (fun r => String.eqb (Database.uisp_customer_id r) x) rows = [].
Proof.
  intros H. apply filter_nil. intros r Hr.
  destruct (String.eqb_spec (Database.uisp_customer_id r) x) as [<-|]; [|reflexivity].
  destruct H. by apply in_map.
Qed.

Lemma wf_select (x : string) (db : Database.Table) :
  wf db ->
  Database.select_where_uisp_customer_id x db = [] \/ exists row, stored x row db.
Proof.
  unfold wf, stored, Database.select_where_uisp_customer_id.
  induction (Database.rows db) as [|r rows IH]; intros H; [by left|].
  cbn in H. apply NoDup_cons in H as [Hr H]. rewrite list_elem_of_In in Hr.
  cbn [List.filter].
  destruct (String.eqb_spec (Database.uisp_customer_id r) x) as [<-|Hne].
  - right. exists r. by rewrite (select_absent _ _ Hr).
  - by apply IH.
Qed.

Lemma unique_free_absent (x : string) (db : Database.Table) :
  Database.unique_free Database.uisp_customer_id x db = true ->
  ~ In x (List.map Database.uisp_customer_id (Database.rows db)).
Proof.
  unfold Database.unique_free. intros H Hin.
  apply in_map_iff in Hin as [r [<- Hr]].
  rewrite forallb_forall in H. specialize (H r Hr).
  by rewrite String.eqb_refl in H.
Qed.

(** What a successful insertion leaves behind. *)
Lemma add_commit_refresh_returns (c : Database.NewCustomer) (x : string)
    (db db1 : Database.Table) (row : Database.Customer) :
  Database.new_uisp_customer_id c = VStr x ->
  Database.add_commit_refresh c db = (Return row, db1) ->
  db1 = {| Database.rows := (Database.rows db ++ [row])%list;
           Database.next_id := Database.next_id db + 1 |} /\
  Database.uisp_customer_id row = x /\
  Database.id row = Database.next_id db /\
  ~ In x (List.map Database.uisp_customer_id (Database.rows db)).
Proof.
  intros Hx. unfold Database.add_commit_refresh. rewrite Hx.
  cbn [Database.bind_String bind].
  destruct (Database.bind_String (Database.new_email c)) as [e|]; [|discriminate].
  cbn [bind].
  destruct (Database.bind_String (Database.new_name c)) as [n|]; [|discriminate].
  cbn [bind].
  destruct (Database.bind_String (Database.new_phone c)) as [p|]; [|discriminate].
  cbn [bind].
  destruct (_ && _); [|discriminate].
  destruct e as [e|]; [|discriminate].
  destruct (Database.unique_free Database.uisp_customer_id x db) eqn:Hu; [|discriminate].
  destruct (Database.unique_free Database.email e db); [|discriminate].
  cbn [andb]. intros H. injection H as <- <-.
  repeat split. by apply unique_free_absent.
Qed.

Lemma insertion_keeps_wf (x : string) (db : Database.Table) (row : Database.Customer) :
  wf db -> Database.uisp_customer_id row = x ->
  ~ In x (List.map Database.uisp_customer_id (Database.rows db)) ->
  wf {| Database.rows := (Database.rows db ++ [row])%list;
        Database.next_id := Database.next_id db + 1 |} /\
  stored x row {| Database.rows := (Database.rows db ++ [row])%list;
                  Database.next_id := Database.next_id db + 1 |}.
Proof.
  intros Hwf Hx Hfree. unfold wf, stored, Database.select_where_uisp_customer_id.
  cbn [Database.rows]. split.
  - rewrite map_app. cbn. apply NoDup_app. split; [exact Hwf|]. split.
    + intros y Hy Hy'. apply list_elem_of_In in Hy, Hy'. cbn in Hy'.
      destruct Hy' as [<-|[]]. by rewrite Hx in Hy.
    + apply NoDup_singleton.
  - rewrite List.filter_app, (select_absent _ _ Hfree). cbn.
    by rewrite Hx, String.eqb_refl.
Qed.

Section Login.
Context {J : JWT} {C : JWTContract J}.
Variable settings : Settings.
Variable authenticate : string -> string -> outcome AuthResult.
Variable repr_container : value -> string.
Hypothesis alg_HS256 : JWT_ALGORITHM settings = "HS256".

Lemma login_payload_lookup row_id x e tok :
  login_payload row_id x (VStr e) tok !! "customer_id" = Some (VInt row_id) /\
  login_payload row_id x (VStr e) tok !! "uisp_customer_id" = Some (VStr x) /\
  login_payload row_id x (VStr e) tok !! "email" = Some (VStr e) /\
  (forall k, In k registered_claims -> login_payload row_id x (VStr e) tok !! k = None) /\
  (forall k v, login_payload row_id x (VStr e) tok !! k = Some v ->
               is_scalar tok = true -> is_scalar v = true).
Proof.
  unfold login_payload. repeat split.
  - intros k Hk. cbn in Hk.
    destruct Hk as [<-|[<-|[<-|[<-|[<-|[<-|[]]]]]]]; reflexivity.
  - intros k v Hv Htok.
    repeat (apply lookup_insert_Some in Hv as [[_ <-]|[_ Hv]]; [try reflexivity; done|]).
    by rewrite lookup_empty in Hv.
Qed.

(** Signing the login payload succeeds. *)
Lemma login_token_minted now row_id x e tok :
  representable settings now ->
  is_scalar tok = true ->
  exists access_token,
    create_access_token settings now (login_payload row_id x (VStr e) tok)
    = Return access_token.
Proof.
  intros Hrep Htok. rewrite (create_access_token_representable settings now _ Hrep).
  rewrite alg_HS256.
  apply (encode_scalars _ _ (expiry settings now)).
  - apply lookup_insert_eq.
  - intros k v Hk Hv. rewrite lookup_insert_ne in Hv by done.
    by apply (proj2 (proj2 (proj2 (proj2 (login_payload_lookup row_id x e tok)))) k v).
Qed.

(** Once the row is known, the rest of [login] goes through. *)
Lemma login_with_row now request ar cd x e db db' row :
  representable settings now ->
  accepted authenticate repr_container request ar cd x e ->
  find_or_create repr_container ar x (VStr e) db = (Return row, db') ->
  exists resp,
    login settings authenticate repr_container now request db = (Return resp, db') /\
    forall now', now' < now + 3600 * JWT_EXPIRATION_HOURS settings ->
      verify_token settings now' ("Bearer " +:+ access_token resp)
      = Return {| customer_id := Database.id row; uisp_customer_id := x; email := e;
                  exp := now + 3600 * JWT_EXPIRATION_HOURS settings |}.
Proof.
  intros Hrep [Hauth Hcust [ud [Huser Hemail]] [l Hserv] Htok Hid] Hrow.
  destruct (login_token_minted now (Database.id row) x e (token ar) Hrep Htok)
    as [tok Hmint].
  exists {| access_token := tok; token_type := "bearer";
            response_customer := cd; response_services := l |}.
  split.
  - unfold login, login_try. rewrite Hauth, Hcust, Huser. cbn [get bind].
    rewrite Hid, Hemail, <- Hcust, Hrow, Hmint, Hcust, Hserv. reflexivity.
  - intros now' Hnow'. cbn [access_token].
    destruct (login_payload_lookup (Database.id row) x e (token ar))
      as (Hc & Hu & He & Hreg & _).
    exact (verify_minted settings now now' _ tok _ _ _ Hc Hu He Hreg Hmint Hnow').
Qed.

Lemma find_or_create_stored ar x email db row :
  stored x row db -> find_or_create repr_container ar x email db = (Return row, db).
Proof. intros H. unfold find_or_create. unfold stored in H. by rewrite H. Qed.

Lemma find_or_create_new ar cd x email db :
  customer ar = VDict cd ->
  Database.select_where_uisp_customer_id x db = [] ->
  find_or_create repr_container ar x email db
  = Database.add_commit_refresh (new_customer repr_container cd x email) db.
Proof.
  intros Hcust Hsel. unfold find_or_create. rewrite Hsel, Hcust. reflexivity.
Qed.

(** C7 (as amended): let the billing platform accept the credentials and
    return a customer record, a list of services, a session token that is
    a string or absent and a string e-mail; let the customers table
    either hold the row of that external id already or admit its
    insertion; and let the expiry of the token be a datetime within
    2 * 10^10 seconds of the epoch.  Then
    [login] returns a token that verifies to the id of the one stored row
    with that [uisp_customer_id]; any later login accepted in the same
    way for the same external id returns a token for the same row and
    leaves the table as it is; and no two rows share a
    [uisp_customer_id]. *)
Theorem login_reuses_customer now request ar cd x e (db : Database.Table) :
  wf db ->
  expiry_in_range settings now ->
  accepted authenticate repr_container request ar cd x e ->
  (exists row, stored x row db) \/
  (exists row db1,
     Database.add_commit_refresh (new_customer repr_container cd x (VStr e)) db = (Return row, db1)) ->
  exists resp row db',
    login settings authenticate repr_container now request db = (Return resp, db') /\
    stored x row db' /\ wf db' /\
    (forall now', now' < now + 3600 * JWT_EXPIRATION_HOURS settings ->
       verify_token settings now' ("Bearer " +:+ access_token resp)
       = Return {| customer_id := Database.id row; uisp_customer_id := x; email := e;
                   exp := now + 3600 * JWT_EXPIRATION_HOURS settings |}) /\
    (forall now2 request2 ar2 cd2 e2,
       expiry_in_range settings now2 ->
       accepted authenticate repr_container request2 ar2 cd2 x e2 ->
       exists resp2,
         login settings authenticate repr_container now2 request2 db' = (Return resp2, db') /\
         forall now', now' < now2 + 3600 * JWT_EXPIRATION_HOURS settings ->
           verify_token settings now' ("Bearer " +:+ access_token resp2)
           = Return {| customer_id := Database.id row; uisp_customer_id := x; email := e2;
                       exp := now2 + 3600 * JWT_EXPIRATION_HOURS settings |}).
Proof.
  intros Hwf Hrep Hacc Hrow.
  assert (Hfind : exists row db',
            find_or_create repr_container ar x (VStr e) db = (Return row, db') /\
            stored x row db' /\ wf db').
  { destruct (wf_select x db Hwf) as [Hnone|[row Hst]].
    - destruct Hrow as [[row Hst]|[row [db1 Hadd]]].
      + unfold stored in Hst. rewrite Hnone in Hst. discriminate Hst.
      + exists row, db1.
        rewrite (find_or_create_new ar cd x _ db (acc_customer _ _ _ _ _ _ _ Hacc) Hnone).
        split; [exact Hadd|].
        destruct (add_commit_refresh_returns (new_customer repr_container cd x (VStr e)) x db db1 row
                    eq_refl Hadd)
          as (-> & Hx & _ & Hfree).
        destruct (insertion_keeps_wf x db row Hwf Hx Hfree) as [Hwf' Hst'].
        by split.
    - exists row, db. split; [by apply find_or_create_stored|]. by split. }
  destruct Hfind as (row & db' & Hfind & Hst & Hwf').
  destruct (login_with_row now request ar cd x e db db' row
              (expiry_in_range_representable settings now Hrep) Hacc Hfind)
    as (resp & Hl & Hv).
  exists resp, row, db'. repeat split; [exact Hl | exact Hst | exact Hwf' | exact Hv |].
  intros now2 request2 ar2 cd2 e2 Hrep2 Hacc2.
  apply (login_with_row now2 request2 ar2 cd2 x e2 db' db' row
           (expiry_in_range_representable settings now2 Hrep2) Hacc2).
  by apply find_or_create_stored.
Qed.

End Login.

Lemma login_reuses_customer_witness :
  exists resp row,
    login (J := ref_jwt) cfg billing no_repr 1000 ada empty_table
    = (Return resp, table_with_ada) /\
    stored "42" row table_with_ada /\
    exists resp2,
      login (J := ref_jwt) cfg billing no_repr 5000 ada table_with_ada
      = (Return resp2, table_with_ada) /\
      verify_token (J := ref_jwt) cfg 6000 ("Bearer " +:+ access_token resp2)
      = Return {| customer_id := Database.id row; uisp_customer_id := "42";
                  email := "family@example.org"; exp := 5000 + 3600 * 24 |}.
Proof.
  assert (Hacc : accepted billing no_repr ada
                   {| token := VStr "uisp-session-1";
                      user := VDict (<["email" := VStr "family@example.org"]>
                                     (<["clientId" := VInt 42]> ∅));
                      customer := VDict (<["id" := VInt 42]>
                                         (<["firstName" := VStr "Ada"]>
                                         (<["lastName" := VStr "Lovelace"]>
                                         (<["phone" := VStr "555-0100"]> ∅))));
                      services := VList [] |}
                   (<["id" := VInt 42]>
                    (<["firstName" := VStr "Ada"]>
                    (<["lastName" := VStr "Lovelace"]>
                    (<["phone" := VStr "555-0100"]> ∅))))
                   "42" "family@example.org").
  { constructor;
      [reflexivity | reflexivity | eexists; split; reflexivity
      | eexists; reflexivity | reflexivity | reflexivity]. }
  assert (expiry_cfg_1000 : expiry_in_range cfg 1000).
  { unfold expiry_in_range. vm_compute. intuition discriminate. }
  assert (expiry_cfg_5000 : expiry_in_range cfg 5000).
  { unfold expiry_in_range. vm_compute. intuition discriminate. }
  destruct (login_reuses_customer (J := ref_jwt) (C := ref_jwt_contract)
              cfg billing no_repr eq_refl 1000 ada _ _ "42" "family@example.org"
              empty_table (NoDup_nil_2 : wf empty_table) expiry_cfg_1000 Hacc
              (or_intror (ex_intro _ _ (ex_intro _ table_with_ada eq_refl))))
    as (resp & row & db' & Hl & Hs & _ & _ & H2).
  assert (Hdb : db' = table_with_ada).
  { assert (E : snd (login (J := ref_jwt) cfg billing no_repr 1000 ada empty_table)
                = table_with_ada) by (vm_compute; reflexivity).
    rewrite Hl in E. exact E. }
  subst db'. exists resp, row. split; [exact Hl|]. split; [exact Hs|].
  destruct (H2 5000 ada _ _ "family@example.org" expiry_cfg_5000 Hacc)
    as (resp2 & Hl2 & Hv2).
  exists resp2. split; [exact Hl2|]. apply Hv2. reflexivity.
Defined.

(** C7, the claim as stated, fails: the platform accepts Bob's
    credentials, but his record carries the e-mail already stored for
    Ada; the insertion of his row is refused and [login] answers 401
    without a token.  The rows are as before; the key drawn for the
    refused row is spent. *)
Lemma login_refused_on_shared_email :
  snd (login (J := ref_jwt) cfg billing no_repr 1000 ada empty_table) = table_with_ada /\
  (exists ar, billing (username bob) (password bob) = Return ar) /\
  login (J := ref_jwt) cfg billing no_repr 2000 bob table_with_ada
  = (Raise (HTTPException 401 "Authentication failed"),
     {| Database.rows := Database.rows table_with_ada; Database.next_id := 3 |}).
Proof.
  split; [vm_compute; reflexivity|]. split; [eexists; reflexivity|].
  vm_compute. reflexivity.
Qed.

End LoginFacts.

(** ** The device probe: the lower ranks and what every result satisfies *)

Module DevicesMoreFacts.
Import Py Http Devices DevicesSpec DevicesFacts DevicesMoreSpec StringFacts.

Local Ltac break_match :=
  match goal with
  | |- context [match ?x with _ => _ end] => destruct x eqn:?
  | |- context [if ?x then _ else _] => destruct x eqn:?
  end.

Lemma bind_returns {A B} (m : outcome A) (k : A -> outcome B) (b : B) :
  bind m k = Return b -> exists a, m = Return a /\ k a = Return b.
Proof. destruct m as [a|e]; [|discriminate]. intros H. by exists a. Qed.

(** None of the four checks raises: what goes wrong inside is a miss. *)
Lemma detect_starlink_returns net ip : exists r, detect_starlink net ip = Return r.
Proof. unfold detect_starlink. repeat break_match; by eexists. Qed.

Lemma detect_mikrotik_returns net ip : exists r, detect_mikrotik net ip = Return r.
Proof. unfold detect_mikrotik. repeat break_match; by eexists. Qed.

Lemma detect_tr069_device_returns net ip : exists r, detect_tr069_device net ip = Return r.
Proof.
  unfold detect_tr069_device, try_except.
  destruct (bind _ _) as [r|e]; by eexists.
Qed.

Lemma detect_by_http_fingerprint_returns net ip :
  exists r, detect_by_http_fingerprint net ip = Return r.
Proof.
  unfold detect_by_http_fingerprint, try_except.
  destruct (bind _ _) as [r|e]; by eexists.
Qed.

Lemma detect_starlink_hit net ip d :
  detect_starlink net ip = Return (Some d) -> well_formed_hit ip d.
Proof.
  unfold detect_starlink.
  destruct (String.eqb_spec ip "192.168.100.1") as [->|Hne]; cbn [negb]; [|discriminate].
  destruct (check_port _ _ _); [|discriminate].
  intros H. injection H as <-. repeat split. cbn. tauto.
Qed.

Lemma detect_mikrotik_hit net ip d :
  detect_mikrotik net ip = Return (Some d) -> well_formed_hit ip d.
Proof.
  unfold detect_mikrotik. destruct (_ || _); [|discriminate].
  intros H. injection H as <-. repeat split; cbn; [tauto | discriminate].
Qed.

Lemma detect_tr069_device_hit net ip d :
  detect_tr069_device net ip = Return (Some d) ->
  ip_address d = Some ip /\ device_type d = "tr069" /\
  capabilities d = ["wifi_config"; "status"; "reboot"; "firmware_update"].
Proof.
  unfold detect_tr069_device, try_except.
  destruct (bind (acs_devices net (wan_ip_query ip)) _) as [r|e] eqn:E; [|discriminate].
  intros H. injection H as ->.
  apply bind_returns in E as (response & _ & E).
  destruct (Z.eqb (status_code response) 200); [|discriminate].
  apply bind_returns in E as (devices & _ & E).
  destruct (truthy devices); [|discriminate].
  repeat (apply bind_returns in E as (? & _ & E)).
  injection E as <-. repeat split.
Qed.

Lemma detect_by_http_fingerprint_hit net ip d :
  detect_by_http_fingerprint net ip = Return (Some d) ->
  ip_address d = Some ip /\ In (device_type d) ["tr069"; "asus"; "ubiquiti"].
Proof.
  unfold detect_by_http_fingerprint, try_except.
  destruct (bind (http_get net _) _) as [r|e] eqn:E; [|discriminate].
  intros H. injection H as ->.
  apply bind_returns in E as (response & _ & E). cbn zeta in E.
  repeat (destruct (_ || _) in E; [injection E as <-; split; cbn; tauto|]).
  discriminate.
Qed.

(** The four results of one probe. *)
Lemma detect_device_cases net ip :
  exists r1 r2 r3 r4,
    detect_starlink net ip = Return r1 /\ detect_mikrotik net ip = Return r2 /\
    detect_tr069_device net ip = Return r3 /\ detect_by_http_fingerprint net ip = Return r4 /\
    detect_device net ip
    = match r1, r2, r3, r4 with
      | Some d, _, _, _ => d
      | None, Some d, _, _ => d
      | None, None, Some d, _ => d
      | None, None, None, Some d => d
      | None, None, None, None => unknown ip
      end.
Proof.
  destruct (detect_starlink_returns net ip) as [r1 H1].
  destruct (detect_mikrotik_returns net ip) as [r2 H2].
  destruct (detect_tr069_device_returns net ip) as [r3 H3].
  destruct (detect_by_http_fingerprint_returns net ip) as [r4 H4].
  exists r1, r2, r3, r4. repeat (split; [assumption|]).
  unfold detect_device, detect_over. cbn [gather List.map].
  rewrite H1, H2, H3, H4.
  destruct r1, r2, r3, r4; reflexivity.
Qed.

(** X1: whatever the network answers, the record returned by
    [detect_device] echoes the probed address and its type is one of six
    fixed names; it is "starlink" only at the fixed satellite address with
    port 9200 open, and it is "unknown" exactly when all four checks
    miss. *)
Theorem detect_device_result_shape (net : Network) (ip : string) :
  ip_address (detect_device net ip) = Some ip /\
  In (device_type (detect_device net ip))
     ["starlink"; "mikrotik"; "tr069"; "asus"; "ubiquiti"; "unknown"] /\
  (device_type (detect_device net ip) = "starlink" ->
   ip = "192.168.100.1" /\ check_port net ip 9200 = true) /\
  (device_type (detect_device net ip) = "unknown" <->
   detect_starlink net ip = Return None /\ detect_mikrotik net ip = Return None /\
   detect_tr069_device net ip = Return None /\
   detect_by_http_fingerprint net ip = Return None).
Proof.
  destruct (detect_device_cases net ip) as (r1 & r2 & r3 & r4 & H1 & H2 & H3 & H4 & ->).
  rewrite H1, H2, H3, H4.
  destruct r1 as [d|].
  { destruct (detect_starlink_hit net ip d H1) as (Hip & Hty & Hst).
    assert (Hd : device_type d = "starlink" /\ check_port net ip 9200 = true).
    { revert H1. unfold detect_starlink. destruct (negb _); [discriminate|].
      destruct (check_port net ip 9200); [|discriminate].
      intros H. injection H as <-. by split. }
    destruct Hd as [Hd Hport]. cbn iota. rewrite Hd.
    split; [exact Hip|]. split; [cbn; tauto|].
    split; [intros _; split; [by apply Hst | exact Hport]|].
    split; [discriminate | intros (H & _); discriminate H]. }
  destruct r2 as [d|].
  { destruct (detect_mikrotik_hit net ip d H2) as (Hip & Hty & Hst).
    assert (Hd : device_type d = "mikrotik").
    { revert H2. unfold detect_mikrotik. destruct (_ || _); [|discriminate].
      intros H. by injection H as <-. }
    cbn iota. rewrite Hd.
    split; [exact Hip|]. split; [cbn; tauto|]. split; [discriminate|].
    split; [discriminate | intros (_ & H & _); discriminate H]. }
  destruct r3 as [d|].
  { destruct (detect_tr069_device_hit net ip d H3) as (Hip & Hd & _).
    cbn iota. rewrite Hd.
    split; [exact Hip|]. split; [cbn; tauto|]. split; [discriminate|].
    split; [discriminate | intros (_ & _ & H & _); discriminate H]. }
  destruct r4 as [d|].
  { destruct (detect_by_http_fingerprint_hit net ip d H4) as (Hip & Hty).
    cbn iota. cbn in Hty.
    split; [exact Hip|]. split; [cbn; tauto|].
    split; [intros Hs; rewrite Hs in Hty; intuition discriminate|].
    split; [intros Hs; rewrite Hs in Hty; intuition discriminate
           | intros (_ & _ & _ & H); discriminate H]. }
  cbn. split; [reflexivity|]. split; [tauto|]. split; [discriminate|].
  split; [done | reflexivity].
Qed.

Lemma detect_device_third net ip d :
  detect_starlink net ip = Return None -> detect_mikrotik net ip = Return None ->
  detect_tr069_device net ip = Return (Some d) -> detect_device net ip = d.
Proof.
  intros H1 H2 H3. unfold detect_device, detect_over. cbn [gather List.map].
  by rewrite H1, H2, H3.
Qed.

Lemma detect_device_fourth net ip r :
  detect_starlink net ip = Return None -> detect_mikrotik net ip = Return None ->
  detect_tr069_device net ip = Return None ->
  detect_by_http_fingerprint net ip = Return r ->
  detect_device net ip = default (unknown ip) r.
Proof.
  intros H1 H2 H3 H4. unfold detect_device, detect_over. cbn [gather List.map].
  rewrite H1, H2, H3, H4. by destruct r.
Qed.

(** X2: third rank.  Let the satellite and the router checks miss and the
    configuration server answer 200 with a list whose first entry is an
    object, with [_deviceId] an object or absent, its [_Manufacturer] and
    [_ProductClass] strings, null or absent, and [_id] a string, null or
    absent.  Then [detect_device] returns a "tr069" record with the
    firmware capability, whatever the HTTP fingerprint would say: the
    manufacturer and the model come from [_deviceId] ("Unknown" when
    absent), the device id from [_id]. *)
Theorem detect_device_registry (net : Network) (ip : string) (response : Response)
    (dev did : gmap string value) (rest : list value) (m p i : option string) :
  detect_starlink net ip = Return None ->
  detect_mikrotik net ip = Return None ->
  acs_devices net (wan_ip_query ip) = Return response ->
  status_code response = 200 ->
  json response = Return (VList (VDict dev :: rest)) ->
  default (VDict ∅) (dev !! "_deviceId") = VDict did ->
  optional_str (default (VStr "Unknown") (did !! "_Manufacturer")) = Return m ->
  optional_str (default (VStr "Unknown") (did !! "_ProductClass")) = Return p ->
  optional_str (default VNone (dev !! "_id")) = Return i ->
  detect_device net ip = registry_info ip m p i.
Proof.
  intros H1 H2 Hacs Hst Hjs Hdid Hm Hp Hi.
  apply (detect_device_third net ip _ H1 H2).
  unfold detect_tr069_device. rewrite Hacs. cbn [bind]. rewrite Hst. cbn [Z.eqb Pos.eqb].
  rewrite Hjs. cbn [bind truthy item0 get]. rewrite Hdid. cbn [get bind].
  rewrite Hm, Hp, Hi. reflexivity.
Qed.

Lemma detect_device_registry_witness :
  detect_by_http_fingerprint registry_net "10.1.2.3" <> Return None /\
  detect_device registry_net "10.1.2.3"
  = registry_info "10.1.2.3" (Some "Huawei") (Some "Unknown")
      (Some "00259E-HG8245-48575443").
Proof.
  split; [vm_compute; discriminate|].
  eapply (detect_device_registry registry_net "10.1.2.3");
    [reflexivity | reflexivity | reflexivity | reflexivity | reflexivity
    | reflexivity | reflexivity | reflexivity | reflexivity].
Defined.

Lemma prefix_append_weaken (a b s : string) :
  String.prefix (a +:+ b) s = true -> String.prefix a s = true.
Proof.
  revert s. induction a as [|c a IH]; intros s; [by destruct s|].
  rewrite append_cons. destruct s as [|d s]; [discriminate|]. cbn.
  destruct (Ascii.ascii_dec c d); [apply IH | discriminate].
Qed.

(** A text without [a] is without every extension of [a]. *)
Lemma contains_extends (a b s : string) :
  contains a s = false -> contains (a +:+ b) s = false.
Proof.
  induction s as [|d s IH]; cbn [contains]; intros H;
    apply orb_false_iff in H as [Hp Hs]; apply orb_false_iff; split.
  - destruct (String.prefix (a +:+ b) "") eqn:E; [|reflexivity].
    by rewrite (prefix_append_weaken _ _ _ E) in Hp.
  - reflexivity.
  - destruct (String.prefix (a +:+ b) (String d s)) eqn:E; [|reflexivity].
    by rewrite (prefix_append_weaken _ _ _ E) in Hp.
  - by apply IH.
Qed.

(** X3: last rank and the order of the vendor signatures.  Let the first
    three checks miss and the gateway answer a plain GET with a page and a
    Server header of ASCII text.  Page and header are compared in lower
    case: a TP-Link signature in either wins (type tr069, capabilities
    wifi_config, status, reboot), then a D-Link signature in either (the
    same type and capabilities), then "asus" in the page (type asus,
    capabilities wifi_config, status), then "ubnt", "ubiquiti" or "unifi"
    in the page (type ubiquiti, capability status); each record names the
    manufacturer and the probed address and has no model and no device
    id.  With none of them the result is the "unknown" record without
    capabilities, whatever else the Server header names. *)
Theorem detect_device_fingerprint (net : Network) (ip : string) (response : Response) :
  detect_starlink net ip = Return None ->
  detect_mikrotik net ip = Return None ->
  detect_tr069_device net ip = Return None ->
  http_get net ("http://" +:+ ip +:+ "/") = Return response ->
  is_ascii (text response) = true ->
  is_ascii (default "" (headers response !! "server")) = true ->
  let content := lower (text response) in
  let server := lower (default "" (headers response !! "server")) in
  let tp := contains "tp-link" content || contains "tp-link" server in
  let dl := contains "d-link" content || contains "d-link" server in
  let asus := contains "asus" content in
  let ubnt := contains "ubnt" content || contains "ubiquiti" content
              || contains "unifi" content in
  detect_device net ip
  = if tp then vendor_info ip "tr069" "TP-Link" ["wifi_config"; "status"; "reboot"]
    else if dl then vendor_info ip "tr069" "D-Link" ["wifi_config"; "status"; "reboot"]
    else if asus then vendor_info ip "asus" "ASUS" ["wifi_config"; "status"]
    else if ubnt then vendor_info ip "ubiquiti" "Ubiquiti" ["status"]
    else unknown_info ip.
Proof.
  intros H1 H2 H3 Hget _ _. cbv zeta.
  assert (Hasus : contains "asus" (lower (text response))
                  || contains "asuswrt" (lower (text response))
                  = contains "asus" (lower (text response))).
  { destruct (contains "asus" (lower (text response))) eqn:E; [reflexivity|].
    cbn [orb]. exact (contains_extends "asus" "wrt" _ E). }
  rewrite (detect_device_fourth net ip
             (if contains "tp-link" (lower (text response))
                 || contains "tp-link" (lower (default "" (headers response !! "server")))
              then Some (vendor_info ip "tr069" "TP-Link" ["wifi_config"; "status"; "reboot"])
              else if contains "d-link" (lower (text response))
                      || contains "d-link" (lower (default "" (headers response !! "server")))
              then Some (vendor_info ip "tr069" "D-Link" ["wifi_config"; "status"; "reboot"])
              else if contains "asus" (lower (text response))
              then Some (vendor_info ip "asus" "ASUS" ["wifi_config"; "status"])
              else if contains "ubnt" (lower (text response))
                      || contains "ubiquiti" (lower (text response))
                      || contains "unifi" (lower (text response))
              then Some (vendor_info ip "ubiquiti" "Ubiquiti" ["status"])
              else None) H1 H2 H3).
  - clear Hasus.
    destruct (contains "tp-link" _ || contains "tp-link" _); [reflexivity|].
    destruct (contains "d-link" _ || contains "d-link" _); [reflexivity|].
    destruct (contains "asus" _); [reflexivity|].
    destruct (_ || _); reflexivity.
  - unfold detect_by_http_fingerprint. rewrite Hget. cbn [bind]. cbv zeta.
    rewrite Hasus. clear Hasus.
    destruct (contains "tp-link" _ || contains "tp-link" _); [reflexivity|].
    destruct (contains "d-link" _ || contains "d-link" _); [reflexivity|].
    destruct (contains "asus" _); [reflexivity|].
    destruct (_ || _); reflexivity.
Qed.

Lemma detect_device_fingerprint_witness :
  detect_device (vendor_net "<h1>D-LINK router, works with TP-Link</h1>" None) "10.1.2.3"
  = {| device_type := "tr069"; manufacturer := Some "TP-Link"; model := None;
       device_id := None; ip_address := Some "10.1.2.3";
       capabilities := ["wifi_config"; "status"; "reboot"] |} /\
  detect_device (vendor_net "<h1>Login</h1>" (Some "ASUSWRT httpd")) "10.1.2.3"
  = {| device_type := "unknown"; manufacturer := None; model := None;
       device_id := None; ip_address := Some "10.1.2.3"; capabilities := [] |}.
Proof.
  split.
  - rewrite (detect_device_fingerprint
               (vendor_net "<h1>D-LINK router, works with TP-Link</h1>" None) "10.1.2.3"
               _ eq_refl eq_refl eq_refl eq_refl eq_refl eq_refl).
    reflexivity.
  - rewrite (detect_device_fingerprint
               (vendor_net "<h1>Login</h1>" (Some "ASUSWRT httpd")) "10.1.2.3"
               _ eq_refl eq_refl eq_refl eq_refl eq_refl eq_refl).
    reflexivity.
Defined.

End DevicesMoreFacts.

(** ** Voucher batches: shape, registrations, edge cases *)

Module MikroTikMoreFacts.
Import Py Http MikroTik Hotspot Reference MikroTikSpec MikroTikFacts MikroTikMoreSpec.

Lemma length_join_chars (l : list ascii) : String.length (join_chars l) = List.length l.
Proof.
  unfold join_chars. induction l as [|c l IH]; [reflexivity|]. cbn. by rewrite IH.
Qed.

Lemma choices_spec (population : list ascii) (k : nat) (t : tape) (pos : nat) :
  population <> [] ->
  List.length (fst (choices population k t pos)) = k /\
  Forall (fun ch => In ch population) (fst (choices population k t pos)) /\
  snd (choices population k t pos) = (pos + k)%nat.
Proof.
  intros Hne. unfold choices. cbn [fst snd].
  split; [by rewrite length_map, length_seq|]. split; [|reflexivity].
  apply Forall_forall. intros ch Hin. apply list_elem_of_In in Hin.
  apply in_map_iff in Hin as (i & <- & _). apply nth_In.
  apply Nat.mod_upper_bound. destruct population; [done | discriminate].
Qed.

Lemma new_code_shape (request : VoucherRequest) (t : tape) (pos : nat) :
  code_shape request (fst (new_code request t pos)) /\
  snd (new_code request t pos) = (pos + Z.to_nat (code_length request))%nat.
Proof.
  unfold new_code.
  destruct (choices_spec alphabet (Z.to_nat (code_length request)) t pos)
    as (Hl & Hin & Hpos); [discriminate|].
  destruct (choices alphabet _ t pos) as [chars pos']. cbn [fst snd] in *.
  split; [|exact Hpos].
  exists (join_chars chars). split; [reflexivity|].
  split; [by rewrite length_join_chars|].
  unfold join_chars. by rewrite list_ascii_of_string_of_list_ascii.
Qed.

Section Loop.
Context {R : RouterOs}.
Variable request : VoucherRequest.
Variable t : tape.

Lemma generate_loop_shape (n : nat) vouchers pos (r : router) vs pos' r' :
  generate_loop request t n vouchers pos r = (Return vs, pos', r') ->
  exists new,
    vs = (vouchers ++ new)%list /\
    Forall (fun v => code_shape request (code v)) new /\
    pos' = (pos + n * Z.to_nat (code_length request))%nat /\
    register_all (List.map (fun v => voucher_user request (code v)) new) r = Return r'.
Proof.
  revert vouchers pos r. induction n as [|n IH]; intros vouchers pos r H.
  - injection H as <- <- <-. exists []. rewrite app_nil_r.
    repeat split; [constructor | lia].
  - cbn [generate_loop] in H.
    pose proof (new_code_shape request t pos) as [Hshape Hpos].
    destruct (new_code request t pos) as [c pos1]. cbn [fst snd] in *.
    destruct (hotspot_user_add (voucher_user request c) r) as [r1|e] eqn:Hadd;
      [|discriminate].
    destruct (IH _ _ _ H) as (new & -> & Hnew & -> & Hreg).
    exists (voucher_record request c :: new). rewrite <- app_assoc.
    repeat split.
    + constructor; [exact Hshape | exact Hnew].
    + subst pos1. lia.
    + cbn [List.map register_all voucher_record code]. by rewrite Hadd.
Qed.

End Loop.

Lemma generate_vouchers_returns {R : RouterOs} creds request t pos (r : router)
    vs pos' r' :
  generate_vouchers creds request t pos r = (Return vs, pos', r') ->
  Forall (fun v => code_shape request (code v)) vs /\
  pos' = (pos + Z.to_nat (count request) * Z.to_nat (code_length request))%nat /\
  register_all (List.map (fun v => voucher_user request (code v)) vs) r = Return r'.
Proof.
  unfold generate_vouchers. destruct (_connect creds r); [|discriminate].
  intros H. destruct (generate_loop_shape _ _ _ _ _ _ _ _ _ H) as (new & -> & Hs & Hp & Hr).
  by repeat split.
Qed.

(** X4: every code of a returned batch is the request's prefix followed
    by [code_length] characters drawn from A-Z and 0-9 (none when
    [code_length] is not positive), and the batch has read exactly
    [count * code_length] draws of the random source. *)
Theorem generate_vouchers_code_shape {R : RouterOs} creds request t pos (r : router)
    vs pos' r' :
  generate_vouchers creds request t pos r = (Return vs, pos', r') ->
  Forall (fun v => code_shape request (code v)) vs /\
  pos' = (pos + Z.to_nat (count request) * Z.to_nat (code_length request))%nat.
Proof.
  intros H. destruct (generate_vouchers_returns _ _ _ _ _ _ _ _ H) as (Hs & Hp & _).
  by split.
Qed.

Lemma generate_vouchers_code_shape_witness :
  Forall (fun v => code_shape day_request (code v))
    [ {| code := "VAAAAAAAA"; voucher_profile := "1day"; voucher_validity := "1d" |};
      {| code := "VAAAAAAAA"; voucher_profile := "1day"; voucher_validity := "1d" |} ] /\
  16%nat = (0 + Z.to_nat (count day_request) * Z.to_nat (code_length day_request))%nat.
Proof.
  apply (generate_vouchers_code_shape (R := lax_router) creds0 day_request
           (fun _ => 0%nat) 0%nat [] _ 16%nat
           [voucher_user day_request "VAAAAAAAA"; voucher_user day_request "VAAAAAAAA"]).
  reflexivity.
Defined.

(** X5: when a batch is returned, the router is in the state reached by
    registering exactly the returned codes, in their order, each as a
    user whose name and password are the code, whose profile is the
    request's, whose uptime limit is the request's validity and whose
    comment is "Voucher generated automatically"; nothing else was sent
    to it. *)
Theorem generate_vouchers_registers_returned {R : RouterOs} creds request t pos
    (r : router) vs pos' r' :
  generate_vouchers creds request t pos r = (Return vs, pos', r') ->
  register_all (List.map (fun v => registered_user request (code v)) vs) r = Return r'.
Proof.
  intros H. destruct (generate_vouchers_returns _ _ _ _ _ _ _ _ H) as (_ & _ & Hr).
  exact Hr.
Qed.

Lemma generate_vouchers_registers_returned_witness :
  register_all (R := ref_router)
    [ {| param_name := "VAAAAAAAA"; param_password := "VAAAAAAAA";
         param_profile := "1day"; param_limit_uptime := "1d";
         param_comment := "Voucher generated automatically" |};
      {| param_name := "VNNNNNNNN"; param_password := "VNNNNNNNN";
         param_profile := "1day"; param_limit_uptime := "1d";
         param_comment := "Voucher generated automatically" |} ]
    (empty_router 5)
  = Return {| users :=
                [ {| param_name := "VAAAAAAAA"; param_password := "VAAAAAAAA";
                     param_profile := "1day"; param_limit_uptime := "1d";
                     param_comment := "Voucher generated automatically" |};
                  {| param_name := "VNNNNNNNN"; param_password := "VNNNNNNNN";
                     param_profile := "1day"; param_limit_uptime := "1d";
                     param_comment := "Voucher generated automatically" |} ];
              quota := 5; reachable := true |}.
Proof.
  apply (generate_vouchers_registers_returned (R := ref_router) creds0 day_request
           (fun i => if Nat.ltb i 8 then 0%nat else 13%nat) 0%nat (empty_router 5)
           [ {| code := "VAAAAAAAA"; voucher_profile := "1day"; voucher_validity := "1d" |};
             {| code := "VNNNNNNNN"; voucher_profile := "1day"; voucher_validity := "1d" |} ]
           16%nat).
  reflexivity.
Defined.

(** X6: when the session to the router cannot be opened,
    [generate_vouchers] raises 503 with the cause in its detail, before
    any code is drawn or registered; the route answers 503.  When the
    session opens and [count] is zero or negative, the batch is empty and
    nothing is drawn or registered. *)
Theorem generate_vouchers_edge_cases {R : RouterOs} creds request t pos (r : router) :
  (forall e, get_api creds r = Raise e ->
     generate_vouchers creds request t pos r
     = (Raise (HTTPException 503 ("Cannot connect to MikroTik: " +:+ exn_str e)), pos, r) /\
     generate_vouchers_route creds request t pos r
     = (ErrorReply 503 ("Cannot connect to MikroTik: " +:+ exn_str e), pos, r)) /\
  (get_api creds r = Return tt -> count request <= 0 ->
     generate_vouchers creds request t pos r = (Return [], pos, r) /\
     generate_vouchers_route creds request t pos r = (Reply 200 ([], 0%nat), pos, r)).
Proof.
  split.
  - intros e He.
    assert (E : generate_vouchers creds request t pos r
                = (Raise (HTTPException 503 ("Cannot connect to MikroTik: " +:+ exn_str e)),
                   pos, r)).
    { unfold generate_vouchers, _connect. by rewrite He. }
    split; [exact E|]. unfold generate_vouchers_route. by rewrite E.
  - intros Hc Hn.
    assert (E : generate_vouchers creds request t pos r = (Return [], pos, r)).
    { unfold generate_vouchers, _connect. rewrite Hc. cbn [try_except].
      replace (Z.to_nat (count request)) with 0%nat by lia. reflexivity. }
    split; [exact E|]. unfold generate_vouchers_route. by rewrite E.
Qed.

Lemma generate_vouchers_edge_cases_witness :
  generate_vouchers_route (R := ref_router) creds0 day_request (fun _ => 0%nat) 0%nat
    {| users := []; quota := 5; reachable := false |}
  = (ErrorReply 503 "Cannot connect to MikroTik: timed out", 0%nat,
     {| users := []; quota := 5; reachable := false |}) /\
  generate_vouchers_route (R := ref_router) creds0
    {| count := -3; profile := "1day"; prefix := "V"; validity := "1d"; code_length := 8 |}
    (fun _ => 0%nat) 0%nat (empty_router 5)
  = (Reply 200 ([], 0%nat), 0%nat, empty_router 5).
Proof.
  split.
  - apply (proj1 (generate_vouchers_edge_cases (R := ref_router) creds0 day_request
                    (fun _ => 0%nat) 0%nat
                    {| users := []; quota := 5; reachable := false |})
             (NetworkError "timed out")).
    reflexivity.
  - apply (proj2 (generate_vouchers_edge_cases (R := ref_router) creds0
                    {| count := -3; profile := "1day"; prefix := "V"; validity := "1d";
                       code_length := 8 |}
                    (fun _ => 0%nat) 0%nat (empty_router 5)));
      [reflexivity | cbn; lia].
Defined.

End MikroTikMoreFacts.

(** ** Print layouts and presets *)

Module HotspotPrintFacts.
Import Py Http MikroTik Hotspot HotspotPrint Reference StringSpec StringFacts.
Import MikroTikSpec MikroTikFacts MikroTikMoreSpec MikroTikMoreFacts HotspotPrintSpec.

Lemma prefix_append_l (a x y : string) :
  String.prefix a x = true -> String.prefix a (x +:+ y) = true.
Proof.
  revert x. induction a as [|c a IH]; intros x H.
  - by destruct (x +:+ y).
  - destruct x as [|d x]; [discriminate|]. rewrite append_cons. simpl in *.
    destruct (ascii_dec c d); [by apply IH | discriminate].
Qed.

Lemma prefix_refl_append (a y : string) : String.prefix a (a +:+ y) = true.
Proof.
  induction a as [|c a IH]; [by destruct y|].
  rewrite append_cons. simpl. by destruct (ascii_dec c c).
Qed.

Lemma contains_here (a y : string) : contains a (a +:+ y) = true.
Proof.
  destruct (a +:+ y) eqn:E; cbn [contains]; rewrite <- E, prefix_refl_append; reflexivity.
Qed.

Lemma contains_append_r (a x y : string) :
  contains a y = true -> contains a (x +:+ y) = true.
Proof.
  intros H. induction x as [|c x IH]; [exact H|].
  rewrite append_cons. cbn [contains]. rewrite IH. apply orb_true_r.
Qed.

Lemma contains_append_l (a x y : string) :
  contains a x = true -> contains a (x +:+ y) = true.
Proof.
  induction x as [|c x IH]; intros H.
  - cbn [contains] in H. rewrite orb_false_r in H.
    destruct a; [|discriminate]. rewrite append_nil_l. by destruct y.
  - cbn [contains] in H. apply orb_true_iff in H as [H|H].
    + pose proof (prefix_append_l _ _ y H) as Hp. rewrite append_cons in *.
      cbn [contains]. by rewrite Hp.
    + rewrite append_cons. cbn [contains]. rewrite (IH H). apply orb_true_r.
Qed.

Lemma contains_join (a sep s : string) (parts : list string) :
  In s parts -> contains a s = true -> contains a (join sep parts) = true.
Proof.
  intros Hin Hs. induction parts as [|p parts IH]; [destruct Hin|].
  destruct parts as [|q parts].
  - destruct Hin as [->|[]]. exact Hs.
  - change (join sep (p :: q :: parts)) with (p +:+ sep +:+ join sep (q :: parts)).
    destruct Hin as [->|Hin].
    + by apply contains_append_l.
    + do 2 apply contains_append_r. by apply IH.
Qed.

Local Ltac find_in :=
  repeat match goal with
    | |- contains ?a (?a +:+ _) = true => apply contains_here
    | |- contains ?a ((_ +:+ _) +:+ _) = true => rewrite append_assoc
    | |- contains ?a (_ +:+ _) = true => apply contains_append_r
    end.

Section Layouts.
Variable repr_container : value -> string.

Lemma texts_contain_code (v : gmap string value) (c : value) :
  contains (str repr_container c) (thermal_text repr_container v c) = true /\
  contains (str repr_container c) (a4_text repr_container v c) = true /\
  contains (str repr_container c) (card_text repr_container v c) = true.
Proof.
  unfold thermal_text, a4_text, card_text. repeat split; find_in.
Qed.

Lemma for_each_In (f : gmap string value -> outcome string) vs out v :
  for_each f vs = Return out -> In v vs -> exists s, f v = Return s /\ In s out.
Proof.
  revert out. induction vs as [|w vs IH]; intros out H Hin; [destruct Hin|].
  cbn [for_each] in H. destruct (f w) as [s|e] eqn:Ef; [|discriminate].
  cbn [bind] in H. destruct (for_each f vs) as [ss|e]; [|discriminate].
  injection H as <-. destruct Hin as [->|Hin].
  - exists s. split; [exact Ef | by left].
  - destruct (IH ss eq_refl Hin) as (s' & Hs' & Hin'). exists s'. split; [exact Hs' | by right].
Qed.

Lemma for_each_render (text : gmap string value -> value -> string) vs :
  (Forall has_code vs -> exists out, for_each (render text) vs = Return out /\
                                       List.length out = List.length vs) /\
  (~ Forall has_code vs -> for_each (render text) vs = Raise KeyError).
Proof.
  induction vs as [|v vs [IHok IHko]].
  - split; [intros _; by exists [] | intros H; destruct H; constructor].
  - cbn [for_each]. unfold render at 1 3, item.
    destruct (v !! "code") as [c|] eqn:Ec; cbn [bind].
    + split.
      * intros H. apply Forall_cons in H as [_ H].
        destruct (IHok H) as (out & -> & Hl). eexists. split; [reflexivity|].
        cbn. by rewrite Hl.
      * intros H. rewrite IHko; [reflexivity|]. intros Hvs. apply H.
        constructor; [by exists c | exact Hvs].
    + split; [|reflexivity].
      intros H. apply Forall_cons in H as [[c Hc] _]. unfold has_code in *. congruence.
Qed.

(** X7: [format_vouchers_for_print] turns down every format other than
    "thermal", "a4" and "card" with 400 "Invalid format", whatever the
    vouchers are.  For a supported format it returns exactly when every
    voucher has a [code] key; one voucher without it makes the whole call
    raise [KeyError], which the route answers with the generic 500
    reply. *)
Theorem format_vouchers_for_print_outcomes (request : BulkVoucherPrint) :
  (~ supported (format request) ->
   format_vouchers_for_print repr_container request
   = Raise (HTTPException 400 "Invalid format")) /\
  (supported (format request) -> Forall has_code (print_vouchers request) ->
   exists printed, format_vouchers_for_print repr_container request = Return printed) /\
  (supported (format request) -> ~ Forall has_code (print_vouchers request) ->
   format_vouchers_for_print repr_container request = Raise KeyError /\
   respond (format_vouchers_for_print repr_container request)
   = ErrorReply 500 "Internal server error").
Proof.
  unfold format_vouchers_for_print, supported.
  destruct (String.eqb_spec (format request) "thermal") as [Ht|Ht];
    [|destruct (String.eqb_spec (format request) "a4") as [Ha|Ha];
      [|destruct (String.eqb_spec (format request) "card") as [Hc|Hc]]].
  4: { split; [reflexivity|]. split; intros H; exfalso; tauto. }
  all: split; [intros H; exfalso; tauto|]; split; intros _ Hv.
  all: match goal with
       | |- context [for_each (render ?t) ?vs] =>
           destruct (for_each_render t vs) as [Hok Hko]
       end.
  all: try (destruct (Hok Hv) as (out & -> & _); by eexists).
  all: rewrite (Hko Hv); by split.
Qed.

(** X8: whatever the layout, the text returned by
    [format_vouchers_for_print] contains the code of every voucher of the
    request. *)
Theorem format_vouchers_for_print_shows_codes (request : BulkVoucherPrint)
    (printed : Printed) (v : gmap string value) (c : value) :
  format_vouchers_for_print repr_container request = Return printed ->
  In v (print_vouchers request) ->
  v !! "code" = Some c ->
  contains (str repr_container c) (content printed) = true.
Proof.
  intros H Hin Hc. unfold format_vouchers_for_print in H.
  destruct (texts_contain_code v c) as (Ht & Ha & Hk).
  assert (Hr : forall text, render text v = Return (text v c)).
  { intros text. unfold render, item. by rewrite Hc. }
  repeat (destruct (String.eqb _ _) in H;
          [ destruct (for_each _ _) as [out|e] eqn:E in H; [|discriminate];
            injection H as <-; cbn [content];
            destruct (for_each_In _ _ _ _ E Hin) as (s & Hs & Hins);
            rewrite Hr in Hs; injection Hs as <- | ]).
  - by apply (contains_join _ _ _ _ Hins).
  - apply contains_append_r, contains_append_l. by apply (contains_join _ _ _ _ Hins).
  - apply contains_append_r, contains_append_l. by apply (contains_join _ _ _ _ Hins).
  - discriminate.
Qed.

End Layouts.

Lemma format_vouchers_for_print_outcomes_witness :
  format_vouchers_for_print no_repr_ {| print_vouchers := [broken_voucher]; format := "pdf" |}
  = Raise (HTTPException 400 "Invalid format") /\
  (exists printed,
     format_vouchers_for_print no_repr_ {| print_vouchers := three_vouchers; format := "a4" |}
     = Return printed) /\
  format_vouchers_for_print no_repr_
    {| print_vouchers := three_vouchers ++ [broken_voucher]; format := "card" |}
  = Raise KeyError.
Proof.
  split; [|split].
  - apply (proj1 (format_vouchers_for_print_outcomes no_repr_
                    {| print_vouchers := [broken_voucher]; format := "pdf" |})).
    unfold supported. cbn. intuition discriminate.
  - apply (proj1 (proj2 (format_vouchers_for_print_outcomes no_repr_
                           {| print_vouchers := three_vouchers; format := "a4" |}))).
    + right. left. reflexivity.
    + repeat constructor; by eexists.
  - apply (proj2 (proj2 (format_vouchers_for_print_outcomes no_repr_
                           {| print_vouchers := three_vouchers ++ [broken_voucher];
                              format := "card" |}))).
    + right. right. reflexivity.
    + intros H. apply Forall_app in H as [_ H]. apply Forall_cons in H as [[c Hc] _].
      discriminate Hc.
Defined.

Lemma format_vouchers_for_print_shows_codes_witness :
  contains "1DZZ81LLP0"
    (default "" (option_map content
       (returned (format_vouchers_for_print no_repr_
                    {| print_vouchers := three_vouchers; format := "thermal" |}))))
  = true.
Proof.
  destruct (format_vouchers_for_print no_repr_
              {| print_vouchers := three_vouchers; format := "thermal" |})
    as [printed|e] eqn:E; [|vm_compute in E; discriminate E].
  cbn [returned option_map default].
  apply (format_vouchers_for_print_shows_codes no_repr_
           {| print_vouchers := three_vouchers; format := "thermal" |} printed
           (voucher_dict "1DZZ81LLP0") (VStr "1DZZ81LLP0") E).
  - right. left. reflexivity.
  - reflexivity.
Defined.

End HotspotPrintFacts.

(** ** Quick vouchers and the list of presets *)

Module QuickVoucherFacts.
Import Py Http MikroTik Hotspot HotspotPrint Reference StringSpec StringFacts.
Import MikroTikSpec MikroTikFacts MikroTikMoreSpec MikroTikMoreFacts.

Lemma lookup_preset_listed (key : string) :
  match lookup_preset key VOUCHER_PRESETS with
  | Some p =>
      exists e, In e get_voucher_presets /\ entry_id e = key /\
                String.length (slice_to 2 (upper key)) = 2%nat /\
                p = {| preset_profile := entry_profile e;
                       preset_validity := entry_validity e;
                       preset_rate := entry_rate e |}
  | None => ~ In key (List.map entry_id get_voucher_presets)
  end.
Proof.
  destruct (String.eqb_spec "1hour" key) as [<-|H1];
    [vm_compute; eexists; split; [left; reflexivity | repeat split]|].
  destruct (String.eqb_spec "1day" key) as [<-|H2];
    [vm_compute; eexists; split; [right; left; reflexivity | repeat split]|].
  destruct (String.eqb_spec "1week" key) as [<-|H3];
    [vm_compute; eexists; split; [right; right; left; reflexivity | repeat split]|].
  destruct (String.eqb_spec "1month" key) as [<-|H4];
    [vm_compute; eexists; split; [right; right; right; left; reflexivity | repeat split]|].
  unfold VOUCHER_PRESETS. cbn [lookup_preset].
  apply String.eqb_neq in H1, H2, H3, H4. rewrite H1, H2, H3, H4.
  apply String.eqb_neq in H1, H2, H3, H4. cbn. intuition.
Qed.

Lemma slice_to_append (a b : string) : slice_to (String.length a) (a +:+ b) = a.
Proof.
  induction a as [|c a IH]; [by destruct b|].
  rewrite append_cons. cbn. by rewrite IH.
Qed.

(** X9: [generate_quick_vouchers] accepts exactly the preset names that
    [get_voucher_presets] lists.  Any other name is answered 400 before
    the router is contacted or a code is drawn; a listed name runs
    [generate_vouchers] with the profile and validity of that entry, the
    first two characters of the name in upper case as prefix, and eight
    random characters. *)
Theorem generate_quick_vouchers_presets {R : RouterOs} creds (request : QuickVoucher)
    t pos (r : router) :
  (~ In (preset request) (List.map entry_id get_voucher_presets) ->
   generate_quick_vouchers creds request t pos r = (Raise invalid_preset, pos, r)) /\
  (forall e, In e get_voucher_presets -> entry_id e = preset request ->
     generate_quick_vouchers creds request t pos r
     = let p := {| preset_profile := entry_profile e;
                   preset_validity := entry_validity e;
                   preset_rate := entry_rate e |} in
       let '(o, pos', r') := generate_vouchers creds (quick_request request p) t pos r in
       (bind o (fun vs => Return {| vouchers := vs;
                                     quick_preset := preset request;
                                     preset_details := p |}),
        pos', r')).
Proof.
  unfold generate_quick_vouchers.
  pose proof (lookup_preset_listed (preset request)) as H.
  destruct (lookup_preset (preset request) VOUCHER_PRESETS) as [p|].
  - destruct H as (e0 & Hin0 & Hid0 & _ & ->). split.
    + intros Hn. destruct Hn. rewrite <- Hid0. by apply in_map.
    + intros e Hin Hid.
      assert (e = e0) as ->; [|reflexivity].
      rewrite <- Hid0 in Hid. clear -Hin Hin0 Hid. cbn in Hin, Hin0.
      repeat (destruct Hin as [<-|Hin]); try destruct Hin;
        repeat (destruct Hin0 as [<-|Hin0]); try destruct Hin0;
        first [reflexivity | discriminate Hid].
  - split; [reflexivity|]. intros e Hin Hid. destruct H. rewrite <- Hid. by apply in_map.
Qed.

Lemma generate_quick_vouchers_presets_witness :
  generate_quick_vouchers (R := ref_router) creds0 {| preset := "2hours"; quick_count := 3 |}
    (fun _ => 0%nat) 0%nat {| users := []; quota := 5; reachable := false |}
  = (Raise invalid_preset, 0%nat, {| users := []; quota := 5; reachable := false |}) /\
  exists out r',
    generate_quick_vouchers (R := ref_router) creds0 {| preset := "1day"; quick_count := 1 |}
      (fun _ => 0%nat) 0%nat {| users := []; quota := 5; reachable := true |}
    = (Return out, 8%nat, r') /\
    List.map code (vouchers out) = ["1DAAAAAAAA"] /\
    List.map voucher_validity (vouchers out) = ["1d"].
Proof.
  split.
  - apply (proj1 (generate_quick_vouchers_presets (R := ref_router) creds0
                    {| preset := "2hours"; quick_count := 3 |} (fun _ => 0%nat) 0%nat
                    {| users := []; quota := 5; reachable := false |})).
    cbn. intuition discriminate.
  - rewrite (proj2 (generate_quick_vouchers_presets (R := ref_router) creds0
                      {| preset := "1day"; quick_count := 1 |} (fun _ => 0%nat) 0%nat
                      {| users := []; quota := 5; reachable := true |})
               {| entry_id := "1day"; entry_profile := "1day"; entry_validity := "1d";
                  entry_rate := "10M/10M"; entry_description := "1day access voucher" |}
               (or_intror (or_introl eq_refl)) eq_refl).
    vm_compute. eexists. eexists. split; [reflexivity|]. split; reflexivity.
Defined.

(** X10: every code returned by [generate_quick_vouchers] has ten
    characters: the first two characters of the preset name in upper
    case, then eight characters of A-Z, 0-9. *)
Theorem generate_quick_vouchers_code_shape {R : RouterOs} creds (request : QuickVoucher)
    t pos (r : router) out pos' r' :
  generate_quick_vouchers creds request t pos r = (Return out, pos', r') ->
  Forall (fun v => String.length (code v) = 10%nat /\
                   slice_to 2 (code v) = slice_to 2 (upper (preset request)) /\
                   exists body, code v = slice_to 2 (upper (preset request)) +:+ body /\
                                Forall (fun ch => In ch alphabet) (list_ascii_of_string body))
         (vouchers out).
Proof.
  unfold generate_quick_vouchers.
  pose proof (lookup_preset_listed (preset request)) as H.
  destruct (lookup_preset (preset request) VOUCHER_PRESETS) as [p|]; [|discriminate].
  destruct H as (e0 & _ & _ & Hlen & _).
  destruct (generate_vouchers _ _ _ _ _) as [[o pos1] r1] eqn:E.
  destruct o as [vs|e]; [|discriminate]. cbn [bind]. intros H. injection H as <- _ _.
  cbn [vouchers].
  destruct (generate_vouchers_returns _ _ _ _ _ _ _ _ E) as (Hs & _ & _).
  eapply Forall_impl; [exact Hs|]. cbn beta.
  intros v (body & Hc & Hb & Hin). cbn [prefix code_length] in *.
  rewrite Hc. split; [|split].
  - rewrite length_append, Hlen, Hb. reflexivity.
  - rewrite <- Hlen at 1. apply slice_to_append.
  - by exists body.
Qed.

Lemma generate_quick_vouchers_code_shape_witness :
  Forall (fun v => String.length (code v) = 10%nat /\
                   slice_to 2 (code v) = slice_to 2 (upper "1week") /\
                   exists body, code v = slice_to 2 (upper "1week") +:+ body /\
                                Forall (fun ch => In ch alphabet) (list_ascii_of_string body))
    [ voucher_record (quick_request {| preset := "1week"; quick_count := 1 |}
                        {| preset_profile := "1week"; preset_validity := "7d";
                           preset_rate := "10M/10M" |}) "1WNNNNNNNN" ].
Proof.
  apply (generate_quick_vouchers_code_shape (R := lax_router) creds0
           {| preset := "1week"; quick_count := 1 |} (fun _ => 13%nat) 0%nat []
           {| vouchers := _; quick_preset := "1week";
              preset_details := {| preset_profile := "1week"; preset_validity := "7d";
                                   preset_rate := "10M/10M" |} |}
           8%nat [voucher_user (quick_request {| preset := "1week"; quick_count := 1 |}
                                  {| preset_profile := "1week"; preset_validity := "7d";
                                     preset_rate := "10M/10M" |}) "1WNNNNNNNN"]).
  reflexivity.
Defined.

End QuickVoucherFacts.

(** ** Parameter reads: failed reads, distinct segments *)

Module TR069MoreFacts.
Import Py Http TR069 TR069Spec TR069Facts TR069MoreSpec StringSpec StringFacts.

Lemma read_parameter_kept nbi device_id (result : gmap string value) param :
  kept nbi device_id param = true ->
  exists data, read_ok nbi device_id param data /\
               read_parameter nbi device_id result param
               = <[last_segment param := data]> result.
Proof.
  unfold kept. intros H.
  destruct (_request nbi "GET" (parameter_path device_id param)) as [data|e] eqn:E;
    [|discriminate].
  exists data. assert (Hr : read_ok nbi device_id param data) by (by split).
  split; [exact Hr | by apply read_parameter_ok].
Qed.

Lemma read_parameter_dropped nbi device_id (result : gmap string value) param :
  kept nbi device_id param = false ->
  read_parameter nbi device_id result param = result.
Proof.
  unfold kept, read_parameter.
  change ("/devices/" +:+ device_id +:+ "/parameters/" +:+ param)
    with (parameter_path device_id param).
  destruct (_request nbi "GET" (parameter_path device_id param)) as [data|e];
    [|reflexivity].
  by intros ->.
Qed.

Lemma fold_read_filter nbi device_id parameters (acc : gmap string value) :
  fold_left (read_parameter nbi device_id) parameters acc
  = fold_left (read_parameter nbi device_id)
      (List.filter (kept nbi device_id) parameters) acc.
Proof.
  revert acc. induction parameters as [|p ps IH]; intros acc; [reflexivity|].
  cbn [fold_left List.filter]. destruct (kept nbi device_id p) eqn:Hk.
  - cbn [fold_left]. apply IH.
  - rewrite (read_parameter_dropped _ _ _ _ Hk). apply IH.
Qed.

Lemma fold_read_size nbi device_id parameters (acc : gmap string value) :
  (size (fold_left (read_parameter nbi device_id) parameters acc)
   <= size acc + List.length (List.filter (kept nbi device_id) parameters))%nat.
Proof.
  revert acc. induction parameters as [|p ps IH]; intros acc; cbn [fold_left List.filter].
  - cbn. lia.
  - destruct (kept nbi device_id p) eqn:Hk.
    + destruct (read_parameter_kept nbi device_id acc p Hk) as (data & _ & ->).
      etransitivity; [apply IH|]. cbn [List.length].
      rewrite map_size_insert. destruct (acc !! last_segment p); unfold id; lia.
    + rewrite (read_parameter_dropped _ _ _ _ Hk). apply IH.
Qed.

(** The pieces of a split text are free of the separator. *)
Lemma split_free (s : string) (sep : ascii) :
  Forall (fun piece => char_free sep piece = true) (split s sep).
Proof.
  induction s as [|c s IH]; [by repeat constructor|].
  cbn [split]. destruct (Ascii.eqb c sep) eqn:Hc.
  - by constructor.
  - destruct (split s sep) as [|h t]; [by repeat constructor; cbn; rewrite Hc|].
    apply Forall_cons in IH as [Hh Ht]. constructor; [|exact Ht].
    cbn. by rewrite Hc, Hh.
Qed.

Lemma split_nonempty (s : string) (sep : ascii) : split s sep <> [].
Proof.
  induction s as [|c s IH]; [discriminate|].
  cbn [split]. destruct (Ascii.eqb c sep); [discriminate|].
  by destruct (split s sep).
Qed.

Lemma last_segment_free (param : string) : char_free "." (last_segment param) = true.
Proof.
  unfold last_segment, last_item.
  pose proof (split_free param ".") as H. pose proof (split_nonempty param ".") as Hne.
  induction (split param ".") as [|h t IH]; [done|].
  apply Forall_cons in H as [Hh Ht]. destruct t as [|h' t]; [exact Hh|].
  apply IH; [exact Ht | discriminate].
Qed.

(** X11: a read that raises, or that returns an empty document, leaves no
    trace: the result of [get_device_parameters] is the result for the
    parameters whose read is kept.  Hence the result has at most as many
    entries as there are such reads (none for an empty request), and none
    of its keys contains a dot. *)
Theorem get_device_parameters_failed_reads
    (nbi : string -> string -> outcome Response) (device_id : string)
    (parameters : list string) :
  get_device_parameters nbi device_id parameters
  = get_device_parameters nbi device_id (List.filter (kept nbi device_id) parameters) /\
  (size (get_device_parameters nbi device_id parameters)
   <= List.length (List.filter (kept nbi device_id) parameters))%nat /\
  (forall k, is_Some (get_device_parameters nbi device_id parameters !! k) ->
             char_free "." k = true).
Proof.
  split; [apply fold_read_filter|]. split.
  - pose proof (fold_read_size nbi device_id parameters ∅) as H.
    by rewrite map_size_empty in H.
  - intros k Hk. destruct (fold_read_keys _ _ _ _ _ Hk) as [He|(p & _ & ->)].
    + rewrite lookup_empty in He. by destruct He.
    + apply last_segment_free.
Qed.

(** The complement of the overwriting of equal segments: reads with
    pairwise distinct last segments all stay. *)
Lemma fold_read_distinct nbi device_id parameters (acc : gmap string value) :
  NoDup (List.map last_segment parameters) ->
  Forall (fun p => kept nbi device_id p = true /\ acc !! last_segment p = None) parameters ->
  size (fold_left (read_parameter nbi device_id) parameters acc)
  = (size acc + List.length parameters)%nat /\
  (forall p data, In p parameters -> read_ok nbi device_id p data ->
     fold_left (read_parameter nbi device_id) parameters acc !! last_segment p = Some data) /\
  (forall k, ~ In k (List.map last_segment parameters) ->
     fold_left (read_parameter nbi device_id) parameters acc !! k = acc !! k).
Proof.
  revert acc. induction parameters as [|p ps IH]; intros acc Hnd Hall.
  - cbn. split; [lia|]. split; [intros ? ? []|done].
  - cbn [List.map] in Hnd. apply NoDup_cons in Hnd as [Hp Hnd].
    rewrite list_elem_of_In in Hp.
    apply Forall_cons in Hall as [[Hk Hfresh] Hall]. cbn [fold_left].
    destruct (read_parameter_kept nbi device_id acc p Hk) as (data & Hr & ->).
    destruct (IH (<[last_segment p := data]> acc) Hnd) as (Hsize & Hget & Hother).
    { apply Forall_forall. intros q Hq.
      pose proof (proj1 (Forall_forall _ _) Hall q Hq) as [Hkq Hqf].
      split; [exact Hkq|]. rewrite lookup_insert_ne; [exact Hqf|].
      intros Heq. apply Hp. rewrite Heq. apply in_map. by apply list_elem_of_In. }
    split; [|split].
    + rewrite Hsize, map_size_insert, Hfresh. cbn. lia.
    + intros q d [<-|Hq] Hrq.
      * rewrite (Hother _ Hp), lookup_insert_eq.
        destruct Hr as [Hr _], Hrq as [Hrq _]. congruence.
      * by apply Hget.
    + intros k Hk'. cbn in Hk'. rewrite Hother by tauto.
      apply lookup_insert_ne. tauto.
Qed.

(** X12: when the requested paths have pairwise distinct last segments
    and every read is kept, nothing is lost: the result has one entry per
    path, holding what the read of that path returned. *)
Theorem get_device_parameters_distinct_segments
    (nbi : string -> string -> outcome Response) (device_id : string)
    (parameters : list string) :
  NoDup (List.map last_segment parameters) ->
  Forall (fun p => kept nbi device_id p = true) parameters ->
  size (get_device_parameters nbi device_id parameters) = List.length parameters /\
  forall p data, In p parameters -> read_ok nbi device_id p data ->
    get_device_parameters nbi device_id parameters !! last_segment p = Some data.
Proof.
  intros Hnd Hall.
  destruct (fold_read_distinct nbi device_id parameters ∅ Hnd) as (Hs & Hg & _).
  { eapply Forall_impl; [exact Hall|]. cbn beta.
    intros p Hp. split; [exact Hp | apply lookup_empty]. }
  split; [|exact Hg]. unfold get_device_parameters. rewrite Hs, map_size_empty. lia.
Qed.

Lemma get_device_parameters_distinct_segments_witness :
  size (get_device_parameters partial_server "cpe-1"
          ["Device.WiFi.SSID.1.SSID"; "Device.WiFi.Radio.1.Channel"]) = 2%nat /\
  get_device_parameters partial_server "cpe-1"
    ["Device.WiFi.SSID.1.SSID"; "Device.WiFi.Radio.1.Channel"] !! "Channel"
  = Some (VInt 6).
Proof.
  destruct (get_device_parameters_distinct_segments partial_server "cpe-1"
              ["Device.WiFi.SSID.1.SSID"; "Device.WiFi.Radio.1.Channel"])
    as [Hs Hg].
  - apply NoDup_ListNoDup. apply (List.NoDup_count_occ' string_dec). vm_compute.
    intros x [<-|[<-|[]]]; reflexivity.
  - repeat constructor.
  - split; [exact Hs|].
    apply (Hg "Device.WiFi.Radio.1.Channel" (VInt 6)); [right; left; reflexivity|].
    split; reflexivity.
Defined.

End TR069MoreFacts.

(** ** The TR-069 service: lookups, WiFi reads, WiFi updates *)

Module TR069ServiceFacts.
Import Py Http TR069 TR069Spec TR069Facts TR069MoreSpec TR069MoreFacts.
Import TR069Service TR069ServiceSpec.

Example dumps_object_plain : dumps_object "_id" "cpe-1" = "{" +:+ dquote +:+ "_id" +:+ dquote
    +:+ ": " +:+ dquote +:+ "cpe-1" +:+ dquote +:+ "}".
Proof. reflexivity. Qed.

Example escape_quote_and_control :
  escape ("a" +:+ dquote +:+ String "010"%char (String "001"%char "z"))
  = "a" +:+ backslash +:+ dquote +:+ backslash +:+ "n" +:+ backslash +:+ "u0001z".
Proof. reflexivity. Qed.

Section Service.
Variable acs : Call -> outcome Response.

Lemma request_device_query device_id :
  request acs "GET" "/devices" [("query", dumps_object "_id" device_id)] None
  = _request (fun _ _ => acs (device_query device_id)) "GET" "/devices".
Proof. reflexivity. Qed.

(** X13: [get_device] passes an error status of the configuration server
    on, with the server's text in the detail; an answer without a body,
    or with an empty list, is 404 "Device not found"; otherwise the first
    entry of the list is the device. *)
Theorem get_device_outcomes (device_id : string) (response : Response) :
  acs (device_query device_id) = Return response ->
  (400 <= status_code response ->
   get_device acs device_id
   = Raise (HTTPException (status_code response)
                          ("GenieACS error: " +:+ text response))) /\
  (status_code response < 400 ->
   text response = "" \/ json response = Return (VList []) ->
   get_device acs device_id = Raise (HTTPException 404 "Device not found")) /\
  (forall d rest,
     status_code response < 400 -> text response <> "" ->
     json response = Return (VList (d :: rest)) ->
     get_device acs device_id = Return d).
Proof.
  intros Hacs. unfold get_device. rewrite request_device_query.
  unfold _request. rewrite Hacs. cbn [bind].
  split; [|split].
  - intros Hst. destruct (Z.leb_spec 400 (status_code response)); [reflexivity | lia].
  - intros Hst Hempty. destruct (Z.leb_spec 400 (status_code response)); [lia|].
    destruct (String.eqb_spec (text response) "") as [_|Hne]; [reflexivity|].
    destruct Hempty as [He|He]; [done|]. cbn [negb]. by rewrite He.
  - intros d rest Hst Hne Hjs. destruct (Z.leb_spec 400 (status_code response)); [lia|].
    destruct (String.eqb_spec (text response) "") as [He|_]; [done|].
    cbn [negb]. by rewrite Hjs.
Qed.

Lemma wifi_table_segments (tr181 : bool) :
  List.map last_segment
    (List.map snd (if tr181 then WIFI_PARAMS_tr181 else WIFI_PARAMS_default))
  = wifi_keys tr181.
Proof. destruct tr181; reflexivity. Qed.

Lemma wifi_keys_NoDup (tr181 : bool) : NoDup (wifi_keys tr181).
Proof.
  apply NoDup_ListNoDup, (List.NoDup_count_occ' string_dec).
  destruct tr181; intros x [<-|[<-|[<-|[<-|[]]]]]; reflexivity.
Qed.

(** X14: for a device that the registry returns, [get_wifi_settings]
    reads the four paths of the table that matches its data model (the
    TR-181 table when the device has a non-empty [Device] object).  The
    keys of the result are among SSID, the passphrase key of that table,
    Enable and Channel; the four last segments differ, so when all four
    reads are kept the result holds all four values. *)
Theorem get_wifi_settings_entries (device_id : string) (d : gmap string value) :
  get_device acs device_id = Return (VDict d) ->
  exists result,
    get_wifi_settings acs device_id = Return result /\
    (forall k, is_Some (result !! k) -> In k (wifi_keys (uses_tr181 d))) /\
    (Forall (fun p => kept (plain acs) device_id p = true)
            (List.map snd (if uses_tr181 d then WIFI_PARAMS_tr181 else WIFI_PARAMS_default)) ->
     size result = 4%nat /\
     forall k, In k (wifi_keys (uses_tr181 d)) -> is_Some (result !! k)).
Proof.
  intros Hdev. unfold get_wifi_settings. rewrite Hdev. cbn [bind].
  unfold _get_wifi_params. cbn [get bind]. fold (uses_tr181 d).
  set (table := if uses_tr181 d then WIFI_PARAMS_tr181 else WIFI_PARAMS_default).
  exists (get_device_parameters (plain acs) device_id (List.map snd table)).
  split; [subst table; by destruct (uses_tr181 d)|]. split.
  - intros k Hk. destruct (fold_read_keys _ _ _ _ _ Hk) as [He|(p & Hp & ->)].
    + rewrite lookup_empty in He. by destruct He.
    + rewrite <- wifi_table_segments. fold table. by apply in_map.
  - intros Hall.
    assert (Hnd : NoDup (List.map last_segment (List.map snd table))).
    { subst table. rewrite wifi_table_segments. apply wifi_keys_NoDup. }
    destruct (fold_read_distinct (plain acs) device_id (List.map snd table) ∅ Hnd)
      as (Hs & Hg & _).
    { eapply Forall_impl; [exact Hall|]. cbn beta.
      intros p Hp. split; [exact Hp | apply lookup_empty]. }
    split.
    + unfold get_device_parameters. rewrite Hs, map_size_empty.
      subst table. by destruct (uses_tr181 d).
    + intros k Hk. rewrite <- wifi_table_segments in Hk. fold table in Hk.
      apply in_map_iff in Hk as (p & <- & Hp).
      pose proof (proj1 (Forall_forall _ _) Hall p (proj2 (list_elem_of_In _ _) Hp)) as Hkp.
      destruct (read_parameter_kept (plain acs) device_id ∅ p Hkp) as (data & Hr & _).
      exists data. by apply Hg.
Qed.

Lemma request_answer (c : Call) :
  request acs (call_method c) (call_path c) (call_params c) (call_json c) = answer acs c.
Proof.
  unfold request, _request, answer. destruct c as [m p ps b]. cbn [call_method call_path
    call_params call_json].
  destruct (acs _) as [response|e]; [|reflexivity]. cbn [bind].
  destruct (Z.leb 400 (status_code response)); [reflexivity|].
  by destruct (String.eqb (text response) "").
Qed.

Lemma set_wifi_answer (device_id : string) (d : gmap string value) (field val : string) :
  get_device acs device_id = Return (VDict d) ->
  In field ["ssid"; "password"; "enabled"] ->
  set_wifi acs field device_id val
  = answer acs (write_call device_id (wifi_path (uses_tr181 d) field) val).
Proof.
  intros Hdev Hin. unfold set_wifi. rewrite Hdev. cbn [bind].
  unfold _get_wifi_params. cbn [get bind]. fold (uses_tr181 d).
  rewrite <- request_answer. unfold set_device_parameter, write_call.
  cbn [call_method call_path call_params call_json].
  cbn in Hin. destruct Hin as [<-|[<-|[<-|[]]]]; by destruct (uses_tr181 d).
Qed.

(** X15: [update_wifi_settings] never looks at the [channel] field, and
    with none of ssid, password and enabled set it replies at once with
    an empty task list, without looking the device up.  For a device
    that the registry returns, it sends for each field that is set, in
    the order ssid, password, enabled, one POST to the device's tasks,
    with a connection request, of a [setParameterValues] task that
    writes the value (the ssid, the password, "1" or "0" for enabled) to
    the path of that field in the device's data model; the reply lists
    the server's answers under the field names, and the first write the
    server turns down ends the route with that error.  When the registry
    lookup raises and a field is set, the route raises the same. *)
Theorem update_wifi_settings_fields (device_id : string) (settings : WifiSettings) :
  (forall c, update_wifi_settings acs device_id (with_channel settings c)
             = update_wifi_settings acs device_id settings) /\
  (ssid settings = None -> password settings = None -> enabled settings = None ->
   update_wifi_settings acs device_id settings
   = Return {| tasks := []; message := "Settings queued for device update" |}) /\
  (forall d, get_device acs device_id = Return (VDict d) ->
     update_wifi_settings acs device_id settings
     = match queue_all acs device_id (uses_tr181 d) (wanted settings) with
       | Return ts => Return {| tasks := ts; message := "Settings queued for device update" |}
       | Raise e => Raise e
       end) /\
  (forall e, get_device acs device_id = Raise e -> wanted settings <> [] ->
     update_wifi_settings acs device_id settings = Raise e).
Proof.
  split; [reflexivity|]. split; [|split].
  - intros Hs Hp He. unfold update_wifi_settings. by rewrite Hs, Hp, He.
  - intros d Hdev. unfold update_wifi_settings, queue, wanted,
      set_wifi_ssid, set_wifi_password, set_wifi_enabled.
    destruct (ssid settings) as [s|], (password settings) as [p|],
      (enabled settings) as [b|]; cbn [app queue_all bind];
      rewrite ?(set_wifi_answer device_id d "ssid" _ Hdev (or_introl eq_refl)),
        ?(set_wifi_answer device_id d "password" _ Hdev (or_intror (or_introl eq_refl))),
        ?(set_wifi_answer device_id d "enabled" _ Hdev
            (or_intror (or_intror (or_introl eq_refl))));
      repeat (match goal with
              | |- context [answer acs ?c] => destruct (answer acs c); cbn [bind app]
              end);
      reflexivity.
  - intros e Hdev Hw. unfold update_wifi_settings, queue,
      set_wifi_ssid, set_wifi_password, set_wifi_enabled, set_wifi.
    rewrite Hdev. cbn [bind]. unfold wanted in Hw.
    destruct (ssid settings) as [s|]; [reflexivity|].
    destruct (password settings) as [p|]; [reflexivity|].
    destruct (enabled settings) as [b|]; [reflexivity|].
    by destruct Hw.
Qed.

End Service.

Lemma get_device_outcomes_witness :
  get_device one_device "cpe-9" = Raise (HTTPException 404 "Device not found") /\
  exists d, get_device one_device "cpe-1" = Return (VDict d).
Proof.
  split.
  - apply (proj1 (proj2 (get_device_outcomes one_device "cpe-9"
                           (ok_response "[]" (VList [])) eq_refl)));
      [reflexivity | right; reflexivity].
  - eexists.
    eapply (proj2 (proj2 (get_device_outcomes one_device "cpe-1" _ eq_refl)));
      [reflexivity | discriminate | reflexivity].
Defined.

Lemma get_wifi_settings_entries_witness :
  exists result,
    get_wifi_settings one_device "cpe-1" = Return result /\
    size result = 4%nat /\ is_Some (result !! "KeyPassphrase").
Proof.
  assert (Hd : get_device one_device "cpe-1"
               = Return (VDict (<["_id" := VStr "cpe-1"]>
                                (<["Device" := VDict (<["WiFi" := VDict ∅]> ∅)]> ∅)))).
  { vm_compute. reflexivity. }
  destruct (get_wifi_settings_entries one_device "cpe-1" _ Hd)
    as (result & Hr & _ & Hall).
  exists result. split; [exact Hr|].
  destruct Hall as [Hs Hk]; [vm_compute; repeat constructor|].
  split; [exact Hs|]. apply Hk. vm_compute. right. left. reflexivity.
Defined.

Lemma update_wifi_settings_fields_witness :
  update_wifi_settings one_device "cpe-1"
    {| ssid := Some "home"; password := None; channel := Some 11; enabled := Some false |}
  = Return {| tasks := [ {| task_parameter := "ssid";
                            task := VDict (<["_id" := VStr "task-1"]> ∅) |};
                         {| task_parameter := "enabled";
                            task := VDict (<["_id" := VStr "task-1"]> ∅) |} ];
              message := "Settings queued for device update" |} /\
  update_wifi_settings down "cpe-1"
    {| ssid := Some "home"; password := None; channel := Some 11; enabled := Some false |}
  = Raise (NetworkError "connection refused").
Proof.
  split.
  - rewrite (proj1 (proj2 (proj2 (update_wifi_settings_fields one_device "cpe-1"
               {| ssid := Some "home"; password := None; channel := Some 11;
                  enabled := Some false |})))
               (<["_id" := VStr "cpe-1"]>
                (<["Device" := VDict (<["WiFi" := VDict ∅]> ∅)]> ∅))).
    + vm_compute. reflexivity.
    + vm_compute. reflexivity.
  - apply (proj2 (proj2 (proj2 (update_wifi_settings_fields down "cpe-1"
               {| ssid := Some "home"; password := None; channel := Some 11;
                  enabled := Some false |})))).
    + reflexivity.
    + discriminate.
Defined.

End TR069ServiceFacts.

(** ** Token routes, the platform client, the table *)

Module AuthMoreFacts.
Import Py Http Config Auth Reference StringSpec StringFacts ReferenceFacts.
Import AuthSpec AuthFacts LoginSpec LoginFacts UISP AuthRoutes Billing AuthMoreSpec.

Lemma TokenPayload_init_missing (payload : gmap string value) (field : string) :
  In field declared_fields -> payload !! field = None ->
  TokenPayload_init payload = Raise ValidationError.
Proof.
  intros Hin Hnone. unfold TokenPayload_init. cbn in Hin.
  destruct Hin as [<-|[<-|[<-|[<-|[]]]]]; rewrite Hnone;
    repeat (match goal with
            | |- context [match ?x with _ => _ end] => destruct x
            end; try reflexivity); reflexivity.
Qed.

(** X16: a token that the library decodes but whose payload lacks one of
    the four declared fields is not answered 401: building the
    [TokenPayload] raises a validation error that no [except] clause of
    [verify_token] catches, and the route answers the generic 500. *)
Theorem verify_token_incomplete_payload {J : JWT} (settings : Settings) (now : Z)
    (h : string) (payload : gmap string value) (field : string) :
  decoded settings now h = Return payload ->
  In field declared_fields -> payload !! field = None ->
  verify_token settings now h = Raise ValidationError /\
  protected_route settings now (Some h) = ErrorReply 500 "Internal server error".
Proof.
  intros Hd Hin Hnone.
  assert (E : verify_token settings now h = Raise ValidationError).
  { rewrite (verify_token_returns settings now h payload Hd).
    by rewrite (TokenPayload_init_missing payload field Hin Hnone). }
  split; [exact E|]. unfold protected_route, with_required_header. by rewrite E.
Qed.

Lemma verify_token_incomplete_payload_witness :
  verify_token (J := ref_jwt) cfg 2000 ("Bearer " +:+ bare_token) = Raise ValidationError /\
  protected_route (J := ref_jwt) cfg 2000 (Some ("Bearer " +:+ bare_token))
  = ErrorReply 500 "Internal server error".
Proof.
  apply (verify_token_incomplete_payload (J := ref_jwt) cfg 2000 ("Bearer " +:+ bare_token)
           (<["exp" := VInt 87400]> ∅) "email").
  - vm_compute. reflexivity.
  - cbn. tauto.
  - reflexivity.
Defined.

Lemma refresh_payload_lookup (token : TokenPayload) :
  refresh_payload token !! "customer_id" = Some (VInt (customer_id token)) /\
  refresh_payload token !! "uisp_customer_id" = Some (VStr (uisp_customer_id token)) /\
  refresh_payload token !! "email" = Some (VStr (email token)) /\
  (forall k, In k registered_claims -> refresh_payload token !! k = None) /\
  (forall k v, refresh_payload token !! k = Some v -> is_scalar v = true).
Proof.
  unfold refresh_payload. repeat split.
  - intros k Hk. cbn in Hk.
    destruct Hk as [<-|[<-|[<-|[<-|[<-|[<-|[]]]]]]]; reflexivity.
  - intros k v Hv.
    repeat (apply lookup_insert_Some in Hv as [[_ <-]|[_ Hv]]; [reflexivity|]).
    by rewrite lookup_empty in Hv.
Qed.

(** X17: let the algorithm be HS256 and the library keep its contract
    (it signs every payload of scalars with a datetime expiry, its tokens
    hold no blank, and a token decoded before its expiry yields the
    signed claims).  When the new expiry, the time of the refresh plus
    [JWT_EXPIRATION_HOURS], is a datetime within 2 * 10^10 seconds of the
    epoch, [refresh_token] returns a bearer token that verifies before
    that expiry to the same customer id, external id and e-mail, with
    the new expiry.  When the new expiry is no datetime at all,
    [refresh_token] raises [OverflowError]. *)
Theorem refresh_token_keeps_identity {J : JWT} {C : JWTContract J} (settings : Settings)
    (now : Z) (token : TokenPayload) :
  JWT_ALGORITHM settings = "HS256" ->
  (expiry_in_range settings now ->
   exists refreshed,
     refresh_token settings now token = Return refreshed /\
     refreshed_token_type refreshed = "bearer" /\
     forall now', now' < expiry settings now ->
       verify_token settings now' ("Bearer " +:+ refreshed_access_token refreshed)
       = Return {| customer_id := customer_id token;
                   uisp_customer_id := uisp_customer_id token;
                   email := email token;
                   exp := expiry settings now |}) /\
  (~ representable settings now ->
   refresh_token settings now token = Raise OverflowError).
Proof.
  intros Halg. split.
  - intros Hrange.
    pose proof (expiry_in_range_representable settings now Hrange) as Hrep.
    destruct (refresh_payload_lookup token) as (Hc & Hu & He & Hreg & Hsc).
    assert (Hmint : exists tok,
               create_access_token settings now (refresh_payload token) = Return tok).
    { rewrite (create_access_token_representable settings now _ Hrep), Halg.
      apply (encode_scalars _ _ (expiry settings now)).
      - apply lookup_insert_eq.
      - intros k v Hk Hv. rewrite lookup_insert_ne in Hv by done. by apply (Hsc k). }
    destruct Hmint as [tok Hmint].
    exists {| refreshed_access_token := tok; refreshed_token_type := "bearer" |}.
    split; [unfold refresh_token; by rewrite Hmint|]. split; [reflexivity|].
    intros now' Hnow'. cbn [refreshed_access_token].
    exact (verify_minted settings now now' _ tok _ _ _ Hc Hu He Hreg Hmint Hnow').
  - intros Hn. unfold refresh_token.
    by rewrite (create_access_token_overflow settings now _ Hn).
Qed.

Lemma refresh_token_keeps_identity_witness :
  (exists refreshed,
     refresh_token (J := ref_jwt) cfg 50000 sample_payload = Return refreshed /\
     refreshed_token_type refreshed = "bearer" /\
     verify_token (J := ref_jwt) cfg 100000 ("Bearer " +:+ refreshed_access_token refreshed)
     = Return {| customer_id := 7; uisp_customer_id := "42"; email := "a@b.c";
                 exp := 50000 + 3600 * 24 |}) /\
  refresh_token (J := ref_jwt) long_lived 50000 sample_payload = Raise OverflowError.
Proof.
  split.
  - destruct (proj1 (refresh_token_keeps_identity (J := ref_jwt) (C := ref_jwt_contract)
                       cfg 50000 sample_payload eq_refl))
      as (refreshed & Hr & Ht & Hv).
    { unfold expiry_in_range. vm_compute. intuition discriminate. }
    exists refreshed. split; [exact Hr|]. split; [exact Ht|]. apply Hv. reflexivity.
  - apply (proj2 (refresh_token_keeps_identity (J := ref_jwt) (C := ref_jwt_contract)
                    long_lived 50000 sample_payload eq_refl)).
    unfold representable. vm_compute. intuition.
Defined.

End AuthMoreFacts.

(** ** The login route and the table; the platform client; the billing profile *)

Module LoginMoreFacts.
Import Py Http Config Auth Reference StringSpec StringFacts ReferenceFacts.
Import AuthSpec AuthFacts LoginSpec LoginFacts UISP AuthRoutes Billing AuthMoreSpec.

Lemma login_handler_HTTPException {A} (o : outcome A) (e : exn) :
  try_except o
    (except_clauses
       [ (is_HTTPException, fun e => e);
         ((fun _ => true), fun _ => HTTPException 401 "Authentication failed") ])
  = Raise e ->
  is_HTTPException e = true.
Proof.
  destruct o as [a|e0]; cbn; [discriminate|].
  destruct (is_HTTPException e0) eqn:E; intros [= <-]; [exact E|reflexivity].
Qed.

Lemma add_commit_refresh_grows (c : Database.NewCustomer) (db : Database.Table) :
  (exists e db',
     Database.add_commit_refresh c db = (Raise e, db') /\
     Database.rows db' = Database.rows db /\
     Database.next_id db <= Database.next_id db' <= Database.next_id db + 1) \/
  exists row,
    Database.add_commit_refresh c db
    = (Return row, {| Database.rows := (Database.rows db ++ [row])%list;
                      Database.next_id := Database.next_id db + 1 |}) /\
    Database.id row = Database.next_id db /\ Database.is_active row = true /\
    Database.unique_free Database.uisp_customer_id (Database.uisp_customer_id row) db = true /\
    Database.unique_free Database.email (Database.email row) db = true.
Proof.
  assert (Hsame : forall e : exn,
             exists (e0 : exn) (db' : Database.Table),
               (Raise e : outcome Database.Customer, db) = (Raise e0, db') /\
               Database.rows db' = Database.rows db /\
               Database.next_id db <= Database.next_id db' <= Database.next_id db + 1).
  { intros e. exists e, db. split; [reflexivity|]. split; [reflexivity|]. lia. }
  assert (Hdrawn : forall e : exn,
             exists (e0 : exn) (db' : Database.Table),
               (Raise e : outcome Database.Customer,
                {| Database.rows := Database.rows db;
                   Database.next_id := Database.next_id db + 1 |}) = (Raise e0, db') /\
               Database.rows db' = Database.rows db /\
               Database.next_id db <= Database.next_id db' <= Database.next_id db + 1).
  { intros e. eexists e, _. split; [reflexivity|]. split; [reflexivity|].
    cbn [Database.next_id]. lia. }
  unfold Database.add_commit_refresh.
  destruct (Database.bind_String (Database.new_uisp_customer_id c)) as [u|e];
    cbn [bind]; [|left; apply Hsame].
  destruct (Database.bind_String (Database.new_email c)) as [m|e];
    cbn [bind]; [|left; apply Hsame].
  destruct (Database.bind_String (Database.new_name c)) as [n|e];
    cbn [bind]; [|left; apply Hsame].
  destruct (Database.bind_String (Database.new_phone c)) as [ph|e];
    cbn [bind]; [|left; apply Hsame].
  destruct (_ && _); [|left; apply Hsame]. cbv zeta.
  destruct u as [u|]; [|left; apply Hdrawn].
  destruct m as [m|]; [|left; apply Hdrawn].
  destruct (Database.unique_free Database.uisp_customer_id u db) eqn:Hu;
    [|left; apply Hdrawn].
  destruct (Database.unique_free Database.email m db) eqn:Hm; [|left; apply Hdrawn].
  cbn [andb]. right. eexists. split; [reflexivity|]. cbn. by rewrite Hu, Hm.
Qed.

Lemma find_or_create_grows (repr_container : value -> string) (ar : AuthResult)
    (x : string) (email : value) (db : Database.Table) :
  (Database.rows (snd (find_or_create repr_container ar x email db)) = Database.rows db /\
   Database.next_id db
   <= Database.next_id (snd (find_or_create repr_container ar x email db))
   <= Database.next_id db + 1) \/
  exists row,
    find_or_create repr_container ar x email db
    = (Return row, {| Database.rows := (Database.rows db ++ [row])%list;
                      Database.next_id := Database.next_id db + 1 |}) /\
    Database.id row = Database.next_id db /\ Database.is_active row = true /\
    Database.unique_free Database.uisp_customer_id (Database.uisp_customer_id row) db = true /\
    Database.unique_free Database.email (Database.email row) db = true.
Proof.
  assert (Hsame : Database.rows db = Database.rows db /\
                  Database.next_id db <= Database.next_id db <= Database.next_id db + 1)
    by (split; [reflexivity | lia]).
  unfold find_or_create.
  destruct (Database.scalar_one_or_none _) as [[c|]|e]; [by left| |by left].
  match goal with
  | |- context [match ?m with Return _ => _ | Raise _ => _ end] => destruct m as [c|e]
  end; [|by left].
  destruct (add_commit_refresh_grows c db) as [(e & db' & He & H)|(row & He & H)].
  - left. by rewrite He.
  - right. exists row. by rewrite He.
Qed.

Lemma login_table (J : JWT) (settings : Settings)
    (authenticate : string -> string -> outcome AuthResult)
    (repr_container : value -> string) (now : Z) (request : LoginRequest)
    (db : Database.Table) :
  (Database.rows (snd (login settings authenticate repr_container now request db))
   = Database.rows db /\
   Database.next_id db
   <= Database.next_id (snd (login settings authenticate repr_container now request db))
   <= Database.next_id db + 1) \/
  exists row,
    snd (login settings authenticate repr_container now request db)
    = {| Database.rows := (Database.rows db ++ [row])%list;
         Database.next_id := Database.next_id db + 1 |} /\
    Database.id row = Database.next_id db /\ Database.is_active row = true /\
    Database.unique_free Database.uisp_customer_id (Database.uisp_customer_id row) db = true /\
    Database.unique_free Database.email (Database.email row) db = true.
Proof.
  assert (Hsame : Database.rows db = Database.rows db /\
                  Database.next_id db <= Database.next_id db <= Database.next_id db + 1)
    by (split; [reflexivity | lia]).
  unfold login, login_try.
  destruct (authenticate _ _) as [ar|e]; [|by left].
  match goal with
  | |- context [match ?m with Return _ => _ | Raise _ => _ end] =>
      destruct m as [[x email]|e]
  end; [|by left].
  destruct (find_or_create_grows repr_container ar x email db) as [H|(row & H & Hr)].
  - left. destruct (find_or_create _ _ _ _ _) as [[c|e] db']; exact H.
  - right. exists row. rewrite H. by split.
Qed.

Lemma unique_free_not_In (col : Database.Customer -> string) (x : string)
    (db : Database.Table) :
  Database.unique_free col x db = true -> ~ In x (List.map col (Database.rows db)).
Proof.
  unfold Database.unique_free. intros H Hin.
  apply in_map_iff in Hin as [r [<- Hr]].
  rewrite forallb_forall in H. specialize (H r Hr).
  by rewrite String.eqb_refl in H.
Qed.

Lemma NoDup_snoc {A} (l : list A) (a : A) :
  NoDup l -> ~ In a l -> NoDup (l ++ [a])%list.
Proof.
  intros Hl Ha. apply NoDup_app. split; [exact Hl|]. split.
  - intros y Hy Hy'. apply list_elem_of_In in Hy. apply list_elem_of_In in Hy'.
    cbn in Hy'. destruct Hy' as [<-|[]]. by apply Ha.
  - apply NoDup_singleton.
Qed.

(** X18: whatever the platform, the token library and the table do,
    [login] fails only with an [HTTPException]; an exception of the
    platform call is passed on if it is an [HTTPException], becomes 401
    "Authentication failed" otherwise, and leaves table and key sequence
    as they were; and in every case either the rows are as before and the
    key sequence has moved on by one at most, or exactly one active row
    was appended under the next key. *)
Theorem login_failures_and_table (J : JWT) (settings : Settings)
    (authenticate : string -> string -> outcome AuthResult)
    (repr_container : value -> string) (now : Z) (request : LoginRequest)
    (db : Database.Table) :
  (forall e, fst (login settings authenticate repr_container now request db) = Raise e ->
             is_HTTPException e = true) /\
  (forall e, authenticate (username request) (password request) = Raise e ->
             login settings authenticate repr_container now request db
             = (Raise (if is_HTTPException e then e
                       else HTTPException 401 "Authentication failed"), db)) /\
  grown_by_at_most_one db (snd (login settings authenticate repr_container now request db)).
Proof.
  split; [|split].
  - intros e. unfold login. destruct (login_try _ _ _ _ _ _) as [o db'].
    cbn [fst]. apply login_handler_HTTPException.
  - intros e He. unfold login, login_try. rewrite He. cbn.
    by destruct (is_HTTPException e).
  - destruct (login_table J settings authenticate repr_container now request db)
      as [H|(row & H & Hid & Hact & _)]; [by left|].
    right. exists row. by split.
Qed.

Lemma login_failures_and_table_witness :
  login (J := ref_jwt) cfg billing no_repr 1000 {| username := "eve"; password := "x" |}
    table_with_ada
  = (Raise (HTTPException 401 "Invalid UISP credentials"), table_with_ada) /\
  grown_by_at_most_one table_with_ada
    (snd (login (J := ref_jwt) cfg billing no_repr 2000 bob table_with_ada)) /\
  Database.next_id (snd (login (J := ref_jwt) cfg billing no_repr 2000 bob table_with_ada))
  = 3.
Proof.
  pose proof (login_failures_and_table ref_jwt cfg billing no_repr 1000
                {| username := "eve"; password := "x" |} table_with_ada) as (_ & H & _).
  pose proof (login_failures_and_table ref_jwt cfg billing no_repr 2000 bob
                table_with_ada) as (_ & _ & G).
  split; [exact (H _ eq_refl)|]. split; [exact G|]. vm_compute. reflexivity.
Defined.

(** X19: [login] keeps the constraints of the customers table: if external
    ids, e-mails and keys are unique and every key is below the sequence
    before the call, they are so after it, whether the call returns or
    raises. *)
Theorem login_keeps_table_constraints (J : JWT) (settings : Settings)
    (authenticate : string -> string -> outcome AuthResult)
    (repr_container : value -> string) (now : Z) (request : LoginRequest)
    (db : Database.Table) :
  table_ok db ->
  table_ok (snd (login settings authenticate repr_container now request db)).
Proof.
  intros (Hu & Hm & Hk & Hlt).
  destruct (login_table J settings authenticate repr_container now request db)
    as [[Hrows Hnext]|(row & -> & Hid & _ & Hfu & Hfm)].
  { unfold table_ok. rewrite Hrows. split; [exact Hu|]. split; [exact Hm|].
    split; [exact Hk|]. eapply Forall_impl; [exact Hlt|]. cbn beta. intros r Hr. lia. }
  unfold table_ok. cbn [Database.rows Database.next_id].
  rewrite !map_app. cbn [List.map].
  split; [|split; [|split]].
  - apply NoDup_snoc; [exact Hu|]. by apply unique_free_not_In.
  - apply NoDup_snoc; [exact Hm|]. by apply unique_free_not_In.
  - apply NoDup_snoc; [exact Hk|]. intros Hin.
    apply in_map_iff in Hin as [r [Hr Hin]].
    rewrite Forall_forall in Hlt. apply list_elem_of_In in Hin.
    specialize (Hlt r Hin). lia.
  - apply Forall_app. split.
    + eapply Forall_impl; [exact Hlt|]. cbn. intros r Hr. lia.
    + apply Forall_singleton. lia.
Qed.

Lemma login_keeps_table_constraints_witness :
  table_ok table_with_ada /\
  table_ok (snd (login (J := ref_jwt) cfg billing no_repr 1000 bob table_with_ada)) /\
  table_ok (snd (login (J := ref_jwt) cfg billing no_repr 1000 ada empty_table)) /\
  snd (login (J := ref_jwt) cfg billing no_repr 1000 ada empty_table) <> empty_table.
Proof.
  assert (H0 : table_ok empty_table).
  { unfold table_ok. cbn. repeat split; constructor. }
  assert (H1 : table_ok table_with_ada).
  { unfold table_ok. cbn. repeat split;
      [apply NoDup_singleton | apply NoDup_singleton | apply NoDup_singleton |].
    apply Forall_singleton. cbn. lia. }
  split; [exact H1|]. split; [|split].
  - exact (login_keeps_table_constraints ref_jwt cfg billing no_repr 1000 bob
             table_with_ada H1).
  - exact (login_keeps_table_constraints ref_jwt cfg billing no_repr 1000 ada
             empty_table H0).
  - vm_compute. discriminate.
Defined.

Lemma authenticate_refused (self : UISPService) (client : Client)
    (repr_container : value -> string) (u p : string) :
  refused self client u p ->
  authenticate self client repr_container u p = Raise invalid_credentials.
Proof.
  intros [r Hr Hs | r ur Hr Hs Hur Hus | r ur ud Hr Hs Hur Hus Hj Hc];
    unfold authenticate; rewrite Hr; cbn [bind].
  - destruct (Z.eqb_spec (status_code r) 200); [contradiction|reflexivity].
  - rewrite Hs. cbn [Z.eqb Pos.eqb]. rewrite Hur. cbn [bind].
    destruct (Z.eqb_spec (status_code ur) 200); [contradiction|reflexivity].
  - rewrite Hs. cbn [Z.eqb Pos.eqb]. rewrite Hur. cbn [bind].
    rewrite Hus. cbn [Z.eqb Pos.eqb]. rewrite Hj. cbn [bind get]. by rewrite Hc.
Qed.

(** X20: credentials the platform turns down (login not answered 200, user
    lookup not answered 200, or a user record without a client id, as for
    an operator account) all end the same way: [authenticate] raises 401
    "Invalid UISP credentials", and [login] passes that error on unchanged
    and leaves the table as it was. *)
Theorem authenticate_refusals (J : JWT) (settings : Settings) (self : UISPService)
    (client : Client) (repr_container : value -> string) (now : Z)
    (request : LoginRequest) (db : Database.Table) :
  refused self client (username request) (password request) ->
  authenticate self client repr_container (username request) (password request)
  = Raise (HTTPException 401 "Invalid UISP credentials") /\
  login settings (authenticate self client repr_container) repr_container now request db
  = (Raise (HTTPException 401 "Invalid UISP credentials"), db).
Proof.
  intros H. pose proof (authenticate_refused self client repr_container _ _ H) as E.
  split; [exact E|]. unfold login, login_try. by rewrite E.
Qed.

Lemma authenticate_refusals_witness :
  authenticate service platform no_repr "operator" "pw-op"
  = Raise (HTTPException 401 "Invalid UISP credentials") /\
  login (J := ref_jwt) cfg (authenticate service platform no_repr) no_repr 1000 operator
    table_with_ada
  = (Raise (HTTPException 401 "Invalid UISP credentials"), table_with_ada).
Proof.
  apply (authenticate_refusals ref_jwt cfg service platform no_repr 1000 operator
           table_with_ada).
  eapply (refused_no_client service platform "operator" "pw-op" _ _
            (<["email" := VStr "noc@example.org"]> ∅)).
  - vm_compute. reflexivity.
  - reflexivity.
  - vm_compute. reflexivity.
  - reflexivity.
  - reflexivity.
  - reflexivity.
Defined.

(** X23: [login] stores a new customer before it builds its answer.  Let
    the platform accept the credentials with a customer record and a user
    record, and let the table hold no row of that external id and admit
    the new one.  If then the expiry of the token is no datetime, or the
    token is minted but the services handed back are not a list, [login]
    answers 401 "Authentication failed", and the new row stays in the
    table all the same. *)
Theorem login_row_outlives_failure (J : JWT) (settings : Settings)
    (authenticate : string -> string -> outcome AuthResult)
    (repr_container : value -> string) (now : Z) (request : LoginRequest)
    (ar : AuthResult) (cd ud : gmap string value) (db db' : Database.Table)
    (row : Database.Customer) :
  let x := str repr_container (default (VStr "") (cd !! "id")) in
  let email := default (VStr (username request)) (ud !! "email") in
  authenticate (username request) (password request) = Return ar ->
  customer ar = VDict cd ->
  user ar = VDict ud ->
  Database.select_where_uisp_customer_id x db = [] ->
  Database.add_commit_refresh (new_customer repr_container cd x email) db
  = (Return row, db') ->
  ~ representable settings now \/
  ((exists tok, create_access_token settings now
                  (login_payload (Database.id row) x email (token ar)) = Return tok) /\
   forall l, services ar <> VList l) ->
  login settings authenticate repr_container now request db
  = (Raise (HTTPException 401 "Authentication failed"), db') /\
  Database.rows db' = (Database.rows db ++ [row])%list /\
  Database.uisp_customer_id row = x.
Proof.
  intros x email Hauth Hcust Huser Hsel Hadd Hfail.
  destruct (add_commit_refresh_returns (new_customer repr_container cd x email) x db db' row
              eq_refl Hadd) as (-> & Hx & _ & _).
  split; [|by split].
  unfold login, login_try. rewrite Hauth, Hcust, Huser. cbn [get bind].
  fold x. fold email. rewrite <- Hcust.
  rewrite (find_or_create_new repr_container ar cd x email db Hcust Hsel), Hadd.
  destruct Hfail as [Hn|[[tok Hmint] Hserv]].
  - by rewrite (create_access_token_overflow settings now _ Hn).
  - rewrite Hmint. cbn [bind]. rewrite Hcust. unfold LoginResponse_init.
    destruct (services ar) as [| | | | |l|] eqn:E; try reflexivity.
    by destruct (Hserv l).
Qed.

Lemma login_row_outlives_failure_witness :
  login (J := ref_jwt) cfg odd_billing no_repr 1000 dan empty_table
  = (Raise (HTTPException 401 "Authentication failed"),
     {| Database.rows :=
          [ {| Database.id := 1; Database.uisp_customer_id := "50";
               Database.email := "dan@example.org";
               Database.name := Some ""; Database.phone := Some "";
               Database.is_active := true |} ];
        Database.next_id := 2 |}).
Proof.
  refine (proj1 (login_row_outlives_failure ref_jwt cfg odd_billing no_repr 1000 dan
           {| token := VStr "uisp-session-3";
              user := VDict (<["email" := VStr "dan@example.org"]>
                             (<["clientId" := VInt 50]> ∅));
              customer := VDict (<["id" := VInt 50]> ∅);
              services := VDict (<["items" := VList []]> ∅) |}
           (<["id" := VInt 50]> ∅)
           (<["email" := VStr "dan@example.org"]> (<["clientId" := VInt 50]> ∅))
           empty_table
           {| Database.rows :=
                [ {| Database.id := 1; Database.uisp_customer_id := "50";
                     Database.email := "dan@example.org";
                     Database.name := Some EmptyString; Database.phone := Some EmptyString;
                     Database.is_active := true |} ];
              Database.next_id := 2 |}
           {| Database.id := 1; Database.uisp_customer_id := "50";
              Database.email := "dan@example.org";
              Database.name := Some EmptyString; Database.phone := Some EmptyString;
              Database.is_active := true |}
           eq_refl eq_refl eq_refl eq_refl _ _)).
  - vm_compute. reflexivity.
  - right. split.
    + eexists. vm_compute. reflexivity.
    + intros l. discriminate.
Defined.

End LoginMoreFacts.

(** ** A client account without a client record; the billing profile *)

Module PlatformFacts.
Import Py Http Config Auth Reference StringSpec StringFacts ReferenceFacts.
Import AuthSpec AuthFacts LoginSpec LoginFacts UISP AuthRoutes Billing AuthMoreSpec.

Lemma authenticate_record_missing (self : UISPService) (client : Client)
    (repr_container : value -> string) (u p session : string)
    (ud : gmap string value) (cid : value) :
  client_record_missing self client repr_container u p session ud cid ->
  authenticate self client repr_container u p
  = Return {| token := VStr session; user := VDict ud;
              customer := VDict ∅; services := VList [] |}.
Proof.
  intros [(r & Hr & Hs & Hh) (ur & Hur & Hus & Hj) [Hc Ht] (rc & Hrc & Hsc)
            (rs & Hrs & Hss)].
  unfold authenticate. rewrite Hr. cbn [bind]. rewrite Hs. cbn [Z.eqb Pos.eqb].
  rewrite Hh, Hur. cbn [bind]. rewrite Hus. cbn [Z.eqb Pos.eqb].
  rewrite Hj. cbn [bind get]. rewrite Hc. cbn [default from_option]. unfold id.
  rewrite Ht.
  unfold get_customer, get_customer_services. rewrite Hrc, Hrs. cbn [bind].
  destruct (Z.eqb_spec (status_code rc) 200); [contradiction|].
  destruct (Z.eqb_spec (status_code rs) 200); [contradiction|]. reflexivity.
Qed.

(** X21: let the platform accept a client account but answer the lookups
    of its client record and of its services with another status than
    200.  Then [authenticate] still returns, with customer [{}] and
    services [[]].  If moreover the user's e-mail is a string (or absent,
    the login name then standing for it), the row of the empty external
    id is stored, the algorithm is HS256 with the library keeping its
    contract, and the expiry is a datetime within 2 * 10^10 seconds of
    the epoch, then [login] takes the empty string as the external id:
    it answers with the row stored under the empty id, whichever account
    logged in, leaves the table as it is, and the token it issues
    verifies to that row and to the empty external id. *)
Theorem login_without_client_record {J : JWT} {C : JWTContract J} (settings : Settings)
    (self : UISPService) (client : Client) (repr_container : value -> string)
    (now : Z) (request : LoginRequest) (session : string) (ud : gmap string value)
    (cid : value) (e : string) (db : Database.Table) (row : Database.Customer) :
  JWT_ALGORITHM settings = "HS256" ->
  expiry_in_range settings now ->
  client_record_missing self client repr_container (username request) (password request)
    session ud cid ->
  default (VStr (username request)) (ud !! "email") = VStr e ->
  stored "" row db ->
  authenticate self client repr_container (username request) (password request)
  = Return {| token := VStr session; user := VDict ud;
              customer := VDict ∅; services := VList [] |} /\
  exists resp,
    login settings (authenticate self client repr_container) repr_container now request db
    = (Return resp, db) /\
    forall now', now' < expiry settings now ->
      verify_token settings now' ("Bearer " +:+ access_token resp)
      = Return {| customer_id := Database.id row; uisp_customer_id := ""; email := e;
                  exp := expiry settings now |}.
Proof.
  intros Halg Hrange Hmiss Hemail Hrow.
  pose proof (authenticate_record_missing self client repr_container _ _ _ _ _ Hmiss) as E.
  split; [exact E|].
  eapply (login_with_row settings (authenticate self client repr_container)
            repr_container Halg now request _ ∅ "" e db db row
            (expiry_in_range_representable settings now Hrange)).
  - constructor; cbn.
    + exact E.
    + reflexivity.
    + exists ud. by split.
    + by exists [].
    + reflexivity.
    + reflexivity.
  - by apply find_or_create_stored.
Qed.

Lemma login_without_client_record_witness :
  authenticate service platform no_repr "carol" "pw-carol"
  = Return {| token := VStr "session-carol";
              user := VDict (<["email" := VStr "carol@example.org"]>
                             (<["clientId" := VInt 77]> ∅));
              customer := VDict ∅; services := VList [] |} /\
  exists resp,
    login (J := ref_jwt) cfg (authenticate service platform no_repr) no_repr 1000 carol
      table_with_blank = (Return resp, table_with_blank) /\
    verify_token (J := ref_jwt) cfg 2000 ("Bearer " +:+ access_token resp)
    = Return {| customer_id := 5; uisp_customer_id := ""; email := "carol@example.org";
                exp := 87400 |}.
Proof.
  destruct (login_without_client_record (J := ref_jwt) (C := ref_jwt_contract) cfg
              service platform no_repr 1000 carol "session-carol"
              (<["email" := VStr "carol@example.org"]> (<["clientId" := VInt 77]> ∅))
              (VInt 77) "carol@example.org" table_with_blank
              {| Database.id := 5; Database.uisp_customer_id := "";
                 Database.email := "someone@example.org";
                 Database.name := Some ""; Database.phone := Some "";
                 Database.is_active := true |})
    as (Ha & resp & Hl & Hv).
  - reflexivity.
  - unfold expiry_in_range. vm_compute. intuition discriminate.
  - constructor.
    + eexists. split; [vm_compute; reflexivity|]. split; reflexivity.
    + eexists. split; [vm_compute; reflexivity|]. split; reflexivity.
    + split; reflexivity.
    + eexists. split; [vm_compute; reflexivity|]. cbn. lia.
    + eexists. split; [vm_compute; reflexivity|]. cbn. lia.
  - reflexivity.
  - reflexivity.
  - split; [exact Ha|]. exists resp. split; [exact Hl|]. apply Hv. reflexivity.
Defined.

Lemma extract_uisp_token_decodes_blank {J : JWT} (settings : Settings) (now : Z)
    (token : TokenPayload) :
  extract_uisp_token settings now token
  = bind (jwt_decode "" (SECRET_KEY settings) [JWT_ALGORITHM settings] now)
         (fun full_token => Return (default (VStr "") (full_token !! "uisp_token"))).
Proof. reflexivity. Qed.

(** X22: [get_billing_profile] never uses the platform session stored at
    login: the dumped payload has no [_token] entry, so the text decoded is
    always the empty string.  When the library rejects the empty string,
    the platform is asked for the caller's client record with an empty
    token; the reply is then 401 "UISP session expired" if the platform
    answers 401, its own status with "UISP error" from 400 on, and the
    document otherwise. *)
Theorem get_billing_profile_blank_session {J : JWT} (settings : Settings)
    (self : BillingService) (client_get : string -> value -> outcome Response)
    (now : Z) (token : TokenPayload) (e : exn) (response : Response) :
  jwt_decode "" (SECRET_KEY settings) [JWT_ALGORITHM settings] now = Raise e ->
  client_get (base_url self +:+ "/api/v2.1" +:+ "/clients/" +:+ uisp_customer_id token)
             (VStr "") = Return response ->
  get_billing_profile settings self client_get now token
  = if Z.eqb (status_code response) 401 then Raise (HTTPException 401 "UISP session expired")
    else if Z.leb 400 (status_code response)
         then Raise (HTTPException (status_code response) "UISP error")
         else json response.
Proof.
  intros Hd Hr. unfold get_billing_profile.
  rewrite extract_uisp_token_decodes_blank, Hd. cbn [bind].
  unfold get_customer_profile, _request. rewrite Hr. reflexivity.
Qed.

Lemma get_billing_profile_blank_session_witness :
  get_billing_profile (J := ref_jwt) cfg billing_service billing_platform 2000
    {| customer_id := 7; uisp_customer_id := "42"; email := "a@b.c"; exp := 87400 |}
  = Raise (HTTPException 401 "UISP session expired").
Proof.
  eapply (get_billing_profile_blank_session (J := ref_jwt) cfg billing_service
            billing_platform 2000 _ _ (json_response 401 (VDict ∅) ∅)).
  - vm_compute. reflexivity.
  - reflexivity.
Defined.

End PlatformFacts.
